(** * Scan-to-check-in workflow of the loyalty kiosk front end

    A shallow embedding of [app/frontend/static/scan.js] (cookie helpers,
    [initializeCamera], [handleScan]) together with the [AppState] object
    it mutates, followed by the properties of the workflow.

    Conventions.
    - A JavaScript string is a [string]; one character is one UTF-16 code
      unit below 256.
    - A value that may be [null]/[undefined] is an [option].
    - Statements that touch the page, the global objects or the outside
      world live in the monad [M]: state passing over [World], a list of
      emitted [Event]s, and JavaScript exceptions.
    - The outcome of every asynchronous operation (script load, promise,
      XHR) is chosen by the environment and handed to the model as a
      [Settled] value; the callbacks are the source's callbacks.  Every
      registration of a callback in scan.js is the last statement of
      its task, so a callback is run where it is registered, behind the
      event that settles its operation; one call of [initializeCamera]
      or [handleScan] is followed to its end before the next begins.
    - The scan view is taken to carry the elements [#cameraDropdown],
      [#qr-reader] and [#error-message].
    - [document.cookie] is the browser's cookie store, not a string
      variable: an assignment adds or replaces one cookie, or removes it
      when its expiry date has passed, and leaves the other cookies
      alone; what is read back is the list of the cookies that have not
      expired, each as [name=value], without their attributes.  The page
      is taken to be allowed to use cookies, and the clock stands still
      during one run. *)

From Stdlib Require Import String Ascii List ZArith Bool Lia DecimalString
  DecimalN.
Import ListNotations.
Open Scope string_scope.

(* ================================================================== *)
(** * String built-ins used by the source *)

Module JS.

(** WhiteSpace and LineTerminator code units below 256, as stripped by
    [String.prototype.trim]: TAB, LF, VT, FF, CR, SP, NBSP. *)
Definition isWhiteSpace (c : ascii) : bool :=
  match N_of_ascii c with
  | 9%N | 10%N | 11%N | 12%N | 13%N | 32%N | 160%N => true
  | _ => false
  end.

Definition isEmpty (s : string) : bool :=
  match s with EmptyString => true | String _ _ => false end.

Fixpoint trimStart (s : string) : string :=
  match s with
  | EmptyString => EmptyString
  | String c s' => if isWhiteSpace c then trimStart s' else s
  end.

Fixpoint trimEnd (s : string) : string :=
  match s with
  | EmptyString => EmptyString
  | String c s' =>
      let r := trimEnd s' in
      if isWhiteSpace c && isEmpty r then EmptyString else String c r
  end.

(** [s.trim()] *)
Definition trim (s : string) : string := trimEnd (trimStart s).

(** [s.split(sep)] for a one-character separator: never the empty list. *)
Fixpoint split (sep : ascii) (s : string) : list string :=
  match s with
  | EmptyString => [EmptyString]
  | String c s' =>
      if Ascii.eqb c sep then EmptyString :: split sep s'
      else match split sep s' with
           | [] => [String c EmptyString]
           | p :: ps => String c p :: ps
           end
  end.

(** [s.startsWith(p)] *)
Fixpoint startsWith (s p : string) {struct p} : bool :=
  match p with
  | EmptyString => true
  | String a p' =>
      match s with
      | EmptyString => false
      | String b s' => Ascii.eqb a b && startsWith s' p'
      end
  end.

(** [s.substring(start)] *)
Fixpoint substring (start : nat) (s : string) : string :=
  match start with
  | O => s
  | S n => match s with
           | EmptyString => EmptyString
           | String _ s' => substring n s'
           end
  end.

(** [s.includes(p)] *)
Fixpoint includes (s p : string) : bool :=
  startsWith s p ||
  match s with
  | EmptyString => false
  | String _ s' => includes s' p
  end.

(** Occurrence of a code unit in a string. *)
Fixpoint has (c : ascii) (s : string) : bool :=
  match s with
  | EmptyString => false
  | String a s' => Ascii.eqb a c || has c s'
  end.

(** Last code unit of a string. *)
Fixpoint last (s : string) : option ascii :=
  match s with
  | EmptyString => None
  | String c EmptyString => Some c
  | String _ s' => last s'
  end.

Definition first (s : string) : option ascii :=
  match s with EmptyString => None | String c _ => Some c end.

(** Does the string begin, or end, with a code unit that [trim] strips? *)
Definition leadingSpace (s : string) : bool :=
  match first s with Some c => isWhiteSpace c | None => false end.

Definition trailingSpace (s : string) : bool :=
  match last s with Some c => isWhiteSpace c | None => false end.

(** Truthiness of a value that is a string, [null] or [undefined]. *)
Definition truthy (v : option string) : bool :=
  match v with
  | Some s => negb (isEmpty s)
  | None => false
  end.

(** Conversion to a string, as an assignment to a DOM string does it. *)
Definition toString (v : option string) : string :=
  match v with
  | Some s => s
  | None => "null"
  end.

(** [a || b] on such values. *)
Definition or (a b : option string) : option string :=
  if truthy a then a else b.

(** [a || "literal"]: the right operand is a string. *)
Definition orElse (a : option string) (b : string) : string :=
  match or a (Some b) with Some s => s | None => b end.

(** Decimal digits of a natural number. *)
Definition decimal (n : Z) : string :=
  NilZero.string_of_uint (N.to_uint (Z.to_N n)).

Fixpoint zeros (n : nat) : string :=
  match n with O => EmptyString | S k => String "0" (zeros k) end.

(** ToZeroPaddedDecimalString(n, minLength) *)
Definition zeroPadded (n : Z) (minLength : nat) : string :=
  let s := decimal n in zeros (minLength - String.length s) ++ s.

End JS.

(* ================================================================== *)
(** * The Date built-in, as far as [setCookie] uses it *)

Module Date.

Local Open Scope Z_scope.

Definition msPerDay : Z := 86400000.

(** A time value: [None] is NaN (an invalid date). *)
Definition timeValue := option Z.

(** TimeClip *)
Definition timeClip (t : Z) : timeValue :=
  if Z.abs t <=? 8640000000000000 then Some t else None.

Definition dayName (wd : Z) : string :=
  match wd with
  | 0 => "Sun" | 1 => "Mon" | 2 => "Tue" | 3 => "Wed"
  | 4 => "Thu" | 5 => "Fri" | _ => "Sat"
  end.

Definition monthName (m : Z) : string :=
  match m with
  | 1 => "Jan" | 2 => "Feb" | 3 => "Mar" | 4 => "Apr"
  | 5 => "May" | 6 => "Jun" | 7 => "Jul" | 8 => "Aug"
  | 9 => "Sep" | 10 => "Oct" | 11 => "Nov" | _ => "Dec"
  end.

(** Year, month (1..12) and day of month of a day number counted from
    1 January 1970, in the proleptic Gregorian calendar. *)
Definition civil (day : Z) : Z * Z * Z :=
  let z := day + 719468 in
  let era := z / 146097 in
  let doe := z - era * 146097 in
  let yoe := (doe - doe / 1460 + doe / 36524 - doe / 146096) / 365 in
  let doy := doe - (365 * yoe + yoe / 4 - yoe / 100) in
  let mp := (5 * doy + 2) / 153 in
  let d := doy - (153 * mp + 2) / 5 + 1 in
  let m := if mp <? 10 then mp + 3 else mp - 9 in
  let y := yoe + era * 400 + (if m <=? 2 then 1 else 0) in
  (y, m, d).

(** [Date.prototype.toUTCString] *)
Definition toUTCString (tv : timeValue) : string :=
  match tv with
  | None => "Invalid Date"
  | Some t =>
      let day := t / msPerDay in
      let ms := t mod msPerDay in
      let '(y, m, d) := civil day in
      let weekday := (day + 4) mod 7 in
      let hh := ms / 3600000 in
      let mm := (ms / 60000) mod 60 in
      let ss := (ms / 1000) mod 60 in
      (dayName weekday ++ ", " ++ JS.zeroPadded d 2 ++ " " ++ monthName m ++ " "
        ++ (if (y <? 0)%Z then "-" else "") ++ JS.zeroPadded (Z.abs y) 4 ++ " "
        ++ JS.zeroPadded hh 2 ++ ":" ++ JS.zeroPadded mm 2 ++ ":"
        ++ JS.zeroPadded ss 2 ++ " GMT")%string
  end.

(** The time of day as [toUTCString] prints it. *)
Definition timeText (t : Z) : string :=
  let ms := t mod msPerDay in
  (JS.zeroPadded (ms / 3600000) 2 ++ ":"
    ++ JS.zeroPadded ((ms / 60000) mod 60) 2 ++ ":"
    ++ JS.zeroPadded ((ms / 1000) mod 60) 2)%string.

End Date.

(* ================================================================== *)
(** * The cookie store behind [document.cookie] *)

(** Assigning to [document.cookie] hands the text to the browser's cookie
    store, and reading it asks the store for the cookies of the page.
    The store follows the cookie standard (RFC 6265 and its revision):
    what is kept of an assignment is the name and the value of its first
    field, both trimmed of spaces and tabs, and the expiry date if one
    can be read from an [expires] attribute. *)

Module Jar.

(** A cookie of the page.  scan.js writes no [domain] and no other
    [path] than [/], and the store is taken to hold only cookies of that
    kind, which every page of the site sees and which the name
    identifies: a script-readable cookie of the page's host with the
    path [/]. *)
Record Cookie : Type := {
  cookie_name : string;
  cookie_value : string;
  expiry : option Z        (* expiry time; [None]: kept for the session *)
}.

Definition code (c : ascii) : N := N_of_ascii c.

(** Control characters. *)
Definition isControl (c : ascii) : bool :=
  let n := code c in ((n <=? 31) || (n =? 127))%N.

(** Control characters, the horizontal tab apart: a text with one of
    them is ignored by the store. *)
Definition isCTL (c : ascii) : bool :=
  let n := code c in
  ((n <=? 8) || ((10 <=? n) && (n <=? 31)) || (n =? 127))%N.

(** WSP: space and horizontal tab. *)
Definition isWSP (c : ascii) : bool :=
  let n := code c in ((n =? 9) || (n =? 32))%N.

Definition isDigit (c : ascii) : bool :=
  let n := code c in ((48 <=? n) && (n <=? 57))%N.

(** The delimiters of a cookie date. *)
Definition isDelimiter (c : ascii) : bool :=
  let n := code c in
  ((n =? 9) || ((32 <=? n) && (n <=? 47)) || ((59 <=? n) && (n <=? 64))
   || ((91 <=? n) && (n <=? 96)) || ((123 <=? n) && (n <=? 126)))%N.

Definition toLower (c : ascii) : ascii :=
  let n := code c in
  if ((65 <=? n) && (n <=? 90))%N then ascii_of_N (n + 32) else c.

Fixpoint lower (s : string) : string :=
  match s with
  | EmptyString => EmptyString
  | String c s' => String (toLower c) (lower s')
  end.

Fixpoint any (p : ascii -> bool) (s : string) : bool :=
  match s with
  | EmptyString => false
  | String c s' => p c || any p s'
  end.

Fixpoint all (p : ascii -> bool) (s : string) : bool :=
  match s with
  | EmptyString => true
  | String c s' => p c && all p s'
  end.

Definition hasCTL (s : string) : bool := any isCTL s.

Definition hasControl (s : string) : bool := any isControl s.

(** Length in octets of the UTF-8 encoding. *)
Fixpoint octets (s : string) : nat :=
  match s with
  | EmptyString => O
  | String c s' => (if (code c <? 128)%N then 1 else 2) + octets s'
  end.

(** Removal of leading and trailing WSP. *)
Fixpoint dropWSP (s : string) : string :=
  match s with
  | EmptyString => EmptyString
  | String c s' => if isWSP c then dropWSP s' else s
  end.

Fixpoint dropEndWSP (s : string) : string :=
  match s with
  | EmptyString => EmptyString
  | String c s' =>
      let r := dropEndWSP s' in
      if isWSP c && JS.isEmpty r then EmptyString else String c r
  end.

Definition trimWSP (s : string) : string := dropEndWSP (dropWSP s).

Definition leadingWSP (s : string) : bool :=
  match JS.first s with Some c => isWSP c | None => false end.

Definition trailingWSP (s : string) : bool :=
  match JS.last s with Some c => isWSP c | None => false end.

(** The text before the first [sep] and, when there is one, the text
    after it. *)
Fixpoint cut (sep : ascii) (s : string) : string * option string :=
  match s with
  | EmptyString => (EmptyString, None)
  | String c s' =>
      if Ascii.eqb c sep then (EmptyString, Some s')
      else let '(a, b) := cut sep s' in (String c a, b)
  end.

Fixpoint take (n : nat) (s : string) : string :=
  match n, s with
  | S k, String c s' => String c (take k s')
  | _, _ => EmptyString
  end.

(** ** Cookie dates *)

Section CookieDate.

Local Open Scope Z_scope.

(** The date tokens of a text: the non-empty runs between delimiters. *)
Fixpoint splitDelimiters (s : string) : list string :=
  match s with
  | EmptyString => [EmptyString]
  | String c s' =>
      if isDelimiter c then EmptyString :: splitDelimiters s'
      else match splitDelimiters s' with
           | [] => [String c EmptyString]
           | p :: ps => String c p :: ps
           end
  end.

Definition dateTokens (s : string) : list string :=
  filter (fun t => negb (JS.isEmpty t)) (splitDelimiters s).

Fixpoint digitRun (s : string) : string :=
  match s with
  | EmptyString => EmptyString
  | String c s' => if isDigit c then String c (digitRun s') else EmptyString
  end.

(** The number written by a string of digits. *)
Definition number (digits : string) : option Z :=
  match NilEmpty.uint_of_string digits with
  | Some u => Some (Z.of_N (N.of_uint u))
  | None => None
  end.

(** Between [min] and [max] digits at the head of a token, followed by a
    character that is no digit or, unless [trailing] allows more, by
    nothing. *)
Definition parseDigits (token : string) (min max : nat) (trailing : bool)
    : option Z :=
  let run := digitRun token in
  let count := String.length run in
  if (count <? min)%nat || (max <? count)%nat then None
  else if negb trailing && negb (count =? String.length token)%nat then None
  else number run.

(** time = 1*2DIGIT ":" 1*2DIGIT ":" 1*2DIGIT ( non-digit *OCTET ) *)
Definition parseTime (token : string) : option (Z * Z * Z) :=
  match cut ":" token with
  | (h, Some rest) =>
      match cut ":" rest with
      | (m, Some s) =>
          match parseDigits h 1 2 false, parseDigits m 1 2 false,
                parseDigits s 1 2 true with
          | Some hh, Some mm, Some ss => Some (hh, mm, ss)
          | _, _, _ => None
          end
      | (_, None) => None
      end
  | (_, None) => None
  end.

(** month = ( "jan" / "feb" / ... / "dec" ) *OCTET, whatever the case. *)
Definition parseMonth (token : string) : option Z :=
  let k := lower (take 3 token) in
  if String.eqb k "jan" then Some 1 else if String.eqb k "feb" then Some 2
  else if String.eqb k "mar" then Some 3 else if String.eqb k "apr" then Some 4
  else if String.eqb k "may" then Some 5 else if String.eqb k "jun" then Some 6
  else if String.eqb k "jul" then Some 7 else if String.eqb k "aug" then Some 8
  else if String.eqb k "sep" then Some 9 else if String.eqb k "oct" then Some 10
  else if String.eqb k "nov" then Some 11 else if String.eqb k "dec" then Some 12
  else None.

(** What has been found of a date so far. *)
Record DateFields : Type := {
  found_time : option (Z * Z * Z);
  found_day : option Z;
  found_month : option Z;
  found_year : option Z
}.

Definition noFields : DateFields :=
  {| found_time := None; found_day := None; found_month := None;
     found_year := None |}.

(** One date token: it is taken for the first of time, day of month,
    month and year that is still missing and whose form it has. *)
Definition dateStep (f : DateFields) (token : string) : DateFields :=
  match found_time f, parseTime token with
  | None, Some t =>
      {| found_time := Some t; found_day := found_day f;
         found_month := found_month f; found_year := found_year f |}
  | _, _ =>
  match found_day f, parseDigits token 1 2 true with
  | None, Some d =>
      {| found_time := found_time f; found_day := Some d;
         found_month := found_month f; found_year := found_year f |}
  | _, _ =>
  match found_month f, parseMonth token with
  | None, Some m =>
      {| found_time := found_time f; found_day := found_day f;
         found_month := Some m; found_year := found_year f |}
  | _, _ =>
  match found_year f, parseDigits token 2 4 true with
  | None, Some y =>
      {| found_time := found_time f; found_day := found_day f;
         found_month := found_month f; found_year := Some y |}
  | _, _ => f
  end end end end.

(** Two-digit years belong to 1970..2069. *)
Definition fullYear (y : Z) : Z :=
  if (70 <=? y) && (y <=? 99) then y + 1900
  else if (0 <=? y) && (y <=? 69) then y + 2000
  else y.

Definition isLeapYear (y : Z) : bool :=
  (y mod 4 =? 0) && (negb (y mod 100 =? 0) || (y mod 400 =? 0)).

Definition daysInMonth (y m : Z) : Z :=
  match m with
  | 2 => if isLeapYear y then 29 else 28
  | 4 | 6 | 9 | 11 => 30
  | _ => 31
  end.

(** Day number, counted from 1 January 1970, of a date of the proleptic
    Gregorian calendar. *)
Definition dayFromCivil (y m d : Z) : Z :=
  let y' := if m <=? 2 then y - 1 else y in
  let era := y' / 400 in
  let yoe := y' - era * 400 in
  let mp := if 2 <? m then m - 3 else m + 9 in
  let doy := (153 * mp + 2) / 5 + d - 1 in
  let doe := yoe * 365 + yoe / 4 - yoe / 100 + doy in
  era * 146097 + doe - 719468.

(** The time value of a date and a time of day in UTC. *)
Definition timeValueOf (y m d hh mm ss : Z) : Z :=
  dayFromCivil y m d * Date.msPerDay + hh * 3600000 + mm * 60000 + ss * 1000.

(** The cookie-date algorithm: [None] when the text yields no date. *)
Definition parseDate (s : string) : option Z :=
  let f := fold_left dateStep (dateTokens s) noFields in
  match found_time f, found_day f, found_month f, found_year f with
  | Some (hh, mm, ss), Some d, Some m, Some y =>
      let y := fullYear y in
      if (d <? 1) || (31 <? d) || (y <? 1601)
         || (23 <? hh) || (59 <? mm) || (59 <? ss)
         || (daysInMonth y m <? d)
      then None
      else Some (timeValueOf y m d hh mm ss)
  | _, _, _, _ => None
  end.

End CookieDate.

(** ** Assignment and reading *)

(** Name, in lower case, and value of an attribute. *)
Definition attribute (av : string) : string * string :=
  match cut "=" av with
  | (n, Some v) => (lower (trimWSP n), trimWSP v)
  | (n, None) => (lower (trimWSP n), EmptyString)
  end.

(** The expiry time given by the attributes: that of the last [expires]
    whose value is a date.  scan.js writes no [max-age]. *)
Definition expiryOf (avs : list string) : option Z :=
  fold_left
    (fun acc av =>
       let '(n, v) := attribute av in
       if String.eqb n "expires"
       then match parseDate v with Some e => Some e | None => acc end
       else acc)
    avs None.

(** Names that begin with [__Secure-], [__Host-] or [__Http-], whatever
    the case of the letters. *)
Definition reservedPrefix (s : string) : bool :=
  let k := lower s in
  JS.startsWith k "__secure-" || JS.startsWith k "__host-"
  || JS.startsWith k "__http-".

Definition hasAttribute (k : string) (avs : list string) : bool :=
  existsb (fun av => String.eqb (fst (attribute av)) k) avs.

(** What a reserved prefix asks of the attributes: [__Secure-] asks for
    [secure]; [__Host-] asks for [secure], for the path [/] and for no
    [domain]; [__Http-] asks for [HttpOnly], which a script cannot
    give.  scan.js writes no [secure], and whether the page is one that
    may write it is left out. *)
Definition prefixMet (n : string) (avs : list string) : bool :=
  let k := lower n in
  if JS.startsWith k "__http-" then false
  else if JS.startsWith k "__host-"
  then hasAttribute "secure" avs && negb (hasAttribute "domain" avs)
       && existsb (fun av => String.eqb (fst (attribute av)) "path"
                             && String.eqb (snd (attribute av)) "/") avs
  else hasAttribute "secure" avs.

(** The cookie that a text assigned to [document.cookie] describes;
    [None] when the text is ignored: a text with a control character, a
    name and a value of more than 4096 bytes together or both empty, a
    reserved prefix without what it asks for. *)
Definition parse (text : string) : option Cookie :=
  if hasCTL text then None
  else
    match JS.split ";" text with
    | [] => None
    | nv :: avs =>
        let '(n, v) :=
          match cut "=" nv with
          | (a, Some b) => (trimWSP a, trimWSP b)
          | (a, None) => (EmptyString, trimWSP a)
          end in
        if (4096 <? octets n + octets v)%nat then None
        else if JS.isEmpty n && JS.isEmpty v then None
        else if JS.isEmpty n && reservedPrefix v then None
        else if reservedPrefix n && negb (prefixMet n avs) then None
        else Some {| cookie_name := n; cookie_value := v;
                     expiry := expiryOf avs |}
    end.

Definition sameName (c d : Cookie) : bool :=
  String.eqb (cookie_name c) (cookie_name d).

(** A cookie takes the place of the one with its name, or comes last. *)
Definition store (c : Cookie) (jar : list Cookie) : list Cookie :=
  if existsb (sameName c) jar
  then map (fun d => if sameName c d then c else d) jar
  else (jar ++ [c])%list.

Definition expired (now : Z) (c : Cookie) : bool :=
  match expiry c with
  | Some e => (e <=? now)%Z
  | None => false
  end.

(** Expired cookies leave the store. *)
Definition evict (now : Z) (jar : list Cookie) : list Cookie :=
  filter (fun c => negb (expired now c)) jar.

(** [document.cookie = text] at the time [now]. *)
Definition assign (now : Z) (text : string) (jar : list Cookie) : list Cookie :=
  match parse text with
  | Some c => evict now (store c jar)
  | None => jar
  end.

(** How a cookie reads in [document.cookie]: without its attributes,
    and without [=] when it has no name. *)
Definition text (c : Cookie) : string :=
  if JS.isEmpty (cookie_name c) then cookie_value c
  else cookie_name c ++ "=" ++ cookie_value c.

Fixpoint join (l : list string) : string :=
  match l with
  | [] => EmptyString
  | [a] => a
  | a :: rest => a ++ "; " ++ join rest
  end.

(** The value of [document.cookie] at the time [now]. *)
Definition read (now : Z) (jar : list Cookie) : string :=
  join (map text (evict now jar)).

End Jar.


(* ================================================================== *)
(** * The page, the global objects and the outside world *)

(** An entry of the list that [Html5Qrcode.getCameras()] resolves to. *)
Record Device : Type := { id : string; label : string }.

(** The object built by [new Html5Qrcode(elementId)]. *)
Record Html5Qrcode : Type := { elementId : string }.

(** [const AppState = { cameraInitialized: false, html5QrcodeScanner: null,
    deviceId: null }] of the application script. *)
Record AppStateT : Type := {
  cameraInitialized : bool;
  html5QrcodeScanner : option Html5Qrcode;
  deviceId : option string
}.

Definition AppState0 : AppStateT :=
  {| cameraInitialized := false; html5QrcodeScanner := None; deviceId := None |}.

(** An [<option>] element and the [<select id="cameraDropdown">] element
    of the scan view. *)
Record OptionElement : Type := { value : string; textContent : string }.

Record SelectElement : Type := {
  options : list OptionElement;
  selectedValue : string;      (* what [dropdown.value] reads *)
  changeListeners : nat        (* listeners added for "change" by scan.js *)
}.

Record World : Type := {
  AppState : AppStateT;
  cookieJar : list Jar.Cookie; (* the cookie store behind [document.cookie] *)
  cameraId : option string;    (* binding of the free identifier [cameraId]
                                  of scan.js in the global scope, converted
                                  to a string; [None] when it is unbound *)
  cameraDropdown : SelectElement;
  Date_now : Z                 (* time value of [new Date()] *)
}.

(** JSON bodies of the backend API. *)
Record RewardResponse : Type := { reward_due : bool }.
Record Customer : Type := { name : string; last_name : string }.
Record AddResponse : Type := { customer : Customer }.
Record AddRequest : Type := { qr_code : string }.
Record ErrorBody : Type := { details : option string }.

(** The jqXHR object handed to an [error] callback. *)
Record Xhr : Type := {
  responseJSON : option ErrorBody;
  responseText : string
}.

(** Asynchronous operations started by scan.js. *)
Inductive AsyncOp : Type :=
| ScriptLoad (src : string)
| GetCameras
| ScannerStop
| Ajax (type url : string).

(** Observable effects, in the order in which they happen.  Calls of
    functions of the application that are defined outside scan.js
    ([startScan], [sendRewardMessageToCustomersPage],
    [sendMessageToCustomersPage], the router [navigateTo]) are recorded
    as events. *)
Inductive Event : Type :=
| EvConsoleLog (text arg : string)
| EvAlert (message : string)
| EvAppendScript (src : string)
| EvStart (op : AsyncOp)
| EvAjaxSend (type url : string) (contentType : option string)
             (data : option AddRequest)
| EvSettled (op : AsyncOp) (ok : bool)
| EvNewHtml5Qrcode (elementId : string)
| EvStartScan
| EvSendRewardMessageToCustomersPage
| EvSendMessageToCustomersPage (msg : string)
| EvNavigateTo (page : string)
| EvErrorMessageShow (text : string)
| EvErrorMessageFadeOut
| EvSetTimeout (delay : Z)
| EvTimeout (delay : Z)
| EvUncaught (exn : string).

(** How the environment settles an asynchronous operation. *)
Inductive Settled (A E : Type) : Type :=
| Fulfilled (a : A)
| Rejected (e : E)
| Pending.

Arguments Fulfilled {A E} a.
Arguments Rejected {A E} e.
Arguments Pending {A E}.

(* ================================================================== *)
(** * State, events and exceptions *)

Inductive Completion (A : Type) : Type :=
| Normal (a : A)
| Throw (exn : string).

Arguments Normal {A} a.
Arguments Throw {A} exn.

Definition M (A : Type) : Type := World -> Completion A * World * list Event.

Definition completionOf {A} (r : Completion A * World * list Event) : Completion A :=
  fst (fst r).
Definition worldOf {A} (r : Completion A * World * list Event) : World :=
  snd (fst r).
Definition eventsOf {A} (r : Completion A * World * list Event) : list Event :=
  snd r.

Definition ret {A} (a : A) : M A := fun w => (Normal a, w, []).

Definition bind {A B} (m : M A) (k : A -> M B) : M B :=
  fun w =>
    match m w with
    | (Normal a, w1, e1) =>
        match k a w1 with (r, w2, e2) => (r, w2, (e1 ++ e2)%list) end
    | (Throw x, w1, e1) => (Throw x, w1, e1)
    end.

Notation "x <- m ;; k" := (bind m (fun x => k))
  (at level 61, m at next level, right associativity).
Notation "m ;; k" := (bind m (fun _ => k))
  (at level 61, right associativity).

Definition throw {A} (exn : string) : M A := fun w => (Throw exn, w, []).
Definition emit (e : Event) : M unit := fun w => (Normal tt, w, [e]).
Definition gets {A} (f : World -> A) : M A := fun w => (Normal (f w), w, []).
Definition modify (f : World -> World) : M unit := fun w => (Normal tt, f w, []).

(** [try { m } catch (x) { h }] *)
Definition tryCatch (m : M unit) (h : string -> M unit) : M unit :=
  fun w =>
    match m w with
    | (Throw x, w1, e1) =>
        match h x w1 with (r, w2, e2) => (r, w2, (e1 ++ e2)%list) end
    | r => r
    end.

(** A callback run by the event loop: what it throws is reported and
    goes no further. *)
Definition task (m : M unit) : M unit :=
  tryCatch m (fun x => emit (EvUncaught x)).

(** [p.then(onFulfilled).catch(onRejected)] for the promise of [op]:
    [onRejected] also receives what [onFulfilled] throws. *)
Definition thenCatch {A} (op : AsyncOp) (p : Settled A string)
    (onFulfilled : A -> M unit) (onRejected : string -> M unit) : M unit :=
  match p with
  | Fulfilled a =>
      emit (EvSettled op true) ;; task (tryCatch (onFulfilled a) onRejected)
  | Rejected e =>
      emit (EvSettled op false) ;; task (onRejected e)
  | Pending => ret tt
  end.

(** [$.ajax({type, url, contentType, data, success, error})] *)
Definition ajax {R} (type url : string) (contentType : option string)
    (data : option AddRequest) (p : Settled R Xhr)
    (success : R -> M unit) (error : Xhr -> M unit) : M unit :=
  emit (EvAjaxSend type url contentType data) ;;
  match p with
  | Fulfilled r => emit (EvSettled (Ajax type url) true) ;; task (success r)
  | Rejected xhr => emit (EvSettled (Ajax type url) false) ;; task (error xhr)
  | Pending => ret tt
  end.

(** [setTimeout(callback, delay)]: the callback is a task of its own,
    run once the delay has elapsed. *)
Definition setTimeout (callback : M unit) (delay : Z) : M unit :=
  emit (EvSetTimeout delay) ;; emit (EvTimeout delay) ;; task callback.

(** Field updates. *)
Definition set_AppState (a : AppStateT) (w : World) : World :=
  {| AppState := a; cookieJar := cookieJar w;
     cameraId := cameraId w; cameraDropdown := cameraDropdown w;
     Date_now := Date_now w |}.

(** [document.cookie], read: the cookies of the store that have not
    expired. *)
Definition document_cookie (w : World) : string :=
  Jar.read (Date_now w) (cookieJar w).

(** [document.cookie = c]: the text goes to the cookie store. *)
Definition set_document_cookie (c : string) (w : World) : World :=
  {| AppState := AppState w;
     cookieJar := Jar.assign (Date_now w) c (cookieJar w);
     cameraId := cameraId w; cameraDropdown := cameraDropdown w;
     Date_now := Date_now w |}.

Definition set_cameraDropdown (d : SelectElement) (w : World) : World :=
  {| AppState := AppState w; cookieJar := cookieJar w;
     cameraId := cameraId w; cameraDropdown := d;
     Date_now := Date_now w |}.

Definition set_deviceId (v : option string) (a : AppStateT) : AppStateT :=
  {| cameraInitialized := cameraInitialized a;
     html5QrcodeScanner := html5QrcodeScanner a; deviceId := v |}.

Definition set_html5QrcodeScanner (v : option Html5Qrcode) (a : AppStateT) : AppStateT :=
  {| cameraInitialized := cameraInitialized a;
     html5QrcodeScanner := v; deviceId := deviceId a |}.

Definition set_cameraInitialized (v : bool) (a : AppStateT) : AppStateT :=
  {| cameraInitialized := v;
     html5QrcodeScanner := html5QrcodeScanner a; deviceId := deviceId a |}.

(** [dropdown.appendChild(option)] *)
Definition appendChild (o : OptionElement) (d : SelectElement) : SelectElement :=
  {| options := (options d ++ [o])%list; selectedValue := selectedValue d;
     changeListeners := changeListeners d |}.

(** [dropdown.value = v]: selects the option carrying that value; with
    no such option nothing is selected and the value reads empty. *)
Definition set_value (v : string) (d : SelectElement) : SelectElement :=
  {| options := options d;
     selectedValue :=
       if existsb (fun o => String.eqb (value o) v) (options d) then v else "";
     changeListeners := changeListeners d |}.

(** [dropdown.addEventListener('change', ...)] *)
Definition addEventListener (d : SelectElement) : SelectElement :=
  {| options := options d; selectedValue := selectedValue d;
     changeListeners := S (changeListeners d) |}.

(** Evaluation of the identifier [cameraId]. *)
Definition read_cameraId : M string :=
  v <- gets cameraId ;;
  match v with
  | Some s => ret s
  | None => throw "ReferenceError: cameraId is not defined"
  end.

(** [devices.forEach((device, index) => ...)], from [index] on. *)
Fixpoint forEach (devices : list Device) (index : nat)
    (f : Device -> nat -> M unit) : M unit :=
  match devices with
  | [] => ret tt
  | device :: rest => f device index ;; forEach rest (S index) f
  end.

(** [devices.some(d => d.id === savedCameraId)]; no id is [null]. *)
Definition some (devices : list Device) (savedCameraId : option string) : bool :=
  match savedCameraId with
  | Some saved => existsb (fun d => String.eqb (id d) saved) devices
  | None => false
  end.

(** Run a task [n] times. *)
Fixpoint times (n : nat) (m : M unit) : M unit :=
  match n with
  | O => ret tt
  | S k => m ;; times k m
  end.

(* ================================================================== *)
(** * scan.js: the cookie helpers *)

(** The string assigned to [document.cookie] by [setCookie]:
    [`${name}=${value};expires=${d.toUTCString()};path=/`].  The sum
    [d.getTime() + days * 24 * 60 * 60 * 1000] is exact on integers
    wherever the resulting date is valid. *)
Definition cookieString (now : Z) (name value : string) (days : Z) : string :=
  let d := Date.timeClip (now + days * 24 * 60 * 60 * 1000)%Z in
  name ++ "=" ++ value ++ ";expires=" ++ Date.toUTCString d ++ ";path=/".

(** [function setCookie(name, value, days)] *)
Definition setCookie (name value : string) (days : Z) : M unit :=
  now <- gets Date_now ;;
  modify (set_document_cookie (cookieString now name value days)).

(** The cookie that this string describes when the store takes it as
    it stands: name and value as given, and the date read back. *)
Definition cookieOf (now : Z) (name value : string) (days : Z) : Jar.Cookie :=
  {| Jar.cookie_name := name; Jar.cookie_value := value;
     Jar.expiry :=
       Jar.parseDate
         (Date.toUTCString
            (Date.timeClip (now + days * 24 * 60 * 60 * 1000)%Z)) |}.

(** The [for] loop of [getCookie] over [cookies]. *)
Fixpoint getCookie_loop (name : string) (cookies : list string) : option string :=
  match cookies with
  | [] => None
  | c :: rest =>
      let cookie := JS.trim c in
      if JS.startsWith cookie (name ++ "=")
      then Some (JS.substring (String.length name + 1) cookie)
      else getCookie_loop name rest
  end.

(** [getCookie(name)] on a given value of [document.cookie]. *)
Definition getCookieIn (document_cookie name : string) : option string :=
  let cookies := JS.split ";" document_cookie in
  getCookie_loop name cookies.

(** [function getCookie(name)] *)
Definition getCookie (name : string) : M (option string) :=
  c <- gets document_cookie ;;
  ret (getCookieIn c name).

(* ================================================================== *)
(** * scan.js: [initializeCamera] *)

(** The environment of one call: whether the script element loads, and
    what [Html5Qrcode.getCameras()] settles to ([None]: a [null] or
    [undefined] list). *)
Record InitEnv : Type := {
  script_result : Settled unit unit;
  cameras_result : Settled (option (list Device)) string
}.

(** Modelled from the spec: [startScan] is defined outside scan.js.  The
    specification has it begin continuous decode scanning against the
    active device; it is taken to leave [AppState], the cookie and the
    dropdown as they are, and its call is recorded as [EvStartScan]. *)
Definition startScan : M unit := emit EvStartScan.

(** The listener of the dropdown's "change" event (lines 57-60);
    [targetValue] is [event.target.value]. *)
Definition onDropdownChange (targetValue : string) : M unit :=
  modify (fun w => set_AppState (set_deviceId (Some targetValue) (AppState w)) w) ;;
  cameraId <- read_cameraId ;;
  setCookie "selectedCamera" cameraId 30.

(** The arrow function given to [devices.forEach] (lines 37-42). *)
Definition addOption (device : Device) (index : nat) : M unit :=
  let option :=
    {| value := id device;
       textContent :=
         JS.orElse (Some (label device))
                   ("Camera " ++ JS.decimal (Z.of_nat index + 1)) |} in
  modify (fun w => set_cameraDropdown (appendChild option (cameraDropdown w)) w).

(** The callback given to [getCameras().then] (lines 29-67). *)
Definition onCameras (devices : option (list Device)) : M unit :=
  match devices with
  | Some ((device0 :: _) as devices) =>
      savedCameraId <- getCookie "selectedCamera" ;;
      forEach devices 0 addOption ;;
      (if JS.truthy savedCameraId && some devices savedCameraId then
         modify (fun w => set_cameraDropdown
           (set_value (JS.toString savedCameraId) (cameraDropdown w)) w) ;;
         modify (fun w => set_AppState (set_deviceId savedCameraId (AppState w)) w)
       else
         modify (fun w => set_cameraDropdown
           (set_value (id device0) (cameraDropdown w)) w) ;;
         modify (fun w => set_AppState
           (set_deviceId (Some (id device0)) (AppState w)) w)) ;;
      cameraId <- read_cameraId ;;
      setCookie "selectedCamera" cameraId 30 ;;
      modify (fun w => set_cameraDropdown (addEventListener (cameraDropdown w)) w) ;;
      emit (EvNewHtml5Qrcode "qr-reader") ;;
      modify (fun w => set_AppState
        (set_html5QrcodeScanner (Some {| elementId := "qr-reader" |}) (AppState w)) w) ;;
      modify (fun w => set_AppState (set_cameraInitialized true (AppState w)) w) ;;
      startScan
  | _ => ret tt
  end.

(** [script.onload] (lines 27-69). *)
Definition onScriptLoad (env : InitEnv) : M unit :=
  emit (EvStart GetCameras) ;;
  thenCatch GetCameras (cameras_result env)
    onCameras
    (fun err => emit (EvAlert ("Camera initialization error: " ++ err))).

(** [script.onerror] (line 71). *)
Definition onScriptError : M unit :=
  emit (EvAlert "Failed to load QR scanner library. Please try again later.").

(** [const initializeCamera = () => { ... }] *)
Definition initializeCamera (env : InitEnv) : M unit :=
  initialized <- gets (fun w => cameraInitialized (AppState w)) ;;
  if negb initialized then
    emit (EvAppendScript "https://unpkg.com/html5-qrcode") ;;
    match script_result env with
    | Fulfilled _ =>
        emit (EvSettled (ScriptLoad "https://unpkg.com/html5-qrcode") true) ;;
        task (onScriptLoad env)
    | Rejected _ =>
        emit (EvSettled (ScriptLoad "https://unpkg.com/html5-qrcode") false) ;;
        task onScriptError
    | Pending => ret tt
    end
  else
    startScan.

(** Consecutive calls of [initializeCamera], one environment each. *)
Fixpoint initializeCameraCalls (envs : list InitEnv) : M unit :=
  match envs with
  | [] => ret tt
  | env :: rest => initializeCamera env ;; initializeCameraCalls rest
  end.

(** The user picks the entry with value [v] in the dropdown: the element
    takes the value and every registered "change" listener runs. *)
Definition userSelects (v : string) : M unit :=
  modify (fun w => set_cameraDropdown (set_value v (cameraDropdown w)) w) ;;
  target <- gets (fun w => selectedValue (cameraDropdown w)) ;;
  n <- gets (fun w => changeListeners (cameraDropdown w)) ;;
  times n (task (onDropdownChange target)).

(* ================================================================== *)
(** * scan.js: [handleScan] *)

(** The environment of one decode: how [stop()] and the two requests
    settle. *)
Record ScanEnv : Type := {
  stop_result : Settled unit string;
  reward_result : Settled RewardResponse Xhr;
  add_result : Settled AddResponse Xhr
}.

(** [xhr.responseJSON?.details || xhr.responseText || "Errore generico"] *)
Definition errorMessage (xhr : Xhr) : string :=
  let optDetails :=
    match responseJSON xhr with
    | Some body => details body
    | None => None
    end in
  JS.orElse (JS.or optDetails (Some (responseText xhr))) "Errore generico".

(** Body of both [error: function (xhr) { ... }] callbacks
    (lines 97-105 and 108-116). *)
Definition onAjaxError (xhr : Xhr) : M unit :=
  emit (EvErrorMessageShow (errorMessage xhr)) ;;
  setTimeout (emit EvErrorMessageFadeOut ;; startScan) 1000.

(** The template literal of line 93. *)
Definition checkInMessage (responseAdd : AddResponse) : string :=
  "$Check in di {responseAdd.customer.name} "
    ++ last_name (customer responseAdd) ++ " riuscito!".

(** [success: function (responseAdd) { ... }] (lines 91-96). *)
Definition onAddSuccess (responseReward : RewardResponse)
    (responseAdd : AddResponse) : M unit :=
  (if reward_due responseReward
   then emit EvSendRewardMessageToCustomersPage else ret tt) ;;
  emit (EvSendMessageToCustomersPage (checkInMessage responseAdd)) ;;
  emit (EvNavigateTo "customers").

Definition rewardUrl (decodedText : string) : string :=
  "accesses/reward_due_qr/" ++ decodedText.

(** [success: function (responseReward) { ... }] (lines 85-107);
    [data] is [JSON.stringify({ qr_code: decodedText })]. *)
Definition onRewardSuccess (env : ScanEnv) (decodedText : string)
    (responseReward : RewardResponse) : M unit :=
  ajax "POST" "accesses/add" (Some "application/json")
    (Some {| qr_code := decodedText |}) (add_result env)
    (onAddSuccess responseReward)
    onAjaxError.

(** [const handleScan = (decodedText) => { ... }] *)
Definition handleScan (env : ScanEnv) (decodedText : string) : M unit :=
  emit (EvConsoleLog "Scanned QR Code:" decodedText) ;;
  scanner <- gets (fun w => html5QrcodeScanner (AppState w)) ;;
  match scanner with
  | None => throw "TypeError: AppState.html5QrcodeScanner is null"
  | Some _ =>
      emit (EvStart ScannerStop) ;;
      thenCatch ScannerStop (stop_result env)
        (fun _ =>
           ajax "GET" (rewardUrl decodedText) None None (reward_result env)
             (onRewardSuccess env decodedText)
             onAjaxError)
        (fun err => emit (EvAlert ("Failed to stop scanner: " ++ err)))
  end.

(* ================================================================== *)
(** * Readings of the trace *)

Definition isAjaxSend (e : Event) : bool :=
  match e with EvAjaxSend _ _ _ _ => true | _ => false end.

Definition isNavigateTo (e : Event) : bool :=
  match e with EvNavigateTo _ => true | _ => false end.

Definition isErrorMessageShow (e : Event) : bool :=
  match e with EvErrorMessageShow _ => true | _ => false end.

Definition isAlert (e : Event) : bool :=
  match e with EvAlert _ => true | _ => false end.

(** What the error callbacks leave in the trace for [xhr]. *)
Definition errorTrace (xhr : Xhr) : list Event :=
  [EvErrorMessageShow (errorMessage xhr); EvSetTimeout 1000; EvTimeout 1000;
   EvErrorMessageFadeOut; EvStartScan].

(** The precedence of the error text in the words of the specification:
    the detail field if present, otherwise the response body if
    non-empty, otherwise the generic text. *)
Definition errorMessage_by_presence (xhr : Xhr) : string :=
  let fallback :=
    if JS.isEmpty (responseText xhr) then "Errore generico" else responseText xhr in
  match responseJSON xhr with
  | Some body =>
      match details body with
      | Some d => d
      | None => fallback
      end
  | None => fallback
  end.

Definition scriptUrl : string := "https://unpkg.com/html5-qrcode".

(** The flag [cameraInitialized] stands for "the scanner exists". *)
Definition scannerInvariant (w : World) : Prop :=
  cameraInitialized (AppState w) = true <->
  html5QrcodeScanner (AppState w) <> None.

(** The device that lines 44-51 make the active one. *)
Definition resolved (saved : option string) (device0 : Device)
    (rest : list Device) : option string :=
  if JS.truthy saved && some (device0 :: rest) saved
  then saved else Some (id device0).

(** The trace of one decode with a constructed scanner, for every way
    the environment can settle the three operations ([handleScan_run]
    below). *)
Definition scanTrace (env : ScanEnv) (decodedText : string) : list Event :=
  [EvConsoleLog "Scanned QR Code:" decodedText; EvStart ScannerStop]
  ++ match stop_result env with
     | Pending => []
     | Rejected err =>
         [EvSettled ScannerStop false; EvAlert ("Failed to stop scanner: " ++ err)]
     | Fulfilled _ =>
         [EvSettled ScannerStop true;
          EvAjaxSend "GET" (rewardUrl decodedText) None None]
         ++ match reward_result env with
            | Pending => []
            | Rejected xhr =>
                EvSettled (Ajax "GET" (rewardUrl decodedText)) false :: errorTrace xhr
            | Fulfilled responseReward =>
                [EvSettled (Ajax "GET" (rewardUrl decodedText)) true;
                 EvAjaxSend "POST" "accesses/add" (Some "application/json")
                   (Some {| qr_code := decodedText |})]
                ++ match add_result env with
                   | Pending => []
                   | Rejected xhr =>
                       EvSettled (Ajax "POST" "accesses/add") false :: errorTrace xhr
                   | Fulfilled responseAdd =>
                       [EvSettled (Ajax "POST" "accesses/add") true]
                       ++ (if reward_due responseReward
                           then [EvSendRewardMessageToCustomersPage] else [])
                       ++ [EvSendMessageToCustomersPage (checkInMessage responseAdd);
                           EvNavigateTo "customers"]
                   end
            end
     end.

(* ================================================================== *)
(** * Concrete inputs *)

Definition emptyDropdown : SelectElement :=
  {| options := []; selectedValue := ""; changeListeners := 0 |}.

(** A fresh page load on 2 November 2026, 15:57 UTC: nothing persisted,
    and [cameraId] unbound (neither scan.js nor the application script
    declares it). *)
Definition world0 : World :=
  {| AppState := AppState0; cookieJar := []; cameraId := None;
     cameraDropdown := emptyDropdown; Date_now := 1793635020000 |}.

(** The same page with a global [cameraId] holding some other string. *)
Definition worldStale : World :=
  {| AppState := AppState0; cookieJar := []; cameraId := Some "stale";
     cameraDropdown := emptyDropdown; Date_now := 1793635020000 |}.

(** The same page with an empty [selectedCamera] cookie. *)
Definition worldEmptyCookie : World :=
  {| AppState := AppState0; cookieJar := [{| Jar.cookie_name := "selectedCamera";
                     Jar.cookie_value := ""; Jar.expiry := None |}];
     cameraId := None;
     cameraDropdown := emptyDropdown; Date_now := 1793635020000 |}.

(** The page with a cookie of some other script. *)
Definition worldTheme : World :=
  {| AppState := AppState0;
     cookieJar := [{| Jar.cookie_name := "theme"; Jar.cookie_value := "dark";
                      Jar.expiry := None |}];
     cameraId := None;
     cameraDropdown := emptyDropdown; Date_now := 1793635020000 |}.

(** The page with that cookie and a camera persisted until 2 December. *)
Definition worldCamera : World :=
  {| AppState := AppState0;
     cookieJar := [{| Jar.cookie_name := "theme"; Jar.cookie_value := "dark";
                      Jar.expiry := None |};
                   {| Jar.cookie_name := "selectedCamera";
                      Jar.cookie_value := "cam1";
                      Jar.expiry := Some 1796227020000%Z |}];
     cameraId := None;
     cameraDropdown := emptyDropdown; Date_now := 1793635020000 |}.

(** The page with a cookie whose name begins with a no-break space. *)
Definition worldNoBreakSpace : World :=
  {| AppState := AppState0;
     cookieJar := [{| Jar.cookie_name :=
                        String (ascii_of_nat 160) "selectedCamera";
                      Jar.cookie_value := "old"; Jar.expiry := None |}];
     cameraId := None;
     cameraDropdown := emptyDropdown; Date_now := 1793635020000 |}.

Definition cam1 : Device := {| id := "cam1"; label := "" |}.
Definition cam2 : Device := {| id := "cam2"; label := "Back camera" |}.
Definition camNoId : Device := {| id := ""; label := "" |}.

Definition envCameras (devices : list Device) : InitEnv :=
  {| script_result := Fulfilled tt; cameras_result := Fulfilled (Some devices) |}.

(** The state reached from [worldStale] once the scanner is constructed. *)
Definition worldReady : World :=
  worldOf (initializeCamera (envCameras [cam1; cam2]) worldStale).

Definition mario : AddResponse :=
  {| customer := {| name := "Mario"; last_name := "Rossi" |} |}.

Definition envCheckIn : ScanEnv :=
  {| stop_result := Fulfilled tt;
     reward_result := Fulfilled {| reward_due := false |};
     add_result := Fulfilled mario |}.

Definition dquote : string := String (ascii_of_nat 34) EmptyString.

(** A failed response whose JSON body is [{details: "not found"}]. *)
Definition notFound : Xhr :=
  {| responseJSON := Some {| details := Some "not found" |};
     responseText :=
       "{" ++ dquote ++ "details" ++ dquote ++ ":"
           ++ dquote ++ "not found" ++ dquote ++ "}" |}.

Definition envLookupFails : ScanEnv :=
  {| stop_result := Fulfilled tt;
     reward_result := Rejected notFound;
     add_result := Pending |}.

Definition envSubmitFails : ScanEnv :=
  {| stop_result := Fulfilled tt;
     reward_result := Fulfilled {| reward_due := true |};
     add_result := Rejected notFound |}.

Definition envStopFails : ScanEnv :=
  {| stop_result := Rejected "NotAllowedError";
     reward_result := Pending;
     add_result := Pending |}.

(** A failed response whose JSON body is [{details: ""}]. *)
Definition emptyDetails : Xhr :=
  {| responseJSON := Some {| details := Some "" |};
     responseText :=
       "{" ++ dquote ++ "details" ++ dquote ++ ":" ++ dquote ++ dquote ++ "}" |}.

(* ================================================================== *)
(** * More readings of the scan workflow *)

Definition isStartScan (e : Event) : bool :=
  match e with EvStartScan => true | _ => false end.

Definition isNewHtml5Qrcode (e : Event) : bool :=
  match e with EvNewHtml5Qrcode _ => true | _ => false end.

Definition isAppendScript (e : Event) : bool :=
  match e with EvAppendScript _ => true | _ => false end.

Definition isSendRewardMessage (e : Event) : bool :=
  match e with EvSendRewardMessageToCustomersPage => true | _ => false end.

(** The [<option>] built for [device] at position [index]. *)
Definition optionFor (device : Device) (index : nat) : OptionElement :=
  {| value := id device;
     textContent :=
       if JS.isEmpty (label device)
       then "Camera " ++ JS.decimal (Z.of_nat index + 1)
       else label device |}.

(** The options that [devices.forEach] appends, from [index] on. *)
Fixpoint optionsFor (devices : list Device) (index : nat) : list OptionElement :=
  match devices with
  | [] => []
  | device :: rest => optionFor device index :: optionsFor rest (S index)
  end.

(** What may happen to the scan workflow: a call of [initializeCamera],
    a decode handed to [handleScan], a "change" event of the dropdown
    running the listener of lines 57-60, or the router replacing the
    markup of the view, and with it the dropdown element. *)
Inductive ScanOp : Type :=
| OpInitializeCamera (env : InitEnv)
| OpHandleScan (env : ScanEnv) (decodedText : string)
| OpDropdownChange (targetValue : string)
| OpRender (dropdown : SelectElement).

(** A [#cameraDropdown] element that fetched markup has just created:
    scan.js has added no listener to it yet. *)
Definition freshElement (d : SelectElement) : SelectElement :=
  {| options := options d; selectedValue := selectedValue d;
     changeListeners := 0 |}.

Definition runScanOp (op : ScanOp) : M unit :=
  match op with
  | OpInitializeCamera env => initializeCamera env
  | OpHandleScan env decodedText => task (handleScan env decodedText)
  | OpDropdownChange targetValue => task (onDropdownChange targetValue)
  | OpRender d => modify (set_cameraDropdown (freshElement d))
  end.

Fixpoint runScanOps (ops : list ScanOp) : M unit :=
  match ops with
  | [] => ret tt
  | op :: rest => runScanOp op ;; runScanOps rest
  end.

(** The flag, the scanner and the active device go together. *)
Definition sessionInvariant (w : World) : Prop :=
  scannerInvariant w
  /\ (cameraInitialized (AppState w) = true -> deviceId (AppState w) <> None).

(** The dropdown once [devices.forEach] has run over [devices]. *)
Definition filledDropdown (devices : list Device) (d : SelectElement)
    : SelectElement :=
  {| options := (options d ++ optionsFor devices 0)%list;
     selectedValue := selectedValue d;
     changeListeners := changeListeners d |}.

(** The value that lines 44-51 assign to [dropdown.value]. *)
Definition chosenValue (saved : option string) (device0 : Device)
    (rest : list Device) : string :=
  if JS.truthy saved && some (device0 :: rest) saved
  then JS.toString saved else id device0.

(** The state in which the [then] callback leaves a non-empty list:
    where it throws when [cameraId] is unbound, and at its end when
    [cameraId] is bound. *)
Definition afterCameras (w : World) (device0 : Device) (rest : list Device)
    : World :=
  let saved := getCookieIn (document_cookie w) "selectedCamera" in
  let dropdown :=
    set_value (chosenValue saved device0 rest)
              (filledDropdown (device0 :: rest) (cameraDropdown w)) in
  match cameraId w with
  | None =>
      {| AppState := set_deviceId (resolved saved device0 rest) (AppState w);
         cookieJar := cookieJar w;
         cameraId := None;
         cameraDropdown := dropdown;
         Date_now := Date_now w |}
  | Some c =>
      {| AppState :=
           {| cameraInitialized := true;
              html5QrcodeScanner := Some {| elementId := "qr-reader" |};
              deviceId := resolved saved device0 rest |};
         cookieJar := Jar.assign (Date_now w)
                      (cookieString (Date_now w) "selectedCamera" c 30)
                      (cookieJar w);
         cameraId := Some c;
         cameraDropdown := addEventListener dropdown;
         Date_now := Date_now w |}
  end.

(** No scanner, no flag, and [cameraId] unbound. *)
Definition neverReady (w : World) : Prop :=
  cameraId w = None
  /\ cameraInitialized (AppState w) = false
  /\ html5QrcodeScanner (AppState w) = None.

(* ================================================================== *)
(** * The application script: [initializeApp] and [navigateTo] *)

(** Functions of the application that the router calls and that are
    defined in neither of the two scripts; a call is recorded as
    [AppCall] and is taken to leave the modelled state as it is. *)
Inductive External : Type :=
| stopScanning
| filterCustomers
| startMessagesTimer
| startRewardBannerTimer
| stopMessagesTimer
| stopRewardBannerTimer
| startMessagesTimerProgram
| stopMessagesTimerProgram
| initNewCustomer
| populateProgramsForCustomer
| initNewProgram.

Inductive AppEvent : Type :=
| AppFetch (url : string)
| AppCall (f : External)
| AppOnSubmit (selector : string)      (* [$(selector).on('submit', ...)] *)
| AppConsoleError (text arg : string)
| AppScan (e : Event)                  (* an effect of scan.js *)
| AppUnhandledRejection (reason : string).

(** The [Response] of [fetch]: its [ok] flag and how [response.text()]
    settles. *)
Record FetchResponse : Type := {
  ok : bool;
  text : Settled string string
}.

(** The environment of one navigation: how [fetch] and the promise of
    [stopScanning()] settle, the [#cameraDropdown] element that the
    fetched markup creates inside [#main-content] ([None] when it
    creates none and the element at hand stays), and the environment of
    [initializeCamera] should the scan view be entered. *)
Record NavEnv : Type := {
  fetch_result : Settled FetchResponse string;
  markup_dropdown : option SelectElement;
  stopScanning_result : Settled unit string;
  camera_env : InitEnv
}.

(** The page: the state of the scan workflow, [window.location.hash] as
    last assigned, and [innerHTML] of [#main-content]. *)
Record Browser : Type := {
  scanWorld : World;
  location_hash : string;
  main_content : string
}.

Definition set_scanWorld (w : World) (b : Browser) : Browser :=
  {| scanWorld := w; location_hash := location_hash b;
     main_content := main_content b |}.

Definition set_location_hash (h : string) (b : Browser) : Browser :=
  {| scanWorld := scanWorld b; location_hash := h;
     main_content := main_content b |}.

Definition set_main_content (html : string) (b : Browser) : Browser :=
  {| scanWorld := scanWorld b; location_hash := location_hash b;
     main_content := html |}.

(** What assigning [innerHTML] does to the dropdown of the workflow. *)
Definition render (markup : option SelectElement) (b : Browser) : Browser :=
  match markup with
  | Some d =>
      set_scanWorld (set_cameraDropdown (freshElement d) (scanWorld b)) b
  | None => b
  end.

(** [initializeCamera()] called from the router. *)
Definition callInitializeCamera (env : InitEnv) (b : Browser)
    : Browser * list AppEvent :=
  match initializeCamera env (scanWorld b) with
  | (Normal _, w, events) => (set_scanWorld w b, map AppScan events)
  | (Throw x, w, events) =>
      (set_scanWorld w b, (map AppScan events ++ [AppUnhandledRejection x])%list)
  end.

(** The callback given to [stopScanning().finally] (lines 43-93 of the
    application script). *)
Definition pageLogic (env : InitEnv) (page : string) (b : Browser)
    : Browser * list AppEvent :=
  if String.eqb page "customers" then
    (b, [AppOnSubmit "#filterForm"; AppCall filterCustomers;
         AppCall startMessagesTimer; AppCall startRewardBannerTimer])
  else
    let '(b1, events1) :=
      if String.eqb page "programs" then
        (b, [AppCall startMessagesTimerProgram])
      else
        let '(b2, events2) :=
          if String.eqb page "scan" then
            callInitializeCamera env b
          else if String.eqb page "new_customer" then
            (b, [AppOnSubmit "#customerForm"; AppCall initNewCustomer;
                 AppCall populateProgramsForCustomer])
          else if String.eqb page "new_program" then
            (b, [AppOnSubmit "#programForm"; AppCall initNewProgram])
          else
            (b, []) in
        (b2, AppCall stopMessagesTimerProgram :: events2) in
    (b1, AppCall stopMessagesTimer :: AppCall stopRewardBannerTimer :: events1).

(** The [catch] of the chain (lines 95-98). *)
Definition onNavigationError (err : string) (b : Browser)
    : Browser * list AppEvent :=
  (set_main_content "<h1>404 - Page not found</h1>" b,
   [AppConsoleError "Navigation error:" err]).

(** The second [then] of the chain (lines 40-94).  [stopScanning()] is
    used as a promise: [finally] runs the page logic however it settles,
    and a rejection of it is handled nowhere. *)
Definition onHtml (env : NavEnv) (page html : string) (b : Browser)
    : Browser * list AppEvent :=
  let b1 := render (markup_dropdown env) (set_main_content html b) in
  match stopScanning_result env with
  | Fulfilled _ =>
      let '(b2, events) := pageLogic (camera_env env) page b1 in
      (b2, AppCall stopScanning :: events)
  | Rejected err =>
      let '(b2, events) := pageLogic (camera_env env) page b1 in
      (b2, (AppCall stopScanning :: events ++ [AppUnhandledRejection err])%list)
  | Pending => (b1, [AppCall stopScanning])
  end.

(** [const navigateTo = (page) => { ... }]: the hash is assigned before
    any callback of the chain runs. *)
Definition navigateTo (env : NavEnv) (page : string) (b : Browser)
    : Browser * list AppEvent :=
  let b0 := set_location_hash ("#" ++ page) b in
  let '(b1, events) :=
    match fetch_result env with
    | Fulfilled response =>
        if negb (ok response) then
          onNavigationError "Error: Page not found" b0
        else
          match text response with
          | Fulfilled html => onHtml env page html b0
          | Rejected err => onNavigationError err b0
          | Pending => (b0, [])
          end
    | Rejected err => onNavigationError err b0
    | Pending => (b0, [])
    end in
  (b1, AppFetch ("/" ++ page) :: events).

(** [const initializeApp = () => { ... }]; [slice(1)] drops the first
    code unit. *)
Definition initializeApp (env : NavEnv) (b : Browser)
    : Browser * list AppEvent :=
  let currentHash := JS.orElse (Some (location_hash b)) "#customers" in
  let page := JS.substring 1 currentHash in
  navigateTo env page b.

Definition isAppScan (e : AppEvent) : bool :=
  match e with AppScan _ => true | _ => false end.

Definition isAppCall (f : External) (e : AppEvent) : bool :=
  match e with
  | AppCall g =>
      match f, g with
      | stopScanning, stopScanning
      | filterCustomers, filterCustomers
      | startMessagesTimer, startMessagesTimer
      | startRewardBannerTimer, startRewardBannerTimer
      | stopMessagesTimer, stopMessagesTimer
      | stopRewardBannerTimer, stopRewardBannerTimer
      | startMessagesTimerProgram, startMessagesTimerProgram
      | stopMessagesTimerProgram, stopMessagesTimerProgram
      | initNewCustomer, initNewCustomer
      | populateProgramsForCustomer, populateProgramsForCustomer
      | initNewProgram, initNewProgram => true
      | _, _ => false
      end
  | _ => false
  end.

(** Inputs for the examples. *)
Definition browser0 : Browser :=
  {| scanWorld := world0; location_hash := ""; main_content := "" |}.

Definition browserReady : Browser :=
  {| scanWorld := worldReady; location_hash := "#customers";
     main_content := "" |}.

Definition envPage (html : string) : NavEnv :=
  {| fetch_result := Fulfilled {| ok := true; text := Fulfilled html |};
     markup_dropdown := Some emptyDropdown;
     stopScanning_result := Fulfilled tt;
     camera_env := envCameras [cam1; cam2] |}.

Definition envMissingPage : NavEnv :=
  {| fetch_result := Fulfilled {| ok := false; text := Pending |};
     markup_dropdown := None;
     stopScanning_result := Fulfilled tt;
     camera_env := envCameras [cam1; cam2] |}.

(* ================================================================== *)
(** * Sanity checks of the built-ins *)

Example toUTCString_epoch :
  Date.toUTCString (Some 0%Z) = "Thu, 01 Jan 1970 00:00:00 GMT".
Proof. reflexivity. Qed.

Example toUTCString_2023 :
  Date.toUTCString (Some 1700000000000%Z) = "Tue, 14 Nov 2023 22:13:20 GMT".
Proof. reflexivity. Qed.

Example toUTCString_leap_day :
  Date.toUTCString (Some 1709164800000%Z) = "Thu, 29 Feb 2024 00:00:00 GMT".
Proof. reflexivity. Qed.

Example toUTCString_before_epoch :
  Date.toUTCString (Some (-1)%Z) = "Wed, 31 Dec 1969 23:59:59 GMT".
Proof. reflexivity. Qed.

Example split_trailing_separator :
  JS.split ";" "a=1; b=2;" = ["a=1"; " b=2"; ""].
Proof. reflexivity. Qed.

Example trim_both_ends : JS.trim "  a b  " = "a b".
Proof. reflexivity. Qed.

Example parseDate_toUTCString :
  Jar.parseDate "Wed, 02 Dec 2026 15:57:00 GMT" = Some 1796227020000%Z.
Proof. reflexivity. Qed.

Example parseDate_rfc1123 :
  Jar.parseDate "Sun, 06 Nov 1994 08:49:37 GMT" = Some 784111777000%Z.
Proof. reflexivity. Qed.

Example parseDate_rfc850 :
  Jar.parseDate "Sunday, 06-Nov-94 08:49:37 GMT" = Some 784111777000%Z.
Proof. reflexivity. Qed.

Example parseDate_asctime :
  Jar.parseDate "Sun Nov  6 08:49:37 1994" = Some 784111777000%Z.
Proof. reflexivity. Qed.

Example parseDate_time_with_more :
  Jar.parseDate "06 Nov 1994 08:49:37Z" = Some 784111777000%Z.
Proof. reflexivity. Qed.

Example parseDate_invalid : Jar.parseDate "Invalid Date" = None.
Proof. reflexivity. Qed.

Example parseDate_no_such_day : Jar.parseDate "30 Feb 2026 00:00:00" = None.
Proof. reflexivity. Qed.

Example parse_reserved_prefix :
  Jar.parse "__Secure-a=b;path=/" = None
  /\ Jar.parse "__Secure-a=b;path=/;secure"
     = Some {| Jar.cookie_name := "__Secure-a"; Jar.cookie_value := "b";
               Jar.expiry := None |}
  /\ Jar.parse "__Host-a=b;secure" = None.
Proof. repeat split. Qed.

Example parse_trims_and_drops_attributes :
  Jar.parse " a = b c ;expires=Wed, 02 Dec 2026 15:57:00 GMT;path=/"
  = Some {| Jar.cookie_name := "a"; Jar.cookie_value := "b c";
            Jar.expiry := Some 1796227020000%Z |}.
Proof. reflexivity. Qed.

Example cookieString_30_days :
  cookieString 1793635020000 "selectedCamera" "cam1" 30
  = "selectedCamera=cam1;expires=Wed, 02 Dec 2026 15:57:00 GMT;path=/".
Proof. reflexivity. Qed.

(* ================================================================== *)
(** * Facts about the string built-ins *)

Module StringFacts.

Lemma split_no_sep (sep : ascii) (s : string) :
  JS.has sep s = false -> JS.split sep s = [s].
Proof.
  induction s as [|c s IH]; simpl; intros H; [reflexivity|].
  apply orb_false_iff in H as [Hc Hs].
  rewrite Hc, (IH Hs). reflexivity.
Qed.

Lemma split_app_sep (sep : ascii) (a b : string) :
  JS.has sep a = false ->
  JS.split sep (a ++ String sep b) = a :: JS.split sep b.
Proof.
  induction a as [|c a IH]; simpl; intros H.
  - rewrite Ascii.eqb_refl. reflexivity.
  - apply orb_false_iff in H as [Hc Ha].
    rewrite Hc, (IH Ha). reflexivity.
Qed.

Lemma has_app (c : ascii) (a b : string) :
  JS.has c (a ++ b) = JS.has c a || JS.has c b.
Proof.
  induction a as [|x a IH]; simpl; [reflexivity|].
  rewrite IH. apply orb_assoc.
Qed.

Lemma trimStart_id (s : string) :
  JS.leadingSpace s = false -> JS.trimStart s = s.
Proof.
  destruct s as [|c s]; simpl; [reflexivity|].
  unfold JS.leadingSpace; simpl. intros ->. reflexivity.
Qed.

Lemma trimEnd_id (s : string) :
  JS.trailingSpace s = false -> JS.trimEnd s = s.
Proof.
  unfold JS.trailingSpace.
  induction s as [|c s IH]; [reflexivity|].
  destruct s as [|c' s].
  - simpl. intros ->. reflexivity.
  - intros H.
    change (JS.last (String c (String c' s))) with (JS.last (String c' s)) in H.
    specialize (IH H).
    change (JS.trimEnd (String c (String c' s)))
      with (let r := JS.trimEnd (String c' s) in
            if JS.isWhiteSpace c && JS.isEmpty r then EmptyString else String c r).
    rewrite IH. simpl. rewrite andb_false_r. reflexivity.
Qed.

Lemma trim_id (s : string) :
  JS.leadingSpace s = false -> JS.trailingSpace s = false -> JS.trim s = s.
Proof.
  intros Hl Ht. unfold JS.trim.
  rewrite (trimStart_id s Hl). apply trimEnd_id, Ht.
Qed.

Lemma startsWith_app (p r : string) : JS.startsWith (p ++ r) p = true.
Proof.
  induction p as [|c p IH]; simpl; [reflexivity|].
  rewrite Ascii.eqb_refl, IH. reflexivity.
Qed.

Lemma substring_app (p r : string) :
  JS.substring (String.length p) (p ++ r) = r.
Proof. induction p as [|c p IH]; simpl; [reflexivity | exact IH]. Qed.

Lemma length_app_char (p : string) (c : ascii) :
  String.length (p ++ String c EmptyString) = String.length p + 1.
Proof. induction p as [|x p IH]; simpl; [reflexivity | now rewrite IH]. Qed.

Lemma last_app_cons (a : string) (c : ascii) (b : string) :
  JS.last (a ++ String c b) = JS.last (String c b).
Proof.
  induction a as [|x a IH]; [reflexivity|].
  change (String x a ++ String c b) with (String x (a ++ String c b)).
  destruct a as [|y a]; simpl in *; [reflexivity | exact IH].
Qed.

Lemma append_assoc (a b c : string) : (a ++ b) ++ c = a ++ (b ++ c).
Proof. induction a as [|x a IH]; simpl; [reflexivity | now rewrite IH]. Qed.

End StringFacts.

(* ================================================================== *)
(** * Facts about numbers and their digits *)

Module JarFacts.

Import StringFacts.

Lemma any_app (p : ascii -> bool) (a b : string) :
  Jar.any p (a ++ b) = Jar.any p a || Jar.any p b.
Proof.
  induction a as [|x a IH]; simpl; [reflexivity|].
  rewrite IH. apply orb_assoc.
Qed.

Lemma all_app (p : ascii -> bool) (a b : string) :
  Jar.all p (a ++ b) = Jar.all p a && Jar.all p b.
Proof.
  induction a as [|x a IH]; simpl; [reflexivity|].
  rewrite IH. apply andb_assoc.
Qed.

Lemma has_any (c : ascii) (s : string) :
  JS.has c s = Jar.any (fun a => Ascii.eqb a c) s.
Proof. induction s as [|x s IH]; simpl; [reflexivity | now rewrite IH]. Qed.

(** A string made of characters of one class holds none of a class
    disjoint from it. *)
Lemma all_any (p q : ascii -> bool) (s : string) :
  (forall c, p c = true -> q c = false) ->
  Jar.all p s = true -> Jar.any q s = false.
Proof.
  intros Hpq. induction s as [|x s IH]; simpl; [reflexivity|].
  intros H. apply andb_true_iff in H as [Hx Hs].
  rewrite (Hpq x Hx), (IH Hs). reflexivity.
Qed.

Lemma cut_app (sep : ascii) (a b : string) :
  JS.has sep a = false -> Jar.cut sep (a ++ String sep b) = (a, Some b).
Proof.
  induction a as [|c a IH]; simpl; intros H.
  - rewrite Ascii.eqb_refl. reflexivity.
  - apply orb_false_iff in H as [Hc Ha].
    rewrite Hc, (IH Ha). reflexivity.
Qed.

Lemma cut_no_sep (sep : ascii) (s : string) :
  JS.has sep s = false -> Jar.cut sep s = (s, None).
Proof.
  induction s as [|c s IH]; simpl; intros H; [reflexivity|].
  apply orb_false_iff in H as [Hc Hs].
  rewrite Hc, (IH Hs). reflexivity.
Qed.

Ltac by_cases_on_ascii c :=
  destruct c as [[] [] [] [] [] [] [] []]; try reflexivity; discriminate.

Lemma digit_no_delimiter (c : ascii) :
  Jar.isDigit c = true -> Jar.isDelimiter c = false.
Proof. by_cases_on_ascii c. Qed.

Lemma digit_no_CTL (c : ascii) : Jar.isDigit c = true -> Jar.isCTL c = false.
Proof. by_cases_on_ascii c. Qed.

Lemma digit_no_colon (c : ascii) : Jar.isDigit c = true -> Ascii.eqb c ":" = false.
Proof. by_cases_on_ascii c. Qed.

Lemma all_digits_zeros (n : nat) : Jar.all Jar.isDigit (JS.zeros n) = true.
Proof. induction n as [|n IH]; simpl; [reflexivity | exact IH]. Qed.

Lemma all_digits_uint (d : Decimal.uint) :
  Jar.all Jar.isDigit (NilEmpty.string_of_uint d) = true.
Proof. induction d; simpl; auto. Qed.

Lemma all_digits_decimal (n : Z) : Jar.all Jar.isDigit (JS.decimal n) = true.
Proof.
  unfold JS.decimal, NilZero.string_of_uint.
  generalize (N.to_uint (Z.to_N n)). intros d.
  destruct d; simpl; try reflexivity; apply all_digits_uint.
Qed.

Lemma all_digits_zeroPadded (n : Z) (k : nat) :
  Jar.all Jar.isDigit (JS.zeroPadded n k) = true.
Proof.
  unfold JS.zeroPadded.
  rewrite all_app, all_digits_decimal, all_digits_zeros. reflexivity.
Qed.

Lemma digitRun_all (s : string) :
  Jar.all Jar.isDigit s = true -> Jar.digitRun s = s.
Proof.
  induction s as [|c s IH]; simpl; [reflexivity|].
  intros H. apply andb_true_iff in H as [Hc Hs].
  rewrite Hc, (IH Hs). reflexivity.
Qed.

(** ** Numbers *)

Lemma uint_of_string_zeros (k : nat) (s : string) (u : Decimal.uint) :
  NilEmpty.uint_of_string s = Some u ->
  exists u', NilEmpty.uint_of_string (JS.zeros k ++ s) = Some u'
             /\ N.of_uint u' = N.of_uint u.
Proof.
  intros H. induction k as [|k [u' [Hu' Hn]]]; simpl.
  - exists u. split; [exact H | reflexivity].
  - exists (Decimal.D0 u'). rewrite Hu'. split; [reflexivity | exact Hn].
Qed.

Lemma uint_of_string_decimal (n : Z) :
  (0 <= n)%Z ->
  exists u, NilEmpty.uint_of_string (JS.decimal n) = Some u
            /\ Z.of_N (N.of_uint u) = n.
Proof.
  intros Hn. unfold JS.decimal, NilZero.string_of_uint.
  assert (Hr : N.of_uint (N.to_uint (Z.to_N n)) = Z.to_N n)
    by apply DecimalN.Unsigned.of_to.
  destruct (N.to_uint (Z.to_N n)) as [|d|d|d|d|d|d|d|d|d|d] eqn:E.
  1: { exists (Decimal.D0 Decimal.Nil). split; [reflexivity|].
       change (N.of_uint Decimal.Nil) with 0%N in Hr.
       change (N.of_uint (Decimal.D0 Decimal.Nil)) with 0%N. lia. }
  all: eexists; split; [apply NilEmpty.usu|]; rewrite Hr; lia.
Qed.

Lemma number_zeroPadded (n : Z) (k : nat) :
  (0 <= n)%Z -> Jar.number (JS.zeroPadded n k) = Some n.
Proof.
  intros Hn. unfold Jar.number, JS.zeroPadded.
  destruct (uint_of_string_decimal n Hn) as [u [Hu Hv]].
  destruct (uint_of_string_zeros
              (k - String.length (JS.decimal n)) _ _ Hu) as [u' [Hu' Hv']].
  rewrite Hu', Hv', Hv. reflexivity.
Qed.

(** A number below 100 is written with two digits. *)
Lemma parseDigits_two (n : Z) (trailing : bool) :
  (0 <= n <= 99)%Z ->
  Jar.parseDigits (JS.zeroPadded n 2) 1 2 trailing = Some n.
Proof.
  intros Hn.
  rewrite <- (Z2Nat.id n) by lia.
  assert (Hk : (Z.to_nat n < 100)%nat) by lia.
  generalize dependent (Z.to_nat n). clear Hn. intros k Hk.
  do 100 (destruct k as [|k]; [destruct trailing; reflexivity|]).
  lia.
Qed.

(** Whatever number is read at the head of a zero-padded number is that
    number. *)
Lemma parseDigits_zeroPadded (n v : Z) (k min max : nat) (trailing : bool) :
  (0 <= n)%Z ->
  Jar.parseDigits (JS.zeroPadded n k) min max trailing = Some v -> v = n.
Proof.
  intros Hn. unfold Jar.parseDigits.
  rewrite (digitRun_all _ (all_digits_zeroPadded n k)).
  rewrite (number_zeroPadded n k Hn).
  destruct (_ || _); [discriminate|].
  destruct (_ && _); [discriminate|].
  congruence.
Qed.

End JarFacts.

(* ================================================================== *)
(** * Facts about the calendar *)

Module CalendarFacts.

Local Open Scope Z_scope.

Ltac div_facts x k :=
  let q := fresh "q" in
  let r := fresh "r" in
  let Hq := fresh "Hq" in
  let Hr := fresh "Hr" in
  pose proof (Z.div_mod x k ltac:(lia)) as Hq;
  pose proof (Z.mod_pos_bound x k ltac:(lia)) as Hr;
  set (q := x / k) in *; set (r := x mod k) in *;
  clearbody q r.

(** Year of the era and day of the year of a day of the era. *)
Lemma year_of_era (doe : Z) :
  0 <= doe <= 146096 ->
  let yoe := (doe - doe / 1460 + doe / 36524 - doe / 146096) / 365 in
  0 <= yoe <= 399 /\ 0 <= doe - (365 * yoe + yoe / 4 - yoe / 100) <= 365.
Proof.
  intros H yoe. subst yoe.
  div_facts doe 1460. div_facts doe 36524. div_facts doe 146096.
  div_facts (doe - q + q0 - q1) 365.
  assert (Hy : 0 <= q2 <= 399) by lia.
  div_facts q2 4. div_facts q2 100.
  split; [exact Hy | lia].
Qed.

(** Month and day of month of a day of the year that begins in March. *)
Lemma month_of_year (doy : Z) :
  0 <= doy <= 365 ->
  let mp := (5 * doy + 2) / 153 in
  0 <= mp <= 11 /\ 1 <= doy - (153 * mp + 2) / 5 + 1 <= 31.
Proof.
  intros H mp. subst mp.
  div_facts (5 * doy + 2) 153.
  div_facts (153 * q + 2) 5.
  lia.
Qed.

Lemma civil_bounds (day y m d : Z) :
  Date.civil day = (y, m, d) -> 1 <= m <= 12 /\ 1 <= d <= 31.
Proof.
  intros H.
  pose proof (f_equal (fun p => snd (fst p)) H) as Hm.
  pose proof (f_equal snd H) as Hd.
  cbv beta delta [Date.civil fst snd] iota zeta in Hm, Hd.
  clear H. subst m d.
  set (z := day + 719468).
  set (doe := z - z / 146097 * 146097).
  assert (Hdoe : 0 <= doe <= 146096).
  { subst doe. pose proof (Z.div_mod z 146097 ltac:(lia)).
    pose proof (Z.mod_pos_bound z 146097 ltac:(lia)). lia. }
  destruct (year_of_era doe Hdoe) as [Hyoe Hdoy].
  set (yoe := (doe - doe / 1460 + doe / 36524 - doe / 146096) / 365) in *.
  set (doy := doe - (365 * yoe + yoe / 4 - yoe / 100)) in *.
  destruct (month_of_year doy Hdoy) as [Hmp Hd'].
  set (mp := (5 * doy + 2) / 153) in *.
  split; [|exact Hd'].
  destruct (mp <? 10) eqn:E; [apply Z.ltb_lt in E | apply Z.ltb_ge in E]; lia.
Qed.

(** [dayFromCivil] undoes [civil]. *)
Lemma dayFromCivil_civil (day y m d : Z) :
  Date.civil day = (y, m, d) -> Jar.dayFromCivil y m d = day.
Proof.
  intros H.
  pose proof (f_equal (fun p => fst (fst p)) H) as Hy.
  pose proof (f_equal (fun p => snd (fst p)) H) as Hm.
  pose proof (f_equal snd H) as Hd.
  cbv beta delta [Date.civil fst snd] iota zeta in Hy, Hm, Hd.
  clear H. subst y m d.
  set (z := day + 719468).
  set (era := z / 146097).
  set (doe := z - era * 146097).
  assert (Hdoe : 0 <= doe <= 146096).
  { subst doe era. pose proof (Z.div_mod z 146097 ltac:(lia)).
    pose proof (Z.mod_pos_bound z 146097 ltac:(lia)). lia. }
  destruct (year_of_era doe Hdoe) as [Hyoe Hdoy].
  set (yoe := (doe - doe / 1460 + doe / 36524 - doe / 146096) / 365) in *.
  set (doy := doe - (365 * yoe + yoe / 4 - yoe / 100)) in *.
  destruct (month_of_year doy Hdoy) as [Hmp Hd].
  set (mp := (5 * doy + 2) / 153) in *.
  set (m := if mp <? 10 then mp + 3 else mp - 9).
  assert (Hm : mp = if 2 <? m then m - 3 else m + 9).
  { subst m. destruct (mp <? 10) eqn:E;
      [apply Z.ltb_lt in E | apply Z.ltb_ge in E].
    - destruct (2 <? mp + 3) eqn:E'; [lia | apply Z.ltb_ge in E'; lia].
    - destruct (2 <? mp - 9) eqn:E'; [apply Z.ltb_lt in E'; lia | lia]. }
  unfold Jar.dayFromCivil.
  rewrite <- Hm.
  replace ((if m <=? 2 then yoe + era * 400 + (if m <=? 2 then 1 else 0) - 1
            else yoe + era * 400 + (if m <=? 2 then 1 else 0)))
    with (yoe + era * 400) by (destruct (m <=? 2); lia).
  assert (He : (yoe + era * 400) / 400 = era).
  { symmetry. apply (Z.div_unique _ _ _ yoe); lia. }
  rewrite He.
  replace (yoe + era * 400 - era * 400) with yoe by lia.
  subst doy z. lia.
Qed.

(** Days since the epoch of the first of March of a year. *)
Lemma days_of_year (y : Z) :
  let era := y / 400 in
  let yoe := y - era * 400 in
  era * 146097 + (yoe * 365 + yoe / 4 - yoe / 100)
  = 365 * y + y / 4 - y / 100 + y / 400.
Proof.
  intros era yoe. subst era yoe.
  div_facts y 400. div_facts y 4. div_facts y 100.
  div_facts (y - q * 400) 4. div_facts (y - q * 400) 100.
  lia.
Qed.

(** A later year gives a later day. *)
Lemma dayFromCivil_mono (y y' m d : Z) :
  y <= y' -> Jar.dayFromCivil y m d <= Jar.dayFromCivil y' m d.
Proof.
  intros H. unfold Jar.dayFromCivil.
  set (a := if m <=? 2 then y - 1 else y).
  set (b := if m <=? 2 then y' - 1 else y').
  assert (Hab : a <= b) by (subst a b; destruct (m <=? 2); lia).
  pose proof (days_of_year a) as Ha. pose proof (days_of_year b) as Hb.
  cbv zeta in Ha, Hb.
  set (doy := (153 * (if 2 <? m then m - 3 else m + 9) + 2) / 5 + d - 1).
  enough (365 * a + a / 4 - a / 100 + a / 400
          <= 365 * b + b / 4 - b / 100 + b / 400) by lia.
  clear Ha Hb.
  div_facts a 4. div_facts a 100. div_facts a 400.
  div_facts b 4. div_facts b 100. div_facts b 400.
  lia.
Qed.

(** The time value of a date to the second. *)
Lemma seconds_of_time (t : Z) :
  let day := t / Date.msPerDay in
  let ms := t mod Date.msPerDay in
  day * Date.msPerDay + (ms / 3600000) * 3600000
    + ((ms / 60000) mod 60) * 60000 + ((ms / 1000) mod 60) * 1000
  = 1000 * (t / 1000)
  /\ 0 <= ms / 3600000 <= 23
  /\ 0 <= (ms / 60000) mod 60 <= 59
  /\ 0 <= (ms / 1000) mod 60 <= 59.
Proof.
  intros day ms. subst day ms. unfold Date.msPerDay.
  div_facts t 86400000. div_facts t 1000.
  div_facts r 3600000. div_facts r 60000. div_facts r 1000.
  div_facts q2 60. div_facts q3 60.
  lia.
Qed.

End CalendarFacts.

(* ================================================================== *)
(** * The text of a date, read back as a cookie date *)

Module DateTextFacts.

Import StringFacts JarFacts CalendarFacts.

Lemma splitDelimiters_app (a : string) (c : ascii) (b : string) :
  Jar.any Jar.isDelimiter a = false -> Jar.isDelimiter c = true ->
  Jar.splitDelimiters (a ++ String c b) = a :: Jar.splitDelimiters b.
Proof.
  intros Ha Hc. induction a as [|x a IH]; simpl.
  - rewrite Hc. reflexivity.
  - simpl in Ha. apply orb_false_iff in Ha as [Hx Ha].
    rewrite Hx, (IH Ha). reflexivity.
Qed.

Lemma dateTokens_app (a : string) (c : ascii) (b : string) :
  Jar.any Jar.isDelimiter a = false -> JS.isEmpty a = false ->
  Jar.isDelimiter c = true ->
  Jar.dateTokens (a ++ String c b) = a :: Jar.dateTokens b.
Proof.
  intros Ha He Hc. unfold Jar.dateTokens.
  rewrite (splitDelimiters_app a c b Ha Hc). simpl. rewrite He. reflexivity.
Qed.

Lemma dateTokens_delimiter (c : ascii) (b : string) :
  Jar.isDelimiter c = true ->
  Jar.dateTokens (String c b) = Jar.dateTokens b.
Proof. intros Hc. unfold Jar.dateTokens. simpl. rewrite Hc. reflexivity. Qed.

Lemma isEmpty_app_r (a b : string) :
  JS.isEmpty b = false -> JS.isEmpty (a ++ b) = false.
Proof. intros H. destruct a; [exact H | reflexivity]. Qed.

Lemma isEmpty_app_l (a b : string) :
  JS.isEmpty a = false -> JS.isEmpty (a ++ b) = false.
Proof. intros H. destruct a; [discriminate | reflexivity]. Qed.

Lemma isEmpty_decimal (n : Z) : JS.isEmpty (JS.decimal n) = false.
Proof.
  unfold JS.decimal, NilZero.string_of_uint.
  destruct (N.to_uint (Z.to_N n)); reflexivity.
Qed.

Lemma isEmpty_zeroPadded (n : Z) (k : nat) :
  JS.isEmpty (JS.zeroPadded n k) = false.
Proof. apply isEmpty_app_r, isEmpty_decimal. Qed.

Lemma plain_zeroPadded (n : Z) (k : nat) :
  Jar.any Jar.isDelimiter (JS.zeroPadded n k) = false.
Proof.
  apply (all_any Jar.isDigit); [exact digit_no_delimiter|].
  apply all_digits_zeroPadded.
Qed.

Lemma no_colon_zeroPadded (n : Z) (k : nat) :
  JS.has ":" (JS.zeroPadded n k) = false.
Proof.
  rewrite has_any.
  apply (all_any Jar.isDigit); [exact digit_no_colon|].
  apply all_digits_zeroPadded.
Qed.

Lemma no_CTL_zeroPadded (n : Z) (k : nat) :
  Jar.hasCTL (JS.zeroPadded n k) = false.
Proof.
  apply (all_any Jar.isDigit); [exact digit_no_CTL|].
  apply all_digits_zeroPadded.
Qed.

Lemma parseTime_no_colon (s : string) :
  JS.has ":" s = false -> Jar.parseTime s = None.
Proof. intros H. unfold Jar.parseTime. rewrite (cut_no_sep _ _ H). reflexivity. Qed.

(** A digit is no letter: a token that begins with one names no month. *)
Lemma parseMonth_digit (c : ascii) (s : string) :
  Jar.isDigit c = true -> Jar.parseMonth (String c s) = None.
Proof.
  destruct c as [[] [] [] [] [] [] [] []]; try discriminate; reflexivity.
Qed.

Lemma parseMonth_zeroPadded (n : Z) (k : nat) :
  Jar.parseMonth (JS.zeroPadded n k) = None.
Proof.
  pose proof (all_digits_zeroPadded n k) as H.
  pose proof (isEmpty_zeroPadded n k) as He.
  destruct (JS.zeroPadded n k) as [|c s]; [discriminate|].
  simpl in H. apply andb_true_iff in H as [Hc _].
  apply parseMonth_digit, Hc.
Qed.

(** The names of the days of the week say nothing of the date. *)
Lemma dayName_facts (wd : Z) :
  Jar.any Jar.isDelimiter (Date.dayName wd) = false
  /\ JS.isEmpty (Date.dayName wd) = false
  /\ Jar.hasCTL (Date.dayName wd) = false
  /\ Jar.leadingWSP (Date.dayName wd) = false
  /\ Jar.dateStep Jar.noFields (Date.dayName wd) = Jar.noFields.
Proof.
  destruct wd as [|p|p]; try (repeat split; reflexivity).
  do 3 (try (destruct p as [p|p|]; try (repeat split; reflexivity))).
Qed.

Lemma monthName_facts (m : Z) :
  Jar.any Jar.isDelimiter (Date.monthName m) = false
  /\ JS.isEmpty (Date.monthName m) = false
  /\ Jar.hasCTL (Date.monthName m) = false
  /\ Jar.parseTime (Date.monthName m) = None
  /\ ((1 <= m <= 12)%Z -> Jar.parseMonth (Date.monthName m) = Some m).
Proof.
  destruct m as [|p|p]; try (repeat split; try reflexivity; lia).
  do 4 (try (destruct p as [p|p|]; try (repeat split; try reflexivity; lia))).
Qed.

Section DateText.

Local Open Scope Z_scope.

Variable t : Z.

Let day := t / Date.msPerDay.
Let ms := t mod Date.msPerDay.
Let hh := ms / 3600000.
Let mm := (ms / 60000) mod 60.
Let ss := (ms / 1000) mod 60.

Let timeText := Date.timeText t.

Lemma toUTCString_shape (y m d : Z) :
  Date.civil day = (y, m, d) ->
  Date.toUTCString (Some t)
  = Date.dayName ((day + 4) mod 7)
      ++ String "," (String " " (JS.zeroPadded d 2
      ++ String " " (Date.monthName m
      ++ String " " ((if y <? 0 then "-" else "") ++ JS.zeroPadded (Z.abs y) 4
      ++ String " " (timeText ++ String " " "GMT"))))).
Proof.
  intros Hc. unfold Date.toUTCString. fold day. rewrite Hc.
  unfold timeText, Date.timeText. cbv zeta.
  rewrite !append_assoc. reflexivity.
Qed.

Lemma time_bounds : 0 <= hh <= 23 /\ 0 <= mm <= 59 /\ 0 <= ss <= 59.
Proof. exact (proj2 (seconds_of_time t)). Qed.

Lemma parseTime_timeText : Jar.parseTime timeText = Some (hh, mm, ss).
Proof.
  destruct time_bounds as [Hh [Hm Hs]].
  unfold Jar.parseTime.
  change timeText
    with (JS.zeroPadded hh 2 ++ String ":" (JS.zeroPadded mm 2 ++ String ":" (JS.zeroPadded ss 2)))%string.
  rewrite !cut_app by apply no_colon_zeroPadded.
  rewrite !parseDigits_two by lia. reflexivity.
Qed.

Lemma timeText_facts :
  Jar.any Jar.isDelimiter timeText = false
  /\ JS.isEmpty timeText = false
  /\ Jar.hasCTL timeText = false.
Proof.
  unfold timeText, Date.timeText, Jar.hasCTL. cbv zeta. rewrite !any_app.
  rewrite !plain_zeroPadded.
  pose proof no_CTL_zeroPadded as H. unfold Jar.hasCTL in H. rewrite !H.
  repeat split.
  apply isEmpty_app_l, isEmpty_zeroPadded.
Qed.

(** The date tokens of the text of a date. *)
Lemma dateTokens_toUTCString (y m d : Z) :
  Date.civil day = (y, m, d) ->
  Jar.dateTokens (Date.toUTCString (Some t))
  = [Date.dayName ((day + 4) mod 7); JS.zeroPadded d 2; Date.monthName m;
     JS.zeroPadded (Z.abs y) 4; timeText; "GMT"%string].
Proof.
  intros Hc. rewrite (toUTCString_shape y m d Hc).
  destruct (dayName_facts ((day + 4) mod 7)) as [W1 [W2 _]].
  destruct (monthName_facts m) as [M1 [M2 _]].
  destruct timeText_facts as [T1 [T2 _]].
  rewrite dateTokens_app by (assumption || reflexivity).
  rewrite dateTokens_delimiter by reflexivity.
  rewrite dateTokens_app
    by (apply plain_zeroPadded || apply isEmpty_zeroPadded || reflexivity).
  rewrite dateTokens_app by (assumption || reflexivity).
  assert (Hy : forall rest,
             Jar.dateTokens ((if (y <? 0)%Z then "-" else "") ++ rest)%string
             = Jar.dateTokens rest).
  { intros rest. destruct (y <? 0); [|reflexivity].
    apply dateTokens_delimiter. reflexivity. }
  rewrite Hy.
  rewrite dateTokens_app
    by (apply plain_zeroPadded || apply isEmpty_zeroPadded || reflexivity).
  rewrite dateTokens_app by (assumption || reflexivity).
  reflexivity.
Qed.

(** What the cookie-date algorithm finds in the text of a date. *)
Lemma dateFields_toUTCString (y m d : Z) :
  Date.civil day = (y, m, d) ->
  fold_left Jar.dateStep (Jar.dateTokens (Date.toUTCString (Some t)))
    Jar.noFields
  = {| Jar.found_time := Some (hh, mm, ss); Jar.found_day := Some d;
       Jar.found_month := Some m;
       Jar.found_year := Jar.parseDigits (JS.zeroPadded (Z.abs y) 4) 2 4 true |}.
Proof.
  intros Hc. rewrite (dateTokens_toUTCString y m d Hc).
  destruct (civil_bounds _ _ _ _ Hc) as [Hm Hd].
  destruct (dayName_facts ((day + 4) mod 7)) as [_ [_ [_ [_ W]]]].
  destruct (monthName_facts m) as [_ [_ [_ [M1 M2]]]].
  cbn [fold_left]. rewrite W.
  unfold Jar.dateStep at 5. cbn [Jar.found_time Jar.found_day Jar.found_month
                                 Jar.found_year Jar.noFields].
  rewrite (parseTime_no_colon _ (no_colon_zeroPadded d 2)).
  rewrite parseDigits_two by lia.
  unfold Jar.dateStep at 4. cbn [Jar.found_time Jar.found_day Jar.found_month
                                 Jar.found_year].
  rewrite M1, (M2 Hm).
  unfold Jar.dateStep at 3. cbn [Jar.found_time Jar.found_day Jar.found_month
                                 Jar.found_year].
  rewrite (parseTime_no_colon _ (no_colon_zeroPadded (Z.abs y) 4)).
  assert (Hstep :
    forall yr,
      Jar.dateStep
        (Jar.dateStep
           {| Jar.found_time := None; Jar.found_day := Some d;
              Jar.found_month := Some m; Jar.found_year := yr |} timeText)
        "GMT"
      = {| Jar.found_time := Some (hh, mm, ss); Jar.found_day := Some d;
           Jar.found_month := Some m; Jar.found_year := yr |}).
  { intros yr. unfold Jar.dateStep at 2.
    cbn [Jar.found_time Jar.found_day Jar.found_month Jar.found_year].
    rewrite parseTime_timeText.
    destruct yr; reflexivity. }
  destruct (Jar.parseDigits (JS.zeroPadded (Z.abs y) 4) 2 4 true); apply Hstep.
Qed.

(** Read back by the cookie store, the text of a date gives no date or a
    date that is not before the one it was printed from, cut to the
    second. *)
Lemma parseDate_toUTCString_le (p : Z) :
  Jar.parseDate (Date.toUTCString (Some t)) = Some p -> 1000 * (t / 1000) <= p.
Proof.
  destruct (Date.civil day) as [[y m] d] eqn:Hc.
  unfold Jar.parseDate. rewrite (dateFields_toUTCString y m d Hc).
  cbn [Jar.found_time Jar.found_day Jar.found_month Jar.found_year].
  destruct (Jar.parseDigits (JS.zeroPadded (Z.abs y) 4) 2 4 true) as [v|] eqn:Ey;
    [|discriminate].
  apply parseDigits_zeroPadded in Ey; [|lia]. subst v.
  destruct (_ || _); [discriminate|].
  intros H. injection H as <-.
  unfold Jar.timeValueOf.
  pose proof (proj1 (seconds_of_time t)) as Hsum.
  fold day in Hsum. fold ms in Hsum. fold hh in Hsum. fold mm in Hsum.
  fold ss in Hsum.
  assert (Hy : y <= Jar.fullYear (Z.abs y)).
  { unfold Jar.fullYear.
    destruct ((70 <=? Z.abs y) && (Z.abs y <=? 99)); [lia|].
    destruct ((0 <=? Z.abs y) && (Z.abs y <=? 69)); lia. }
  pose proof (dayFromCivil_mono _ _ m d Hy) as Hmono.
  rewrite (dayFromCivil_civil _ _ _ _ Hc) in Hmono.
  unfold Date.msPerDay in *. lia.
Qed.

End DateText.

End DateTextFacts.

(* ================================================================== *)
(** * The cookie store *)

Section CookieStore.

Import StringFacts JarFacts DateTextFacts.

Lemma has_semicolon_zeros (n : nat) : JS.has ";" (JS.zeros n) = false.
Proof. induction n as [|n IH]; simpl; [reflexivity | exact IH]. Qed.

Lemma has_semicolon_uint (d : Decimal.uint) :
  JS.has ";" (NilEmpty.string_of_uint d) = false.
Proof. induction d; simpl; auto. Qed.

Lemma has_semicolon_decimal (n : Z) : JS.has ";" (JS.decimal n) = false.
Proof.
  unfold JS.decimal, NilZero.string_of_uint.
  generalize (N.to_uint (Z.to_N n)). intros d.
  destruct d; simpl; try reflexivity; apply has_semicolon_uint.
Qed.

Lemma has_semicolon_zeroPadded (n : Z) (k : nat) :
  JS.has ";" (JS.zeroPadded n k) = false.
Proof.
  unfold JS.zeroPadded.
  rewrite has_app, has_semicolon_decimal, has_semicolon_zeros. reflexivity.
Qed.

Lemma has_semicolon_dayName (wd : Z) : JS.has ";" (Date.dayName wd) = false.
Proof.
  destruct wd as [|p|p]; try reflexivity.
  do 3 (try (destruct p as [p|p|]; try reflexivity)).
Qed.

Lemma has_semicolon_monthName (m : Z) : JS.has ";" (Date.monthName m) = false.
Proof.
  destruct m as [|p|p]; try reflexivity.
  do 4 (try (destruct p as [p|p|]; try reflexivity)).
Qed.

(** The text of a date holds no [;]. *)
Lemma has_semicolon_toUTCString (tv : Date.timeValue) :
  JS.has ";" (Date.toUTCString tv) = false.
Proof.
  destruct tv as [t|]; [|reflexivity].
  unfold Date.toUTCString.
  destruct (Date.civil (t / Date.msPerDay)) as [[y m] d].
  rewrite !has_app, has_semicolon_dayName, has_semicolon_monthName,
    !has_semicolon_zeroPadded.
  destruct (y <? 0)%Z; reflexivity.
Qed.

(** The three fields of the string that [setCookie] assigns. *)
Lemma cookieString_fields (now : Z) (name value : string) (days : Z) :
  JS.has ";" name = false -> JS.has ";" value = false ->
  JS.split ";" (cookieString now name value days)
  = [name ++ "=" ++ value;
     "expires="
       ++ Date.toUTCString (Date.timeClip (now + days * 24 * 60 * 60 * 1000)%Z);
     "path=/"].
Proof.
  intros Hn Hv. unfold cookieString.
  set (date := Date.toUTCString _).
  replace (name ++ "=" ++ value ++ ";expires=" ++ date ++ ";path=/")
    with ((name ++ "=" ++ value)
            ++ String ";" (("expires=" ++ date) ++ String ";" "path=/"))
    by (rewrite !append_assoc; reflexivity).
  rewrite split_app_sep by (rewrite !has_app, Hn, Hv; reflexivity).
  rewrite split_app_sep; [reflexivity|].
  rewrite has_app. unfold date. rewrite has_semicolon_toUTCString. reflexivity.
Qed.

(** ** Trimming *)

Lemma dropWSP_id (s : string) :
  Jar.leadingWSP s = false -> Jar.dropWSP s = s.
Proof.
  destruct s as [|c s]; simpl; [reflexivity|].
  unfold Jar.leadingWSP; simpl. intros ->. reflexivity.
Qed.

Lemma dropEndWSP_id (s : string) :
  Jar.trailingWSP s = false -> Jar.dropEndWSP s = s.
Proof.
  unfold Jar.trailingWSP.
  induction s as [|c s IH]; [reflexivity|].
  destruct s as [|c' s].
  - simpl. intros ->. reflexivity.
  - intros H.
    change (JS.last (String c (String c' s))) with (JS.last (String c' s)) in H.
    specialize (IH H).
    change (Jar.dropEndWSP (String c (String c' s)))
      with (let r := Jar.dropEndWSP (String c' s) in
            if Jar.isWSP c && JS.isEmpty r then EmptyString else String c r).
    rewrite IH. simpl. rewrite andb_false_r. reflexivity.
Qed.

Lemma trimWSP_id (s : string) :
  Jar.leadingWSP s = false -> Jar.trailingWSP s = false -> Jar.trimWSP s = s.
Proof.
  intros Hl Ht. unfold Jar.trimWSP.
  rewrite (dropWSP_id s Hl). apply dropEndWSP_id, Ht.
Qed.

(** A string without control characters is one that the store reads. *)
Lemma CTL_isControl (c : ascii) :
  Jar.isControl c = false -> Jar.isCTL c = false.
Proof. destruct c as [[] [] [] [] [] [] [] []]; try reflexivity; discriminate. Qed.

Lemma hasCTL_hasControl (s : string) :
  Jar.hasControl s = false -> Jar.hasCTL s = false.
Proof.
  unfold Jar.hasControl, Jar.hasCTL.
  induction s as [|c s IH]; simpl; [reflexivity|].
  intros H. apply orb_false_iff in H as [Hc Hs].
  rewrite (CTL_isControl c Hc), (IH Hs). reflexivity.
Qed.

(** What [trim] leaves alone, the store leaves alone. *)
Lemma WSP_isWhiteSpace (c : ascii) :
  JS.isWhiteSpace c = false -> Jar.isWSP c = false.
Proof. destruct c as [[] [] [] [] [] [] [] []]; try reflexivity; discriminate. Qed.

Lemma leadingWSP_leadingSpace (s : string) :
  JS.leadingSpace s = false -> Jar.leadingWSP s = false.
Proof.
  unfold JS.leadingSpace, Jar.leadingWSP.
  destruct (JS.first s); [apply WSP_isWhiteSpace | reflexivity].
Qed.

Lemma trailingWSP_trailingSpace (s : string) :
  JS.trailingSpace s = false -> Jar.trailingWSP s = false.
Proof.
  unfold JS.trailingSpace, Jar.trailingWSP.
  destruct (JS.last s); [apply WSP_isWhiteSpace | reflexivity].
Qed.

(** ** The text of a date as an attribute value *)

Lemma toUTCString_trimmed (tv : Date.timeValue) :
  Jar.trimWSP (Date.toUTCString tv) = Date.toUTCString tv.
Proof.
  destruct tv as [t|]; [|reflexivity].
  destruct (Date.civil (t / Date.msPerDay)) as [[y m] d] eqn:Hc.
  rewrite (toUTCString_shape t y m d Hc).
  destruct (dayName_facts ((t / Date.msPerDay + 4) mod 7))
    as [_ [We [_ [Wl _]]]].
  apply trimWSP_id.
  - destruct (Date.dayName _); [discriminate | exact Wl].
  - unfold Jar.trailingWSP.
    set (W := Date.dayName _).
    replace (W ++ String "," (String " " (JS.zeroPadded d 2
      ++ String " " (Date.monthName m
      ++ String " " ((if (y <? 0)%Z then "-" else "")
      ++ JS.zeroPadded (Z.abs y) 4
      ++ String " " (Date.timeText t ++ String " " "GMT"))))))
      with ((W ++ String "," (String " " (JS.zeroPadded d 2
      ++ String " " (Date.monthName m
      ++ String " " ((if (y <? 0)%Z then "-" else "")
      ++ JS.zeroPadded (Z.abs y) 4
      ++ String " " (Date.timeText t)))))) ++ String " " "GMT").
    + rewrite last_app_cons. reflexivity.
    + rewrite !append_assoc. simpl. rewrite !append_assoc. simpl.
      rewrite !append_assoc. simpl. rewrite !append_assoc. reflexivity.
Qed.

Lemma toUTCString_no_CTL (tv : Date.timeValue) :
  Jar.hasCTL (Date.toUTCString tv) = false.
Proof.
  destruct tv as [t|]; [|reflexivity].
  destruct (Date.civil (t / Date.msPerDay)) as [[y m] d] eqn:Hc.
  rewrite (toUTCString_shape t y m d Hc).
  destruct (dayName_facts ((t / Date.msPerDay + 4) mod 7)) as [_ [_ [W _]]].
  destruct (monthName_facts m) as [_ [_ [M _]]].
  destruct (timeText_facts t) as [_ [_ T]].
  pose proof no_CTL_zeroPadded as D.
  unfold Jar.hasCTL in *.
  repeat (rewrite any_app; cbn [Jar.any]).
  rewrite W, M, T, !D.
  destruct (y <? 0)%Z; reflexivity.
Qed.

(** ** What the store makes of the string of [setCookie] *)

Lemma expiryOf_expires_path (date : string) :
  Jar.expiryOf ["expires=" ++ date; "path=/"] = Jar.parseDate (Jar.trimWSP date).
Proof.
  unfold Jar.expiryOf. cbn [fold_left].
  change (Jar.attribute ("expires=" ++ date))
    with ("expires", Jar.trimWSP date).
  change (Jar.attribute "path=/") with ("path", "/").
  cbn [String.eqb Ascii.eqb Bool.eqb].
  destruct (Jar.parseDate (Jar.trimWSP date)); reflexivity.
Qed.

Lemma parse_cookieString (now : Z) (name value : string) (days : Z) :
  JS.has ";" name = false -> JS.has "=" name = false ->
  JS.has ";" value = false ->
  name <> "" ->
  JS.leadingSpace name = false -> Jar.trailingWSP name = false ->
  Jar.leadingWSP value = false -> JS.trailingSpace value = false ->
  Jar.hasCTL name = false -> Jar.hasCTL value = false ->
  Jar.reservedPrefix name = false ->
  (Jar.octets name + Jar.octets value <= 4096)%nat ->
  Jar.parse (cookieString now name value days)
  = Some (cookieOf now name value days).
Proof.
  intros Hn1 Hn2 Hv1 Hne Hnl Hnt Hvl Hvt Hnc Hvc Hpre Hsize.
  unfold Jar.parse.
  assert (Hctl : Jar.hasCTL (cookieString now name value days) = false).
  { unfold cookieString. pose proof (toUTCString_no_CTL
      (Date.timeClip (now + days * 24 * 60 * 60 * 1000)%Z)) as Hd.
    unfold Jar.hasCTL in *. rewrite !any_app, Hnc, Hvc, Hd. reflexivity. }
  rewrite Hctl, (cookieString_fields now name value days Hn1 Hv1).
  change (name ++ "=" ++ value) with (name ++ String "=" value).
  rewrite (cut_app "=" name value Hn2).
  rewrite (trimWSP_id name (leadingWSP_leadingSpace _ Hnl) Hnt).
  rewrite (trimWSP_id value Hvl (trailingWSP_trailingSpace _ Hvt)).
  destruct (4096 <? Jar.octets name + Jar.octets value)%nat eqn:E;
    [apply Nat.ltb_lt in E; lia|].
  rewrite Hpre.
  destruct name as [|c name]; [contradiction|].
  cbn [JS.isEmpty andb].
  rewrite expiryOf_expires_path, toUTCString_trimmed. reflexivity.
Qed.

(** With a positive number of days the cookie has not expired. *)
Lemma cookieOf_not_expired (now : Z) (name value : string) (days : Z) :
  (0 < days)%Z -> Jar.expired now (cookieOf now name value days) = false.
Proof.
  intros Hd. unfold Jar.expired, cookieOf. cbn [Jar.expiry].
  unfold Date.timeClip.
  destruct (Z.abs _ <=? 8640000000000000)%Z; [|reflexivity].
  destruct (Jar.parseDate _) as [p|] eqn:E; [|reflexivity].
  apply parseDate_toUTCString_le in E.
  apply Z.leb_gt.
  pose proof (Z.div_mod (now + days * 24 * 60 * 60 * 1000) 1000 ltac:(lia)).
  pose proof (Z.mod_pos_bound (now + days * 24 * 60 * 60 * 1000) 1000 ltac:(lia)).
  lia.
Qed.

(** ** The store *)

Lemma In_store (c e : Jar.Cookie) (jar : list Jar.Cookie) :
  In e (Jar.store c jar) ->
  e = c \/ (In e jar /\ Jar.sameName c e = false).
Proof.
  unfold Jar.store. destruct (existsb (Jar.sameName c) jar) eqn:Ex.
  - intros H. apply in_map_iff in H as [d [Hd Hin]].
    destruct (Jar.sameName c d) eqn:E; [left; congruence|].
    right. subst e. split; assumption.
  - intros H. apply in_app_or in H as [H | [H | []]].
    + right. split; [exact H|].
      destruct (Jar.sameName c e) eqn:E; [|reflexivity].
      assert (Hex : existsb (Jar.sameName c) jar = true)
        by (apply existsb_exists; exists e; split; assumption).
      congruence.
    + left. congruence.
Qed.

Lemma In_store_self (c : Jar.Cookie) (jar : list Jar.Cookie) :
  In c (Jar.store c jar).
Proof.
  unfold Jar.store. destruct (existsb (Jar.sameName c) jar) eqn:E.
  - apply existsb_exists in E as [d [Hin Hd]].
    apply in_map_iff. exists d. rewrite Hd. split; [reflexivity | exact Hin].
  - apply in_or_app. right. left. reflexivity.
Qed.

Lemma evict_evict (now : Z) (jar : list Jar.Cookie) :
  Jar.evict now (Jar.evict now jar) = Jar.evict now jar.
Proof.
  unfold Jar.evict. induction jar as [|c jar IH]; simpl; [reflexivity|].
  destruct (negb (Jar.expired now c)) eqn:E; simpl; [rewrite E|]; now rewrite IH.
Qed.

(** ** Reading the store with [getCookie] *)

Lemma split_nonempty (sep : ascii) (s : string) : JS.split sep s <> [].
Proof.
  destruct s as [|c s]; simpl; [discriminate|].
  destruct (Ascii.eqb c sep); [discriminate|].
  destruct (JS.split sep s); discriminate.
Qed.

Lemma split_app (sep : ascii) (a b : string) :
  JS.split sep (a ++ String sep b) = (JS.split sep a ++ JS.split sep b)%list.
Proof.
  induction a as [|c a IH]; simpl.
  - rewrite Ascii.eqb_refl. reflexivity.
  - rewrite IH. destruct (Ascii.eqb c sep); [reflexivity|].
    pose proof (split_nonempty sep a) as Hne.
    destruct (JS.split sep a); [contradiction | reflexivity].
Qed.

Lemma getCookie_loop_app (name : string) (l1 l2 : list string) :
  getCookie_loop name (l1 ++ l2)
  = match getCookie_loop name l1 with
    | Some v => Some v
    | None => getCookie_loop name l2
    end.
Proof.
  induction l1 as [|c l1 IH]; simpl; [reflexivity|].
  destruct (JS.startsWith (JS.trim c) (name ++ "=")); [reflexivity | exact IH].
Qed.

(** The space that follows a [;] in [document.cookie] is trimmed away. *)
Lemma getCookieIn_space (doc name : string) :
  getCookieIn (String " " doc) name = getCookieIn doc name.
Proof.
  unfold getCookieIn. simpl.
  pose proof (split_nonempty ";" doc) as Hne.
  destruct (JS.split ";" doc) as [|p ps]; [contradiction|].
  reflexivity.
Qed.

Lemma getCookieIn_empty (name : string) : getCookieIn "" name = None.
Proof. destruct name; reflexivity. Qed.

Lemma getCookieIn_join_cons (name a b : string) (rest : list string) :
  getCookieIn (Jar.join (a :: b :: rest)) name
  = match getCookieIn a name with
    | Some v => Some v
    | None => getCookieIn (Jar.join (b :: rest)) name
    end.
Proof.
  change (Jar.join (a :: b :: rest))
    with (a ++ String ";" (String " " (Jar.join (b :: rest)))).
  rewrite <- (getCookieIn_space (Jar.join (b :: rest)) name).
  unfold getCookieIn. rewrite split_app. apply getCookie_loop_app.
Qed.

(** [getCookie] finds nothing where no cookie reads as [name=...]. *)
Lemma getCookieIn_join_None (name : string) (texts : list string) :
  (forall t, In t texts -> getCookieIn t name = None) ->
  getCookieIn (Jar.join texts) name = None.
Proof.
  induction texts as [|a [|b rest] IH]; intros H.
  - apply getCookieIn_empty.
  - apply H. left. reflexivity.
  - rewrite getCookieIn_join_cons, (H a (or_introl eq_refl)).
    apply IH. intros t Ht. apply H. right. exact Ht.
Qed.

(** [getCookie] finds the value that every cookie reading as [name=...]
    carries. *)
Lemma getCookieIn_join_Some (name value : string) (texts : list string) :
  (forall t, In t texts ->
             getCookieIn t name = Some value \/ getCookieIn t name = None) ->
  (exists t, In t texts /\ getCookieIn t name = Some value) ->
  getCookieIn (Jar.join texts) name = Some value.
Proof.
  induction texts as [|a [|b rest] IH]; intros Hall [t [Hin Ht]].
  - destruct Hin.
  - destruct Hin as [<- | []]. exact Ht.
  - rewrite getCookieIn_join_cons.
    destruct (Hall a (or_introl eq_refl)) as [Ha | Ha]; rewrite Ha;
      [reflexivity|].
    apply IH.
    + intros x Hx. apply Hall. right. exact Hx.
    + destruct Hin as [<- | Hin]; [congruence|].
      exists t. split; assumption.
Qed.

(** After a cookie [name=value] that has not expired went into the
    store, [getCookie(name)] reads [value], unless another cookie of the
    store reads as [name=...] too. *)
Lemma getCookieIn_read_store (now : Z) (c : Jar.Cookie) (jar : list Jar.Cookie)
    (name value : string) :
  Jar.cookie_name c = name ->
  Jar.expired now c = false ->
  getCookieIn (Jar.text c) name = Some value ->
  (forall e, In e jar -> Jar.cookie_name e <> name ->
             getCookieIn (Jar.text e) name = None) ->
  getCookieIn (Jar.read now (Jar.evict now (Jar.store c jar))) name
  = Some value.
Proof.
  intros Hname Hlive Hc Hothers. unfold Jar.read. rewrite evict_evict.
  apply getCookieIn_join_Some.
  - intros t Ht. apply in_map_iff in Ht as [e [<- He]].
    apply filter_In in He as [He _].
    apply In_store in He as [-> | [He Hs]]; [left; exact Hc|].
    right. apply Hothers; [exact He|].
    unfold Jar.sameName in Hs. rewrite Hname in Hs.
    apply String.eqb_neq in Hs. congruence.
  - exists (Jar.text c). split; [|exact Hc].
    apply in_map. apply filter_In. split; [apply In_store_self|].
    rewrite Hlive. reflexivity.
Qed.

End CookieStore.

(* ================================================================== *)
(** * The cookie helpers *)

Section Cookies.

Import StringFacts.

(** The loop stops at a leading [name=value] entry that [trim] leaves
    alone. *)
Lemma getCookie_loop_head (name value : string) (rest : list string) :
  JS.leadingSpace name = false -> JS.trailingSpace value = false ->
  getCookie_loop name ((name ++ "=" ++ value) :: rest) = Some value.
Proof.
  intros Hn Hv. simpl.
  assert (Ht : JS.trim (name ++ String "=" value) = name ++ String "=" value).
  { apply trim_id.
    - destruct name; [reflexivity | exact Hn].
    - unfold JS.trailingSpace. rewrite last_app_cons.
      destruct value as [|c v]; [reflexivity | exact Hv]. }
  rewrite Ht.
  replace (name ++ String "=" value) with ((name ++ "=") ++ value)
    by (rewrite append_assoc; reflexivity).
  rewrite startsWith_app, <- (length_app_char name "="), substring_app.
  reflexivity.
Qed.

Lemma getCookieIn_first_pair (name value rest : string) :
  JS.has ";" name = false -> JS.has ";" value = false ->
  JS.leadingSpace name = false -> JS.trailingSpace value = false ->
  getCookieIn (name ++ "=" ++ value ++ String ";" rest) name = Some value.
Proof.
  intros Hn Hv Hl Ht. unfold getCookieIn.
  replace (name ++ "=" ++ value ++ String ";" rest)
    with ((name ++ "=" ++ value) ++ String ";" rest)
    by (rewrite !append_assoc; reflexivity).
  rewrite split_app_sep.
  - apply getCookie_loop_head; assumption.
  - rewrite !has_app, Hn, Hv. reflexivity.
Qed.

Lemma getCookieIn_only_pair (name value : string) :
  JS.has ";" name = false -> JS.has ";" value = false ->
  JS.leadingSpace name = false -> JS.trailingSpace value = false ->
  getCookieIn (name ++ "=" ++ value) name = Some value.
Proof.
  intros Hn Hv Hl Ht. unfold getCookieIn.
  rewrite split_no_sep.
  - apply getCookie_loop_head; assumption.
  - rewrite !has_app, Hn, Hv. reflexivity.
Qed.

Lemma getCookie_loop_None (name : string) (cookies : list string) :
  getCookie_loop name cookies = None <->
  forall c, In c cookies -> JS.startsWith (JS.trim c) (name ++ "=") = false.
Proof.
  induction cookies as [|c cs IH]; simpl.
  - split; [intros _ c [] | reflexivity].
  - destruct (JS.startsWith (JS.trim c) (name ++ "=")) eqn:E.
    + split; [discriminate|].
      intros H. specialize (H c (or_introl eq_refl)). congruence.
    + rewrite IH. split.
      * intros H x [<- | Hx]; [exact E | apply H, Hx].
      * intros H x Hx. apply H. right. exact Hx.
Qed.

(** [setCookie] is one assignment to [document.cookie]. *)
Lemma setCookie_run (name value : string) (days : Z) (w : World) :
  setCookie name value days w
  = (Normal tt,
     set_document_cookie (cookieString (Date_now w) name value days) w, []).
Proof. reflexivity. Qed.

Lemma setCookie_then_getCookie (name value : string) (days : Z) (w : World) :
  (setCookie name value days ;; getCookie name) w
  = (Normal (getCookieIn
               (document_cookie
                  (set_document_cookie
                     (cookieString (Date_now w) name value days) w)) name),
     set_document_cookie (cookieString (Date_now w) name value days) w, []).
Proof. reflexivity. Qed.

(** What [document.cookie] reads after [setCookie], when the store takes
    the cookie. *)
Lemma document_cookie_after_setCookie
    (w : World) (name value : string) (days : Z) :
  Jar.parse (cookieString (Date_now w) name value days)
  = Some (cookieOf (Date_now w) name value days) ->
  document_cookie
    (set_document_cookie (cookieString (Date_now w) name value days) w)
  = Jar.read (Date_now w)
      (Jar.evict (Date_now w)
         (Jar.store (cookieOf (Date_now w) name value days) (cookieJar w))).
Proof.
  intros H. unfold document_cookie, set_document_cookie, Jar.assign.
  cbn [cookieJar Date_now]. rewrite H. reflexivity.
Qed.

(** C10 (as amended).  Take a name and a value without [;] or [=] and a
    positive number of days.  Let the name be non-empty and begin with
    none of the reserved prefixes, let neither the name nor the value
    begin or end with white space or hold a control character, and let
    them be no longer than 4096 bytes together; let no other cookie of
    the page read as [name=...].  Then [getCookie(name)] after
    [setCookie(name, value, days)] returns exactly [value].  [getCookie]
    returns [null] exactly when no entry of [document.cookie] reads,
    once trimmed, [name=...]: so it does when no cookie of the store
    reads that way. *)
Theorem setCookie_getCookie_roundtrip
    (w : World) (name value : string) (days : Z) :
  JS.has ";" name = false -> JS.has "=" name = false ->
  JS.has ";" value = false -> JS.has "=" value = false ->
  (0 < days)%Z ->
  JS.isEmpty name = false -> Jar.reservedPrefix name = false ->
  JS.leadingSpace name = false -> JS.trailingSpace name = false ->
  JS.leadingSpace value = false -> JS.trailingSpace value = false ->
  Jar.hasControl name = false -> Jar.hasControl value = false ->
  (Jar.octets name + Jar.octets value <= 4096)%nat ->
  (forall c, In c (cookieJar w) -> Jar.cookie_name c <> name ->
             getCookieIn (Jar.text c) name = None) ->
  (setCookie name value days ;; getCookie name) w
  = (Normal (Some value),
     set_document_cookie (cookieString (Date_now w) name value days) w, [])
  /\ getCookieIn (name ++ "=" ++ value) name = Some value
  /\ (forall rest,
        getCookieIn (name ++ "=" ++ value ++ String ";" rest) name = Some value)
  /\ (forall doc n,
        getCookieIn doc n = None <->
        (forall c, In c (JS.split ";" doc) ->
                   JS.startsWith (JS.trim c) (n ++ "=") = false))
  /\ (forall w' n,
        (forall c, In c (cookieJar w') -> getCookieIn (Jar.text c) n = None) ->
        getCookie n w' = (Normal None, w', [])).
Proof.
  intros Hn1 Hn2 Hv1 _ Hdays Hne Hpre Hnl Hnt Hvl Hvt Hnc Hvc Hsize Hothers.
  assert (Hpair : getCookieIn (name ++ "=" ++ value) name = Some value)
    by (apply getCookieIn_only_pair; assumption).
  split; [|split; [exact Hpair | split; [|split]]].
  - rewrite setCookie_then_getCookie. do 3 f_equal.
    rewrite document_cookie_after_setCookie.
    + apply getCookieIn_read_store.
      * reflexivity.
      * apply cookieOf_not_expired, Hdays.
      * unfold Jar.text, cookieOf. cbn [Jar.cookie_name Jar.cookie_value].
        rewrite Hne. exact Hpair.
      * exact Hothers.
    + apply parse_cookieString; try assumption.
      * intros ->. discriminate.
      * apply trailingWSP_trailingSpace, Hnt.
      * apply leadingWSP_leadingSpace, Hvl.
      * apply hasCTL_hasControl, Hnc.
      * apply hasCTL_hasControl, Hvc.
  - intros rest. apply getCookieIn_first_pair; assumption.
  - intros doc n. apply getCookie_loop_None.
  - intros w' n H. unfold getCookie, bind, gets, ret, document_cookie, Jar.read.
    rewrite getCookieIn_join_None; [reflexivity|].
    intros t Ht. apply in_map_iff in Ht as [c [<- Hc]].
    apply filter_In in Hc as [Hc _]. apply H, Hc.
Qed.

Lemma setCookie_getCookie_roundtrip_witness :
  (setCookie "selectedCamera" "cam1" 30 ;; getCookie "selectedCamera") worldTheme
  = (Normal (Some "cam1"),
     set_document_cookie
       (cookieString (Date_now worldTheme) "selectedCamera" "cam1" 30)
       worldTheme, []).
Proof.
  apply (setCookie_getCookie_roundtrip worldTheme "selectedCamera" "cam1" 30);
    try reflexivity; try lia.
  - simpl. lia.
  - intros c [<- | []] _. reflexivity.
Defined.

(** Counterexamples to the round trip as the claim has it.  None of the
    names and values below holds a [;] or a [=], and the day count is
    positive.  A value that ends or begins with a space comes back
    without it; a name that begins or ends with a space, and the empty
    name, are not found; a value with a control character, and a name
    with a reserved prefix, are not stored at all. *)
Lemma setCookie_getCookie_trims :
  let clean s := JS.has ";" s = false /\ JS.has "=" s = false in
  let roundtrip name value :=
    completionOf ((setCookie name value 30 ;; getCookie name) world0) in
  (0 < 30)%Z
  /\ clean "selectedCamera" /\ clean "cam1 " /\ clean " cam1" /\ clean "cam1"
  /\ clean " cam" /\ clean "cam " /\ clean ""
  /\ clean (String (ascii_of_nat 1) "cam1") /\ clean "__Secure-cam"
  /\ roundtrip "selectedCamera" "cam1 " = Normal (Some "cam1")
  /\ roundtrip "selectedCamera" " cam1" = Normal (Some "cam1")
  /\ roundtrip " cam" "cam1" = Normal None
  /\ roundtrip "cam " "cam1" = Normal None
  /\ roundtrip "" "cam1" = Normal None
  /\ roundtrip "selectedCamera" (String (ascii_of_nat 1) "cam1") = Normal None
  /\ roundtrip "__Secure-cam" "cam1" = Normal None.
Proof.
  cbv zeta. unfold completionOf.
  repeat match goal with |- _ /\ _ => split end;
    try lia; vm_compute; reflexivity.
Qed.

(** Two more, as the cookie standard has them: a name and a value of
    more than 4096 bytes together are not stored; and a cookie whose
    name begins with a no-break space, which [trim] removes and the
    store keeps, is taken for the cookie asked for. *)
Example setCookie_getCookie_store_limits :
  completionOf
    ((setCookie "selectedCamera" (JS.zeros 4096) 30 ;; getCookie "selectedCamera")
       world0) = Normal None
  /\ completionOf
       ((setCookie "selectedCamera" "cam1" 30 ;; getCookie "selectedCamera")
          worldNoBreakSpace) = Normal (Some "old").
Proof. split; vm_compute; reflexivity. Qed.

(** With a day count that is not positive the date of expiry is not in
    the future: the store drops the cookie, also the one it held under
    that name, and keeps the others. *)
Example setCookie_past_expiry_deletes :
  document_cookie worldCamera = "theme=dark; selectedCamera=cam1"
  /\ document_cookie (worldOf (setCookie "selectedCamera" "cam2" 30 worldCamera))
     = "theme=dark; selectedCamera=cam2"
  /\ document_cookie (worldOf (setCookie "selectedCamera" "cam2" 0 worldCamera))
     = "theme=dark"
  /\ document_cookie (worldOf (setCookie "selectedCamera" "cam2" (-1) worldCamera))
     = "theme=dark"
  /\ completionOf
       ((setCookie "selectedCamera" "cam2" (-1) ;; getCookie "selectedCamera")
          worldCamera)
     = Normal None.
Proof. repeat split; vm_compute; reflexivity. Qed.

End Cookies.

(* ================================================================== *)
(** * Lists of events *)

Section Traces.

Context {A : Type}.

Lemma cons_eq_app_inv (a x : A) (l pre post : list A) :
  a :: l = (pre ++ x :: post)%list ->
  (pre = [] /\ a = x /\ l = post)
  \/ (exists pre', pre = a :: pre' /\ l = (pre' ++ x :: post)%list).
Proof.
  destruct pre as [|b pre]; simpl; intros H; injection H as -> ->.
  - left. auto.
  - right. eexists. eauto.
Qed.

Lemma nil_eq_app_inv (x : A) (pre post : list A) :
  [] = (pre ++ x :: post)%list -> False.
Proof. destruct pre; discriminate. Qed.

End Traces.

(** Walks an equation [e1 :: ... :: en :: [] = pre ++ x :: post] through
    every position that [x] can take. *)
Ltac split_trace H :=
  repeat
    (first
       [ apply nil_eq_app_inv in H; destruct H
       | apply cons_eq_app_inv in H;
         destruct H as [(-> & H & <-) | (? & -> & H)];
         [ try discriminate H; inversion H; subst; clear H | ] ]).

(* ================================================================== *)
(** * [handleScan] *)

Section HandleScan.

Variables (env : ScanEnv) (decodedText : string) (w : World).

Lemma handleScan_run (scanner : Html5Qrcode) :
  html5QrcodeScanner (AppState w) = Some scanner ->
  handleScan env decodedText w = (Normal tt, w, scanTrace env decodedText).
Proof.
  intros Hs. unfold handleScan, scanTrace, bind, gets, emit. rewrite Hs.
  destruct env as [st rw ad]; simpl.
  destruct st as [[]|err|]; simpl; try reflexivity.
  destruct rw as [[rd]|xhr|]; simpl; try reflexivity.
  destruct ad as [a|xhr|]; simpl; try reflexivity.
  destruct rd; reflexivity.
Qed.

Lemma handleScan_without_scanner :
  html5QrcodeScanner (AppState w) = None ->
  handleScan env decodedText w
  = (Throw "TypeError: AppState.html5QrcodeScanner is null", w,
     [EvConsoleLog "Scanned QR Code:" decodedText]).
Proof.
  intros Hs. unfold handleScan, bind, gets, emit. rewrite Hs. reflexivity.
Qed.

End HandleScan.

Section Pipeline.

Variables (env : ScanEnv) (decodedText : string) (w : World).

(** C2.  In the trace of a decode, every POST request comes after the
    GET request for the decoded code and after its successful
    completion; when the lookup fails no POST request is issued. *)
Theorem submission_only_after_lookup_success :
  (forall pre post url contentType data,
      eventsOf (handleScan env decodedText w)
      = (pre ++ EvAjaxSend "POST" url contentType data :: post)%list ->
      (exists responseReward, reward_result env = Fulfilled responseReward)
      /\ exists before between,
           pre = (before ++ EvAjaxSend "GET" (rewardUrl decodedText) None None
                    :: EvSettled (Ajax "GET" (rewardUrl decodedText)) true
                    :: between)%list)
  /\ (forall xhr url contentType data,
        reward_result env = Rejected xhr ->
        ~ In (EvAjaxSend "POST" url contentType data)
             (eventsOf (handleScan env decodedText w))).
Proof.
  destruct (html5QrcodeScanner (AppState w)) as [scanner|] eqn:Hs.
  - rewrite (handleScan_run env decodedText w scanner Hs).
    unfold scanTrace, eventsOf, errorTrace.
    destruct env as [st rw ad]; simpl.
    destruct st as [[]|err|]; simpl;
      [ destruct rw as [[rd]|xhr|]; simpl;
        [ destruct ad as [a|xhr|]; simpl; [destruct rd; simpl| |] | | ] | | ];
      (split;
       [ intros pre post url ct d H; split_trace H;
         (split; [eexists; reflexivity|]);
         exists [EvConsoleLog "Scanned QR Code:" decodedText;
                 EvStart ScannerStop; EvSettled ScannerStop true], [];
         reflexivity
       | intros xhr' url ct d Hr; try discriminate Hr;
         intros Hin; simpl in Hin;
         repeat (destruct Hin as [Hin|Hin]; [discriminate Hin|]); exact Hin ]).
  - rewrite (handleScan_without_scanner env decodedText w Hs).
    unfold eventsOf; simpl. split.
    + intros pre post url ct d H. split_trace H.
    + intros xhr url ct d _ [Hin|[]]. discriminate Hin.
Qed.

(** C8.  When [stop()] rejects, the failure is reported with an alert
    and the run ends there: no request is issued. *)
Theorem stop_failure_aborts_pipeline (scanner : Html5Qrcode) (err : string) :
  html5QrcodeScanner (AppState w) = Some scanner ->
  stop_result env = Rejected err ->
  handleScan env decodedText w
  = (Normal tt, w,
     [EvConsoleLog "Scanned QR Code:" decodedText; EvStart ScannerStop;
      EvSettled ScannerStop false;
      EvAlert ("Failed to stop scanner: " ++ err)])
  /\ filter isAjaxSend (eventsOf (handleScan env decodedText w)) = [].
Proof.
  intros Hs Hstop.
  rewrite (handleScan_run env decodedText w scanner Hs).
  unfold scanTrace. rewrite Hstop. split; reflexivity.
Qed.

(** C4.  When the lookup fails, or the lookup succeeds and the
    submission fails, the error text is shown, a 1000 ms timer is set,
    and when it fires the message is faded out and [startScan()] is
    called; nothing follows, no request is repeated and [navigateTo] is
    not called. *)
Theorem request_failure_shows_error_then_restarts
    (scanner : Html5Qrcode) (xhr : Xhr) :
  html5QrcodeScanner (AppState w) = Some scanner ->
  stop_result env = Fulfilled tt ->
  (reward_result env = Rejected xhr
   \/ (exists responseReward,
         reward_result env = Fulfilled responseReward)
      /\ add_result env = Rejected xhr) ->
  let events := eventsOf (handleScan env decodedText w) in
  (exists requests,
      events = (requests
                  ++ [EvErrorMessageShow (errorMessage xhr);
                      EvSetTimeout 1000; EvTimeout 1000;
                      EvErrorMessageFadeOut; EvStartScan])%list
      /\ filter isAjaxSend events = filter isAjaxSend requests
      /\ (filter isAjaxSend requests
          = [EvAjaxSend "GET" (rewardUrl decodedText) None None]
          \/ filter isAjaxSend requests
             = [EvAjaxSend "GET" (rewardUrl decodedText) None None;
                EvAjaxSend "POST" "accesses/add" (Some "application/json")
                  (Some {| qr_code := decodedText |})]))
  /\ filter isNavigateTo events = []
  /\ worldOf (handleScan env decodedText w) = w.
Proof.
  intros Hs Hstop Hfail events. subst events.
  rewrite (handleScan_run env decodedText w scanner Hs).
  unfold scanTrace, eventsOf, worldOf, errorTrace. rewrite Hstop.
  destruct Hfail as [Hr | [[r Hr] Ha]]; rewrite Hr; [|rewrite Ha]; simpl.
  - split; [|split; reflexivity].
    exists [EvConsoleLog "Scanned QR Code:" decodedText; EvStart ScannerStop;
            EvSettled ScannerStop true;
            EvAjaxSend "GET" (rewardUrl decodedText) None None;
            EvSettled (Ajax "GET" (rewardUrl decodedText)) false].
    repeat split. left. reflexivity.
  - split; [|split; reflexivity].
    exists [EvConsoleLog "Scanned QR Code:" decodedText; EvStart ScannerStop;
            EvSettled ScannerStop true;
            EvAjaxSend "GET" (rewardUrl decodedText) None None;
            EvSettled (Ajax "GET" (rewardUrl decodedText)) true;
            EvAjaxSend "POST" "accesses/add" (Some "application/json")
              (Some {| qr_code := decodedText |});
            EvSettled (Ajax "POST" "accesses/add") false].
    repeat split. right. reflexivity.
Qed.

(** What the code does keep on a successful check-in: the
    reward notification is sent exactly when [reward_due] holds, the
    message of line 93 follows, and [navigateTo('customers')] is last. *)
Lemma check_in_success_trace (scanner : Html5Qrcode)
    (responseReward : RewardResponse) (responseAdd : AddResponse) :
  html5QrcodeScanner (AppState w) = Some scanner ->
  stop_result env = Fulfilled tt ->
  reward_result env = Fulfilled responseReward ->
  add_result env = Fulfilled responseAdd ->
  eventsOf (handleScan env decodedText w)
  = ([EvConsoleLog "Scanned QR Code:" decodedText; EvStart ScannerStop;
      EvSettled ScannerStop true;
      EvAjaxSend "GET" (rewardUrl decodedText) None None;
      EvSettled (Ajax "GET" (rewardUrl decodedText)) true;
      EvAjaxSend "POST" "accesses/add" (Some "application/json")
        (Some {| qr_code := decodedText |});
      EvSettled (Ajax "POST" "accesses/add") true]
     ++ (if reward_due responseReward
         then [EvSendRewardMessageToCustomersPage] else [])
     ++ [EvSendMessageToCustomersPage
           ("$Check in di {responseAdd.customer.name} "
              ++ last_name (customer responseAdd) ++ " riuscito!");
         EvNavigateTo "customers"])%list.
Proof.
  intros Hs Hstop Hr Ha.
  rewrite (handleScan_run env decodedText w scanner Hs).
  unfold scanTrace, eventsOf. rewrite Hstop, Hr, Ha. reflexivity.
Qed.

End Pipeline.

Lemma stop_failure_aborts_pipeline_witness :
  html5QrcodeScanner (AppState worldReady) = Some {| elementId := "qr-reader" |}
  /\ stop_result envStopFails = Rejected "NotAllowedError"
  /\ eventsOf (handleScan envStopFails "ABC123" worldReady)
     = [EvConsoleLog "Scanned QR Code:" "ABC123"; EvStart ScannerStop;
        EvSettled ScannerStop false;
        EvAlert "Failed to stop scanner: NotAllowedError"].
Proof.
  split; [reflexivity | split; [reflexivity|]].
  rewrite (proj1 (stop_failure_aborts_pipeline envStopFails "ABC123" worldReady
                    {| elementId := "qr-reader" |} "NotAllowedError"
                    eq_refl eq_refl)).
  reflexivity.
Defined.

Lemma request_failure_shows_error_then_restarts_witness :
  filter isNavigateTo (eventsOf (handleScan envLookupFails "XYZ" worldReady)) = []
  /\ filter isNavigateTo (eventsOf (handleScan envSubmitFails "XYZ" worldReady)) = [].
Proof.
  split.
  - apply (request_failure_shows_error_then_restarts envLookupFails "XYZ" worldReady
             {| elementId := "qr-reader" |} notFound eq_refl eq_refl).
    left. reflexivity.
  - apply (request_failure_shows_error_then_restarts envSubmitFails "XYZ" worldReady
             {| elementId := "qr-reader" |} notFound eq_refl eq_refl).
    right. split; [eexists|]; reflexivity.
Defined.

Lemma submission_only_after_lookup_success_witness :
  exists responseReward, reward_result envCheckIn = Fulfilled responseReward.
Proof.
  apply (proj1 (submission_only_after_lookup_success envCheckIn "ABC123" worldReady)
           [EvConsoleLog "Scanned QR Code:" "ABC123"; EvStart ScannerStop;
            EvSettled ScannerStop true;
            EvAjaxSend "GET" "accesses/reward_due_qr/ABC123" None None;
            EvSettled (Ajax "GET" "accesses/reward_due_qr/ABC123") true]
           [EvSettled (Ajax "POST" "accesses/add") true;
            EvSendMessageToCustomersPage
              "$Check in di {responseAdd.customer.name} Rossi riuscito!";
            EvNavigateTo "customers"]
           "accesses/add" (Some "application/json")
           (Some {| qr_code := "ABC123" |}) eq_refl).
Defined.

(** C5 at the scenario of the specification: decode "ABC123", no reward
    due, customer Mario Rossi.  The confirmation message is sent before
    [navigateTo('customers')] and no reward notification is sent, but the
    message carries the text of the placeholder instead of the first
    name: it does not contain "Mario Rossi". *)
Theorem check_in_message_lacks_first_name :
  eventsOf (handleScan envCheckIn "ABC123" worldReady)
  = [EvConsoleLog "Scanned QR Code:" "ABC123"; EvStart ScannerStop;
     EvSettled ScannerStop true;
     EvAjaxSend "GET" "accesses/reward_due_qr/ABC123" None None;
     EvSettled (Ajax "GET" "accesses/reward_due_qr/ABC123") true;
     EvAjaxSend "POST" "accesses/add" (Some "application/json")
       (Some {| qr_code := "ABC123" |});
     EvSettled (Ajax "POST" "accesses/add") true;
     EvSendMessageToCustomersPage
       "$Check in di {responseAdd.customer.name} Rossi riuscito!";
     EvNavigateTo "customers"]
  /\ JS.includes "$Check in di {responseAdd.customer.name} Rossi riuscito!"
                 "Mario Rossi" = false
  /\ JS.includes "$Check in di {responseAdd.customer.name} Rossi riuscito!"
                 "Mario" = false.
Proof. repeat split. Qed.

(* ================================================================== *)
(** * [initializeCamera] *)

Section InitializeCamera.

Lemma bind_run_normal {A B} (m : M A) (k : A -> M B) (w : World)
    (a : A) (w1 : World) (e1 : list Event)
    (r : Completion B) (w2 : World) (e2 : list Event) :
  m w = (Normal a, w1, e1) ->
  k a w1 = (r, w2, e2) ->
  bind m k w = (r, w2, (e1 ++ e2)%list).
Proof. intros Hm Hk. unfold bind. rewrite Hm, Hk. reflexivity. Qed.

(** Filling the dropdown touches nothing but the dropdown. *)
Lemma forEach_addOption (devices : list Device) :
  forall (index : nat) (w : World),
  exists dropdown,
    forEach devices index addOption w
    = (Normal tt, set_cameraDropdown dropdown w, []).
Proof.
  induction devices as [|device rest IH]; intros index w.
  - exists (cameraDropdown w). destruct w; reflexivity.
  - destruct (IH (S index) (worldOf (addOption device index w))) as [dd Hdd].
    exists dd.
    change (forEach (device :: rest) index addOption)
      with (addOption device index ;; forEach rest (S index) addOption).
    rewrite (bind_run_normal _ _ w tt _ _ _ _ _ eq_refl Hdd). reflexivity.
Qed.

(** The [then] callback on a non-empty list: with [cameraId] unbound it
    throws after the selection, with [cameraId] bound it completes and
    persists that binding. *)
Lemma onCameras_run (w : World) (device0 : Device) (rest : list Device) :
  let chosen :=
    resolved (getCookieIn (document_cookie w) "selectedCamera") device0 rest in
  exists dropdown,
    onCameras (Some (device0 :: rest)) w
    = match cameraId w with
      | None =>
          (Throw "ReferenceError: cameraId is not defined",
           {| AppState := set_deviceId chosen (AppState w);
              cookieJar := cookieJar w;
              cameraId := None;
              cameraDropdown := dropdown;
              Date_now := Date_now w |},
           [])
      | Some c =>
          (Normal tt,
           {| AppState :=
                {| cameraInitialized := true;
                   html5QrcodeScanner := Some {| elementId := "qr-reader" |};
                   deviceId := chosen |};
              cookieJar := Jar.assign (Date_now w)
                      (cookieString (Date_now w) "selectedCamera" c 30)
                      (cookieJar w);
              cameraId := Some c;
              cameraDropdown := addEventListener dropdown;
              Date_now := Date_now w |},
           [EvNewHtml5Qrcode "qr-reader"; EvStartScan])
      end.
Proof.
  intros chosen. subst chosen. unfold resolved.
  destruct w as [app jar cid dropdown now].
  destruct (forEach_addOption (device0 :: rest) 0
              {| AppState := app; cookieJar := jar; cameraId := cid;
                 cameraDropdown := dropdown; Date_now := now |}) as [dd Hdd].
  set (doc := Jar.read now jar).
  exists (set_value
            (if JS.truthy (getCookieIn doc "selectedCamera")
                && some (device0 :: rest) (getCookieIn doc "selectedCamera")
             then JS.toString (getCookieIn doc "selectedCamera")
             else id device0) dd).
  cbv -[Jar.read Jar.assign forEach addOption cookieString getCookieIn set_value addEventListener
        JS.truthy some andb JS.toString doc].
  rewrite Hdd. fold doc.
  destruct (JS.truthy (getCookieIn doc "selectedCamera")
            && some (device0 :: rest) (getCookieIn doc "selectedCamera"));
    destruct cid as [c|];
    cbv -[Jar.read Jar.assign cookieString getCookieIn set_value addEventListener JS.toString doc];
    reflexivity.
Qed.
(** A first call whose script loads and whose enumeration yields a
    non-empty list. *)
Lemma initializeCamera_run (env : InitEnv) (w : World)
    (device0 : Device) (rest : list Device) :
  cameraInitialized (AppState w) = false ->
  script_result env = Fulfilled tt ->
  cameras_result env = Fulfilled (Some (device0 :: rest)) ->
  let chosen :=
    resolved (getCookieIn (document_cookie w) "selectedCamera") device0 rest in
  exists dropdown,
    initializeCamera env w
    = match cameraId w with
      | None =>
          (Normal tt,
           {| AppState := set_deviceId chosen (AppState w);
              cookieJar := cookieJar w;
              cameraId := None;
              cameraDropdown := dropdown;
              Date_now := Date_now w |},
           [EvAppendScript scriptUrl; EvSettled (ScriptLoad scriptUrl) true;
            EvStart GetCameras; EvSettled GetCameras true;
            EvAlert "Camera initialization error: ReferenceError: cameraId is not defined"])
      | Some c =>
          (Normal tt,
           {| AppState :=
                {| cameraInitialized := true;
                   html5QrcodeScanner := Some {| elementId := "qr-reader" |};
                   deviceId := chosen |};
              cookieJar := Jar.assign (Date_now w)
                      (cookieString (Date_now w) "selectedCamera" c 30)
                      (cookieJar w);
              cameraId := Some c;
              cameraDropdown := addEventListener dropdown;
              Date_now := Date_now w |},
           [EvAppendScript scriptUrl; EvSettled (ScriptLoad scriptUrl) true;
            EvStart GetCameras; EvSettled GetCameras true;
            EvNewHtml5Qrcode "qr-reader"; EvStartScan])
      end.
Proof.
  intros Hi Hscript Hcams chosen.
  destruct (onCameras_run w device0 rest) as [dd Hdd].
  exists dd. fold chosen in Hdd.
  unfold initializeCamera, onScriptLoad, thenCatch.
  rewrite Hscript, Hcams.
  unfold bind at 1, gets at 1. rewrite Hi.
  revert Hdd. destruct (cameraId w) as [c|]; intros Hdd;
    cbv -[Jar.read Jar.assign onCameras chosen cookieString addEventListener set_deviceId];
    rewrite Hdd; reflexivity.
Qed.

(** C3 (as amended).  On a non-empty device list the active device id
    becomes the persisted id when that id is not empty and is the id of
    an enumerated device, and the id of the first enumerated device in
    every other case. *)
Theorem initializeCamera_selects_device (env : InitEnv) (w : World)
    (device0 : Device) (rest : list Device) :
  cameraInitialized (AppState w) = false ->
  script_result env = Fulfilled tt ->
  cameras_result env = Fulfilled (Some (device0 :: rest)) ->
  let saved := getCookieIn (document_cookie w) "selectedCamera" in
  let active := deviceId (AppState (worldOf (initializeCamera env w))) in
  (forall s, saved = Some s -> s <> "" ->
             In s (map id (device0 :: rest)) -> active = Some s)
  /\ (forall s, saved = Some s -> ~ In s (map id (device0 :: rest)) ->
                active = Some (id device0))
  /\ (saved = Some "" -> active = Some (id device0))
  /\ (saved = None -> active = Some (id device0)).
Proof.
  intros Hi Hscript Hcams saved active.
  assert (Hactive : active = resolved saved device0 rest).
  { subst active saved.
    destruct (initializeCamera_run env w device0 rest Hi Hscript Hcams)
      as [dd ->].
    destruct (cameraId w); reflexivity. }
  rewrite Hactive. unfold resolved.
  repeat split.
  - intros s Hs Hne Hin. rewrite Hs.
    replace (JS.truthy (Some s)) with true
      by (destruct s; [contradiction|reflexivity]).
    replace (some (device0 :: rest) (Some s)) with true; [reflexivity|].
    symmetry. apply existsb_exists.
    apply in_map_iff in Hin as [d [Hd Hin]].
    exists d. split; [exact Hin | apply String.eqb_eq, Hd].
  - intros s Hs Hnin. rewrite Hs.
    replace (some (device0 :: rest) (Some s)) with false;
      [rewrite andb_false_r; reflexivity|].
    symmetry. apply not_true_iff_false. intros H.
    apply existsb_exists in H as [d [Hin Hd]].
    apply Hnin, in_map_iff. exists d. split; [apply String.eqb_eq, Hd | exact Hin].
  - intros ->. reflexivity.
  - intros ->. reflexivity.
Qed.

(** An enumeration that resolves to an empty or missing list leaves the
    world as it was and reports nothing. *)
Lemma initializeCamera_no_devices (env : InitEnv) (w : World) :
  cameraInitialized (AppState w) = false ->
  script_result env = Fulfilled tt ->
  (cameras_result env = Fulfilled (Some [])
   \/ cameras_result env = Fulfilled None) ->
  initializeCamera env w
  = (Normal tt, w,
     [EvAppendScript scriptUrl; EvSettled (ScriptLoad scriptUrl) true;
      EvStart GetCameras; EvSettled GetCameras true]).
Proof.
  intros Hi Hscript Hcams.
  unfold initializeCamera, onScriptLoad, thenCatch.
  rewrite Hscript.
  unfold bind at 1, gets at 1. rewrite Hi.
  destruct Hcams as [-> | ->]; reflexivity.
Qed.

(** An enumeration that is rejected is reported with an alert. *)
Lemma initializeCamera_enumeration_rejected (env : InitEnv) (w : World)
    (err : string) :
  cameraInitialized (AppState w) = false ->
  script_result env = Fulfilled tt ->
  cameras_result env = Rejected err ->
  initializeCamera env w
  = (Normal tt, w,
     [EvAppendScript scriptUrl; EvSettled (ScriptLoad scriptUrl) true;
      EvStart GetCameras; EvSettled GetCameras false;
      EvAlert ("Camera initialization error: " ++ err)]).
Proof.
  intros Hi Hscript Hcams.
  unfold initializeCamera, onScriptLoad, thenCatch.
  rewrite Hscript, Hcams.
  unfold bind at 1, gets at 1. rewrite Hi. reflexivity.
Qed.

(** With [cameraInitialized] set, a call only calls [startScan()]. *)
Lemma initializeCamera_initialized_run (env : InitEnv) (w : World) :
  cameraInitialized (AppState w) = true ->
  initializeCamera env w = (Normal tt, w, [EvStartScan]).
Proof.
  intros Hi. unfold initializeCamera.
  unfold bind at 1, gets at 1. rewrite Hi. reflexivity.
Qed.

(** A call that finds the script or the enumeration pending, or the
    script failing to load, leaves the state as it is. *)
Lemma initializeCamera_unsettled (env : InitEnv) (w : World) :
  cameraInitialized (AppState w) = false ->
  script_result env = Pending
  \/ script_result env = Rejected tt
  \/ (script_result env = Fulfilled tt /\ cameras_result env = Pending) ->
  worldOf (initializeCamera env w) = w.
Proof.
  intros Hi Hcase.
  unfold initializeCamera, onScriptLoad, thenCatch.
  unfold bind at 1, gets at 1. rewrite Hi.
  destruct Hcase as [-> | [-> | [-> ->]]]; reflexivity.
Qed.

(** [cameraInitialized] is set exactly in the states that hold a
    scanner: true of [AppState0], and kept by every call. *)
Lemma initializeCamera_keeps_scannerInvariant (env : InitEnv) (w : World) :
  scannerInvariant w -> scannerInvariant (worldOf (initializeCamera env w)).
Proof.
  intros Hinv.
  destruct (cameraInitialized (AppState w)) eqn:Hi.
  { rewrite (initializeCamera_initialized_run env w Hi). exact Hinv. }
  destruct (script_result env) as [[]|[]|] eqn:Hscript.
  - destruct (cameras_result env) as [[[|device0 rest]|]|err|] eqn:Hcams.
    + rewrite (initializeCamera_no_devices env w Hi Hscript (or_introl Hcams)).
      exact Hinv.
    + destruct (initializeCamera_run env w device0 rest Hi Hscript Hcams)
        as [dd ->].
      unfold scannerInvariant in *.
      destruct (cameraId w); simpl; [split; [discriminate | reflexivity]|].
      exact Hinv.
    + rewrite (initializeCamera_no_devices env w Hi Hscript (or_intror Hcams)).
      exact Hinv.
    + rewrite (initializeCamera_enumeration_rejected env w err Hi Hscript Hcams).
      exact Hinv.
    + rewrite (initializeCamera_unsettled env w Hi); [exact Hinv|]. auto.
  - rewrite (initializeCamera_unsettled env w Hi); [exact Hinv|]. auto.
  - rewrite (initializeCamera_unsettled env w Hi); [exact Hinv|]. auto.
Qed.

(** C9.  Once [cameraInitialized] is set, which [initializeCamera] does
    right after constructing the scanner, a call of [initializeCamera]
    only calls [startScan()]: it appends no script, starts no
    enumeration, constructs no scanner and leaves the state as it is;
    and so does every later call. *)
Theorem initializeCamera_when_initialized (w : World) :
  cameraInitialized (AppState w) = true ->
  (forall env, initializeCamera env w = (Normal tt, w, [EvStartScan]))
  /\ (forall envs,
        initializeCameraCalls envs w
        = (Normal tt, w, repeat EvStartScan (length envs))).
Proof.
  intros Hi.
  split; [intros env; apply initializeCamera_initialized_run, Hi|].
  induction envs as [|env envs IH]; [reflexivity|].
  simpl initializeCameraCalls.
  rewrite (bind_run_normal _ _ w tt w [EvStartScan] _ _ _
             (initializeCamera_initialized_run env w Hi) IH).
  reflexivity.
Qed.

End InitializeCamera.

Lemma initializeCamera_selects_device_witness :
  cameraInitialized (AppState worldEmptyCookie) = false
  /\ deviceId (AppState
       (worldOf (initializeCamera (envCameras [cam1; camNoId]) worldEmptyCookie)))
     = Some (id cam1).
Proof.
  split; [reflexivity|].
  destruct (initializeCamera_selects_device (envCameras [cam1; camNoId])
              worldEmptyCookie cam1 [camNoId] eq_refl eq_refl eq_refl)
    as (_ & _ & Hempty & _).
  apply Hempty. reflexivity.
Defined.

(** Counterexample to restoring every persisted id that matches a
    device: the persisted id is the empty string,
    the second enumerated device has that id, and the first device
    becomes the active one. *)
Lemma empty_persisted_id_not_restored :
  getCookieIn (document_cookie worldEmptyCookie) "selectedCamera" = Some ""
  /\ In "" (map id [cam1; camNoId])
  /\ deviceId (AppState
       (worldOf (initializeCamera (envCameras [cam1; camNoId]) worldEmptyCookie)))
     = Some "cam1"
  /\ Some "cam1" <> Some "".
Proof.
  repeat split; [right; left; reflexivity | discriminate].
Qed.

Lemma initializeCamera_when_initialized_witness :
  cameraInitialized (AppState worldReady) = true
  /\ initializeCamera (envCameras [cam1; cam2]) worldReady
     = (Normal tt, worldReady, [EvStartScan]).
Proof.
  split; [reflexivity|].
  apply (initializeCamera_when_initialized worldReady eq_refl).
Defined.

(** C6 at the empty list: nothing is reported, neither by an alert nor
    otherwise, and the state is untouched; the rejected enumeration
    next to it does raise the alert. *)
Theorem empty_device_list_reports_nothing :
  initializeCamera (envCameras []) world0
  = (Normal tt, world0,
     [EvAppendScript "https://unpkg.com/html5-qrcode";
      EvSettled (ScriptLoad "https://unpkg.com/html5-qrcode") true;
      EvStart GetCameras; EvSettled GetCameras true])
  /\ filter isAlert (eventsOf (initializeCamera (envCameras []) world0)) = []
  /\ filter isAlert
       (eventsOf
          (initializeCamera
             {| script_result := Fulfilled tt;
                cameras_result := Rejected "NotFoundError" |} world0))
     = [EvAlert "Camera initialization error: NotFoundError"].
Proof. repeat split. Qed.

(** C1 at the scenario of the specification: devices cam1 and cam2, no
    cookie.  "cam1" becomes the active device, but evaluating [cameraId]
    throws before [setCookie] is called: no cookie is written, the
    exception is reported by the alert of the [catch], and the scanner
    is never constructed.  With [cameraId] bound elsewhere the cookie
    receives that binding, at initialisation and again when the user
    picks cam2. *)
Theorem resolved_device_id_not_persisted :
  let r := initializeCamera (envCameras [cam1; cam2]) world0 in
  let r' := initializeCamera (envCameras [cam1; cam2]) worldStale in
  let r'' := userSelects "cam2" (worldOf r') in
  let u := userSelects "cam2" (worldOf r) in
  deviceId (AppState (worldOf r)) = Some "cam1"
  /\ getCookieIn (document_cookie (worldOf r)) "selectedCamera" = None
  /\ AppState (worldOf r)
     = {| cameraInitialized := false; html5QrcodeScanner := None;
          deviceId := Some "cam1" |}
  /\ eventsOf r
     = [EvAppendScript "https://unpkg.com/html5-qrcode";
        EvSettled (ScriptLoad "https://unpkg.com/html5-qrcode") true;
        EvStart GetCameras; EvSettled GetCameras true;
        EvAlert "Camera initialization error: ReferenceError: cameraId is not defined"]
  /\ deviceId (AppState (worldOf r')) = Some "cam1"
  /\ getCookieIn (document_cookie (worldOf r')) "selectedCamera" = Some "stale"
  /\ deviceId (AppState (worldOf r'')) = Some "cam2"
  /\ getCookieIn (document_cookie (worldOf r'')) "selectedCamera" = Some "stale"
  /\ changeListeners (cameraDropdown (worldOf r)) = 0
  /\ deviceId (AppState (worldOf u)) = Some "cam1"
  /\ getCookieIn (document_cookie (worldOf u)) "selectedCamera" = None.
Proof. repeat split. Qed.

(* ================================================================== *)
(** * The text of the error message *)

(** C7 (as amended).  The error text is the detail field when it is
    present and not empty, otherwise the response body when that is not
    empty, otherwise "Errore generico"; a lookup that fails with the
    detail "not found" shows exactly "not found". *)
Theorem error_message_precedence (xhr : Xhr) :
  let optDetails :=
    match responseJSON xhr with
    | Some body => details body
    | None => None
    end in
  (forall d, optDetails = Some d -> d <> "" -> errorMessage xhr = d)
  /\ (optDetails = None \/ optDetails = Some "" ->
      responseText xhr <> "" -> errorMessage xhr = responseText xhr)
  /\ (optDetails = None \/ optDetails = Some "" ->
      responseText xhr = "" -> errorMessage xhr = "Errore generico")
  /\ (forall env decodedText w scanner body,
        html5QrcodeScanner (AppState w) = Some scanner ->
        stop_result env = Fulfilled tt ->
        reward_result env
        = Rejected {| responseJSON := Some {| details := Some "not found" |};
                      responseText := body |} ->
        filter isErrorMessageShow (eventsOf (handleScan env decodedText w))
        = [EvErrorMessageShow "not found"]).
Proof.
  intros optDetails. unfold errorMessage. fold optDetails.
  repeat split.
  - intros d -> Hd. destruct d; [contradiction | reflexivity].
  - intros [-> | ->] Ht; destruct (responseText xhr); try contradiction;
      reflexivity.
  - intros [-> | ->] ->; reflexivity.
  - intros env decodedText w scanner body Hs Hstop Hr.
    rewrite (handleScan_run env decodedText w scanner Hs).
    unfold scanTrace. rewrite Hstop, Hr. reflexivity.
Qed.

Lemma error_message_precedence_witness :
  errorMessage notFound = "not found"
  /\ filter isErrorMessageShow (eventsOf (handleScan envLookupFails "XYZ" worldReady))
     = [EvErrorMessageShow "not found"].
Proof.
  destruct (error_message_precedence notFound) as (Hdetails & _ & _ & Hscan).
  split.
  - apply Hdetails; [reflexivity | discriminate].
  - apply (Hscan envLookupFails "XYZ" worldReady
             {| elementId := "qr-reader" |} (responseText notFound));
      reflexivity.
Defined.

(** Counterexample to the precedence by presence: the detail field is
    present and empty,
    and the response body is shown in its place. *)
Lemma empty_details_fall_through :
  responseJSON emptyDetails = Some {| details := Some "" |}
  /\ errorMessage_by_presence emptyDetails = ""
  /\ errorMessage emptyDetails = responseText emptyDetails
  /\ errorMessage emptyDetails <> errorMessage_by_presence emptyDetails.
Proof. repeat split. discriminate. Qed.

(* ================================================================== *)
(** * More about the cookie helpers *)

Section MoreCookies.

Import StringFacts.

Lemma startsWith_inv (p s : string) :
  JS.startsWith s p = true -> s = p ++ JS.substring (String.length p) s.
Proof.
  revert s. induction p as [|a p IH]; intros s H; [reflexivity|].
  destruct s as [|b s]; [discriminate|].
  simpl in H. apply andb_true_iff in H as [Hab Hs].
  apply Ascii.eqb_eq in Hab. subst b.
  simpl. f_equal. apply IH, Hs.
Qed.

(** X1.  Whatever [getCookie(name)] returns comes from an entry of
    [document.cookie] that reads, once trimmed, [name=] followed by the
    returned value: an entry whose key merely begins with [name] is
    never taken for it. *)
Theorem getCookie_returns_an_entry (doc name v : string) :
  getCookieIn doc name = Some v ->
  exists c, In c (JS.split ";" doc) /\ JS.trim c = name ++ "=" ++ v.
Proof.
  unfold getCookieIn. generalize (JS.split ";" doc) as cookies.
  induction cookies as [|c cs IH]; simpl; [discriminate|].
  destruct (JS.startsWith (JS.trim c) (name ++ "=")) eqn:E.
  - intros H. injection H as <-. exists c. split; [left; reflexivity|].
    apply startsWith_inv in E.
    rewrite length_app_char, append_assoc in E. exact E.
  - intros H. destruct (IH H) as [c' [Hin Hc']].
    exists c'. split; [right; exact Hin | exact Hc'].
Qed.

(** X2.  [getCookie(name)] returns the value of the first entry that
    reads [name=value] once trimmed, wherever it stands: entries before
    it that do not begin with [name=] are skipped, and entries after it,
    a second [name=...] included, are not looked at. *)
Theorem getCookie_first_match (doc name value c : string)
    (before after : list string) :
  JS.split ";" doc = (before ++ c :: after)%list ->
  (forall b, In b before -> JS.startsWith (JS.trim b) (name ++ "=") = false) ->
  JS.trim c = name ++ "=" ++ value ->
  getCookieIn doc name = Some value.
Proof.
  intros Hsplit Hbefore Hc. unfold getCookieIn. rewrite Hsplit. clear Hsplit.
  induction before as [|b bs IH]; simpl.
  - rewrite Hc.
    replace (name ++ "=" ++ value) with ((name ++ "=") ++ value)
      by (rewrite append_assoc; reflexivity).
    rewrite startsWith_app, <- (length_app_char name "="), substring_app.
    reflexivity.
  - rewrite (Hbefore b (or_introl eq_refl)).
    apply IH. intros x Hx. apply Hbefore. right. exact Hx.
Qed.

End MoreCookies.

Lemma getCookie_returns_an_entry_witness :
  exists c,
    In c (JS.split ";" "theme=dark; selectedCamera=cam2")
    /\ JS.trim c = "selectedCamera" ++ "=" ++ "cam2".
Proof.
  apply (getCookie_returns_an_entry "theme=dark; selectedCamera=cam2"
           "selectedCamera" "cam2").
  reflexivity.
Defined.

Lemma getCookie_first_match_witness :
  getCookieIn "theme=dark; selectedCamera=cam2; selectedCamera=cam3"
              "selectedCamera" = Some "cam2".
Proof.
  apply (getCookie_first_match
           "theme=dark; selectedCamera=cam2; selectedCamera=cam3"
           "selectedCamera" "cam2" " selectedCamera=cam2"
           ["theme=dark"] [" selectedCamera=cam3"]).
  - reflexivity.
  - intros b [<- | []]. reflexivity.
  - reflexivity.
Defined.

(* ================================================================== *)
(** * The text that [setCookie] writes *)

Section CookieText.

Import StringFacts.

(** X3.  With no [;] in the name and in the value, the string that
    [setCookie] assigns to [document.cookie] has exactly three fields:
    the pair [name=value], the expiry and [path=/]; whatever the clock
    and the number of days, the date adds no separator of its own. *)
Theorem setCookie_writes_three_fields (w : World) (name value : string) (days : Z) :
  JS.has ";" name = false -> JS.has ";" value = false ->
  setCookie name value days w
  = (Normal tt,
     set_document_cookie (cookieString (Date_now w) name value days) w, [])
  /\ JS.split ";" (cookieString (Date_now w) name value days)
     = [name ++ "=" ++ value;
        "expires="
          ++ Date.toUTCString
               (Date.timeClip (Date_now w + days * 24 * 60 * 60 * 1000)%Z);
        "path=/"].
Proof.
  intros Hn Hv. split; [reflexivity|].
  apply cookieString_fields; assumption.
Qed.

End CookieText.

Lemma setCookie_writes_three_fields_witness :
  setCookie "selectedCamera" "cam1" 30 world0
  = (Normal tt,
     set_document_cookie
       (cookieString (Date_now world0) "selectedCamera" "cam1" 30) world0, [])
  /\ JS.split ";" (cookieString (Date_now world0) "selectedCamera" "cam1" 30)
     = ["selectedCamera=cam1"; "expires=Wed, 02 Dec 2026 15:57:00 GMT"; "path=/"].
Proof.
  apply (setCookie_writes_three_fields world0 "selectedCamera" "cam1" 30);
    reflexivity.
Defined.

(* ================================================================== *)
(** * More about [handleScan] *)

(** Decides membership of an event in the trace of one run. *)
Ltac in_trace :=
  simpl;
  split;
  [ intros Hin;
    repeat (destruct Hin as [Hin | Hin];
            [try discriminate Hin; try (injection Hin as <-) |]);
    try contradiction; eauto 10
  | intros Hex;
    repeat match goal with
           | H : _ /\ _ |- _ => destruct H
           | H : exists _, _ |- _ => destruct H
           | H : _ \/ _ |- _ => destruct H
           end;
    try discriminate; try congruence;
    try match goal with
        | H : Fulfilled _ = Fulfilled ?x, H' : reward_due ?x = true |- _ =>
            injection H as <-; discriminate H'
        end;
    repeat match goal with
           | H : Rejected _ = Rejected _ |- _ => inversion H; clear H
           | H : Fulfilled _ = Fulfilled _ |- _ => inversion H; clear H
           end;
    subst; simpl;
    repeat (first [left; reflexivity | right]) ].

Section MoreHandleScan.

Variables (env : ScanEnv) (decodedText : string) (w : World).

(** X4.  [handleScan] assigns nothing: whatever [stop()] and the two
    requests do, also when it throws for want of a scanner, [AppState]
    and the cookie are after the run what they were before it. *)
Theorem handleScan_leaves_state :
  AppState (worldOf (handleScan env decodedText w)) = AppState w
  /\ cookieJar (worldOf (handleScan env decodedText w)) = cookieJar w.
Proof.
  destruct (html5QrcodeScanner (AppState w)) as [scanner|] eqn:Hs.
  - rewrite (handleScan_run env decodedText w scanner Hs). split; reflexivity.
  - rewrite (handleScan_without_scanner env decodedText w Hs).
    split; reflexivity.
Qed.

(** X5.  With a scanner, [navigateTo] is called in a run exactly when
    [stop()], the lookup and the submission all succeed, and then with
    the page "customers": a run that fails or stalls anywhere leaves the
    scan view in place. *)
Theorem navigates_iff_check_in_succeeds (scanner : Html5Qrcode) (page : string) :
  html5QrcodeScanner (AppState w) = Some scanner ->
  (In (EvNavigateTo page) (eventsOf (handleScan env decodedText w))
   <-> page = "customers"
       /\ stop_result env = Fulfilled tt
       /\ (exists responseReward, reward_result env = Fulfilled responseReward)
       /\ (exists responseAdd, add_result env = Fulfilled responseAdd)).
Proof.
  intros Hs. rewrite (handleScan_run env decodedText w scanner Hs).
  unfold scanTrace, eventsOf, errorTrace.
  destruct env as [st rw ad]; simpl.
  destruct st as [[]|err|]; [destruct rw as [[rd]|xhr|];
    [destruct ad as [a|xhr|]; [destruct rd| |] | | ] | | ]; in_trace.
Qed.

(** X6.  With a scanner, a run calls [startScan()] exactly when
    [stop()] succeeded and then the lookup failed, or the lookup
    succeeded and the submission failed.  After a failed [stop()], and
    while anything is pending, scanning is not started again. *)
Theorem restarts_iff_request_fails (scanner : Html5Qrcode) :
  html5QrcodeScanner (AppState w) = Some scanner ->
  (In EvStartScan (eventsOf (handleScan env decodedText w))
   <-> stop_result env = Fulfilled tt
       /\ ((exists xhr, reward_result env = Rejected xhr)
           \/ (exists responseReward, reward_result env = Fulfilled responseReward)
              /\ (exists xhr, add_result env = Rejected xhr))).
Proof.
  intros Hs. rewrite (handleScan_run env decodedText w scanner Hs).
  unfold scanTrace, eventsOf, errorTrace.
  destruct env as [st rw ad]; simpl.
  destruct st as [[]|err|]; [destruct rw as [[rd]|xhr|];
    [destruct ad as [a|xhr|]; [destruct rd| |] | | ] | | ]; in_trace.
Qed.

(** X7.  With a scanner, the reward notification is sent exactly when
    [stop()], the lookup and the submission all succeed and the lookup
    answered [reward_due]: a reward that is due is not announced when
    the check-in itself fails. *)
Theorem reward_message_iff_due_and_checked_in (scanner : Html5Qrcode) :
  html5QrcodeScanner (AppState w) = Some scanner ->
  (In EvSendRewardMessageToCustomersPage (eventsOf (handleScan env decodedText w))
   <-> stop_result env = Fulfilled tt
       /\ (exists responseReward,
             reward_result env = Fulfilled responseReward
             /\ reward_due responseReward = true)
       /\ (exists responseAdd, add_result env = Fulfilled responseAdd)).
Proof.
  intros Hs. rewrite (handleScan_run env decodedText w scanner Hs).
  unfold scanTrace, eventsOf, errorTrace.
  destruct env as [st rw ad]; simpl.
  destruct st as [[]|err|]; [destruct rw as [[rd]|xhr|];
    [destruct ad as [a|xhr|]; [destruct rd| |] | | ] | | ]; in_trace.
Qed.

(** X8.  The requests of a run, in the order in which they are sent:
    none without a scanner, and none unless [stop()] succeeds; then the
    GET of [accesses/reward_due_qr/] followed by the decoded text; and
    after it, once that lookup succeeded, the POST of [accesses/add]
    whose body carries that same text.  Never a second lookup, never a
    second submission, never another code. *)
Theorem requests_of_a_run :
  filter isAjaxSend (eventsOf (handleScan env decodedText w))
  = match html5QrcodeScanner (AppState w), stop_result env, reward_result env with
    | Some _, Fulfilled _, Fulfilled _ =>
        [EvAjaxSend "GET" ("accesses/reward_due_qr/" ++ decodedText) None None;
         EvAjaxSend "POST" "accesses/add" (Some "application/json")
           (Some {| qr_code := decodedText |})]
    | Some _, Fulfilled _, _ =>
        [EvAjaxSend "GET" ("accesses/reward_due_qr/" ++ decodedText) None None]
    | _, _, _ => []
    end.
Proof.
  destruct (html5QrcodeScanner (AppState w)) as [scanner|] eqn:Hs.
  - rewrite (handleScan_run env decodedText w scanner Hs).
    unfold scanTrace, eventsOf, errorTrace, rewardUrl.
    destruct env as [st rw ad]; simpl.
    destruct st as [[]|err|]; [destruct rw as [[rd]|xhr|];
      [destruct ad as [a|xhr|]; [destruct rd| |] | | ] | | ]; reflexivity.
  - rewrite (handleScan_without_scanner env decodedText w Hs). reflexivity.
Qed.

End MoreHandleScan.

Lemma navigates_iff_check_in_succeeds_witness :
  In (EvNavigateTo "customers") (eventsOf (handleScan envCheckIn "ABC123" worldReady)).
Proof.
  apply (navigates_iff_check_in_succeeds envCheckIn "ABC123" worldReady
           {| elementId := "qr-reader" |} "customers" eq_refl).
  repeat split; eexists; reflexivity.
Defined.

Lemma restarts_iff_request_fails_witness :
  In EvStartScan (eventsOf (handleScan envSubmitFails "ABC123" worldReady))
  /\ ~ In EvStartScan (eventsOf (handleScan envStopFails "ABC123" worldReady)).
Proof.
  split.
  - apply (restarts_iff_request_fails envSubmitFails "ABC123" worldReady
             {| elementId := "qr-reader" |} eq_refl).
    split; [reflexivity|]. right. split; eexists; reflexivity.
  - intros Hin.
    destruct (proj1 (restarts_iff_request_fails envStopFails "ABC123" worldReady
                       {| elementId := "qr-reader" |} eq_refl) Hin)
      as [Hstop _].
    discriminate Hstop.
Defined.

Lemma reward_message_iff_due_and_checked_in_witness :
  ~ In EvSendRewardMessageToCustomersPage
       (eventsOf (handleScan envSubmitFails "ABC123" worldReady)).
Proof.
  intros Hin.
  destruct (proj1 (reward_message_iff_due_and_checked_in envSubmitFails "ABC123"
                     worldReady {| elementId := "qr-reader" |} eq_refl) Hin)
    as (_ & _ & [a Ha]).
  discriminate Ha.
Defined.

(** X9.  The text shown for a failed request is never empty: when the
    detail field and the response body are both missing or empty it is
    "Errore generico". *)
Theorem error_message_never_empty (xhr : Xhr) :
  errorMessage xhr <> ""
  /\ (errorMessage xhr = "Errore generico"
      \/ errorMessage xhr = responseText xhr
      \/ exists body, responseJSON xhr = Some body
                      /\ details body = Some (errorMessage xhr)).
Proof.
  unfold errorMessage.
  destruct xhr as [json body]. destruct json as [[d]|];
    [destruct d as [[|c d]|]|]; destruct body as [|c' t]; simpl; split;
    solve [ discriminate | auto | right; right; eexists; split; reflexivity ].
Qed.

(* ================================================================== *)
(** * More about [initializeCamera] *)

Section MoreInitializeCamera.

Lemma forEach_addOption_run (devices : list Device) :
  forall (index : nat) (w : World),
    forEach devices index addOption w
    = (Normal tt,
       set_cameraDropdown
         {| options := (options (cameraDropdown w) ++ optionsFor devices index)%list;
            selectedValue := selectedValue (cameraDropdown w);
            changeListeners := changeListeners (cameraDropdown w) |} w,
       []).
Proof.
  induction devices as [|device rest IH]; intros index w.
  - destruct w as [app doc cid [opts sel n] now]. simpl.
    unfold ret, set_cameraDropdown. simpl. rewrite app_nil_r. reflexivity.
  - change (forEach (device :: rest) index addOption)
      with (addOption device index ;; forEach rest (S index) addOption).
    rewrite (bind_run_normal _ _ w tt _ _ _ _ _ eq_refl (IH (S index) _)).
    destruct w as [app doc cid [opts sel n] now].
    unfold set_cameraDropdown, appendChild. simpl.
    rewrite <- app_assoc. simpl.
    unfold optionFor, JS.orElse, JS.or, JS.truthy.
    destruct (label device); reflexivity.
Qed.

Lemma onCameras_run_explicit (w : World) (device0 : Device) (rest : list Device) :
  onCameras (Some (device0 :: rest)) w
  = match cameraId w with
    | None => (Throw "ReferenceError: cameraId is not defined",
               afterCameras w device0 rest, [])
    | Some _ => (Normal tt, afterCameras w device0 rest,
                 [EvNewHtml5Qrcode "qr-reader"; EvStartScan])
    end.
Proof.
  pose proof (forEach_addOption_run (device0 :: rest) 0 w) as Hdd.
  destruct w as [st jar cid dropdown now].
  unfold afterCameras, chosenValue, resolved, filledDropdown.
  set (doc := Jar.read now jar).
  cbv -[Jar.read Jar.assign forEach addOption cookieString getCookieIn
        set_value addEventListener JS.truthy some andb JS.toString optionsFor
        List.app doc] in Hdd |- *.
  rewrite Hdd. fold doc.
  destruct (JS.truthy (getCookieIn doc "selectedCamera")
            && some (device0 :: rest) (getCookieIn doc "selectedCamera"));
    destruct cid as [c|];
    cbv -[Jar.read Jar.assign cookieString getCookieIn set_value
          addEventListener JS.toString optionsFor List.app doc];
    reflexivity.
Qed.

(** Every way a call can go while [cameraInitialized] is not set. *)
Lemma initializeCamera_cases (env : InitEnv) (w : World) :
  cameraInitialized (AppState w) = false ->
  initializeCamera env w
  = match script_result env with
    | Pending => (Normal tt, w, [EvAppendScript scriptUrl])
    | Rejected _ =>
        (Normal tt, w,
         [EvAppendScript scriptUrl; EvSettled (ScriptLoad scriptUrl) false;
          EvAlert "Failed to load QR scanner library. Please try again later."])
    | Fulfilled _ =>
        match cameras_result env with
        | Pending =>
            (Normal tt, w,
             [EvAppendScript scriptUrl; EvSettled (ScriptLoad scriptUrl) true;
              EvStart GetCameras])
        | Rejected err =>
            (Normal tt, w,
             [EvAppendScript scriptUrl; EvSettled (ScriptLoad scriptUrl) true;
              EvStart GetCameras; EvSettled GetCameras false;
              EvAlert ("Camera initialization error: " ++ err)])
        | Fulfilled (Some (device0 :: rest)) =>
            (Normal tt, afterCameras w device0 rest,
             [EvAppendScript scriptUrl; EvSettled (ScriptLoad scriptUrl) true;
              EvStart GetCameras; EvSettled GetCameras true]
             ++ match cameraId w with
                | None =>
                    [EvAlert "Camera initialization error: ReferenceError: cameraId is not defined"]
                | Some _ => [EvNewHtml5Qrcode "qr-reader"; EvStartScan]
                end)%list
        | Fulfilled _ =>
            (Normal tt, w,
             [EvAppendScript scriptUrl; EvSettled (ScriptLoad scriptUrl) true;
              EvStart GetCameras; EvSettled GetCameras true])
        end
    end.
Proof.
  intros Hi.
  unfold initializeCamera, onScriptLoad, thenCatch.
  unfold bind at 1, gets at 1. rewrite Hi.
  destruct (script_result env) as [[]|[]|]; try reflexivity.
  destruct (cameras_result env) as [[[|device0 rest]|]|err|]; try reflexivity.
  pose proof (onCameras_run_explicit w device0 rest) as Hrun.
  destruct (cameraId w) as [c|];
    cbv -[Jar.read Jar.assign onCameras afterCameras]; rewrite Hrun; reflexivity.
Qed.

(** X10.  While [cameraInitialized] is not set, a call shows an alert
    in exactly three situations: the script fails to load, the
    enumeration is rejected, or the enumeration yields a non-empty list
    and the identifier [cameraId] is unbound; each with its own text.
    A pending operation, and an empty or missing list, show none. *)
Theorem initializeCamera_alerts_iff (env : InitEnv) (w : World) (m : string) :
  cameraInitialized (AppState w) = false ->
  (In (EvAlert m) (eventsOf (initializeCamera env w))
   <-> (script_result env = Rejected tt
        /\ m = "Failed to load QR scanner library. Please try again later.")
       \/ (script_result env = Fulfilled tt
           /\ exists err, cameras_result env = Rejected err
                          /\ m = "Camera initialization error: " ++ err)
       \/ (script_result env = Fulfilled tt
           /\ (exists device0 rest,
                  cameras_result env = Fulfilled (Some (device0 :: rest)))
           /\ cameraId w = None
           /\ m = "Camera initialization error: ReferenceError: cameraId is not defined")).
Proof.
  intros Hi. rewrite (initializeCamera_cases env w Hi). unfold eventsOf.
  destruct (script_result env) as [[]|[]|];
    [destruct (cameras_result env) as [[[|device0 rest]|]|err|];
       [ | destruct (cameraId w) as [c|] | | | ] | | ];
    in_trace.
Qed.

Lemma options_afterCameras (w : World) (device0 : Device) (rest : list Device) :
  options (cameraDropdown (afterCameras w device0 rest))
  = (options (cameraDropdown w) ++ optionsFor (device0 :: rest) 0)%list.
Proof. unfold afterCameras. destruct (cameraId w); reflexivity. Qed.

Lemma length_optionsFor (devices : list Device) :
  forall index, length (optionsFor devices index) = length devices.
Proof.
  induction devices as [|d ds IH]; intros index; simpl;
    [reflexivity | now rewrite IH].
Qed.

Lemma nth_error_optionsFor (devices : list Device) :
  forall index i device,
    nth_error devices i = Some device ->
    nth_error (optionsFor devices index) i = Some (optionFor device (index + i)).
Proof.
  induction devices as [|d ds IH]; intros index i device H.
  - destruct i; discriminate H.
  - destruct i as [|i]; simpl in *.
    + injection H as <-. rewrite Nat.add_0_r. reflexivity.
    + rewrite (IH (S index) i device H). f_equal. f_equal. lia.
Qed.

(** X11.  A call that enumerates a non-empty list appends one option
    per device to the dropdown, in the order of the list and behind the
    options already there: its value is the device id and its text the
    device label, or "Camera" with the position of the device counted
    from 1 when the label is empty. *)
Theorem initializeCamera_fills_dropdown (env : InitEnv) (w : World)
    (device0 : Device) (rest : list Device) :
  cameraInitialized (AppState w) = false ->
  script_result env = Fulfilled tt ->
  cameras_result env = Fulfilled (Some (device0 :: rest)) ->
  let before := options (cameraDropdown w) in
  let after := options (cameraDropdown (worldOf (initializeCamera env w))) in
  length after = length before + length (device0 :: rest)
  /\ firstn (length before) after = before
  /\ (forall i device,
        nth_error (device0 :: rest) i = Some device ->
        nth_error after (length before + i)
        = Some {| value := id device;
                  textContent :=
                    if JS.isEmpty (label device)
                    then "Camera " ++ JS.decimal (Z.of_nat i + 1)
                    else label device |}).
Proof.
  intros Hi Hscript Hcams before after. subst before after.
  rewrite (initializeCamera_cases env w Hi), Hscript, Hcams.
  unfold worldOf. simpl fst. simpl snd. rewrite options_afterCameras.
  repeat split.
  - rewrite length_app, length_optionsFor. reflexivity.
  - rewrite firstn_app, Nat.sub_diag, firstn_all. simpl. apply app_nil_r.
  - intros i device H.
    rewrite nth_error_app2 by lia.
    replace (length (options (cameraDropdown w)) + i
             - length (options (cameraDropdown w))) with i by lia.
    apply (nth_error_optionsFor (device0 :: rest) 0 i device H).
Qed.

Lemma existsb_optionsFor (devices : list Device) (device : Device) :
  forall index,
    In device devices ->
    existsb (fun o => String.eqb (value o) (id device)) (optionsFor devices index)
    = true.
Proof.
  induction devices as [|d ds IH]; intros index Hin; [destruct Hin|].
  destruct Hin as [<- | Hin]; simpl.
  - rewrite String.eqb_refl. reflexivity.
  - rewrite (IH (S index) Hin). apply orb_true_r.
Qed.

(** The value chosen by lines 44-51 is the id of an enumerated device,
    and it is the device that becomes the active one. *)
Lemma chosenValue_enumerated (saved : option string) (device0 : Device)
    (rest : list Device) :
  resolved saved device0 rest = Some (chosenValue saved device0 rest)
  /\ exists device,
       In device (device0 :: rest)
       /\ id device = chosenValue saved device0 rest.
Proof.
  unfold resolved, chosenValue.
  destruct (JS.truthy saved && some (device0 :: rest) saved) eqn:E.
  - apply andb_true_iff in E as [Ht Hs].
    destruct saved as [s|]; [|discriminate Ht].
    split; [reflexivity|].
    unfold some in Hs. apply existsb_exists in Hs as [device [Hin Heq]].
    exists device. split; [exact Hin | apply String.eqb_eq, Heq].
  - split; [reflexivity|]. exists device0. split; [left|]; reflexivity.
Qed.

(** X12.  After a call that enumerates a non-empty list, the active
    device id is the id of one of the enumerated devices and the
    dropdown shows that same id as its value, whatever was persisted
    and whether or not [cameraId] is bound. *)
Theorem active_device_is_enumerated_and_shown (env : InitEnv) (w : World)
    (device0 : Device) (rest : list Device) :
  cameraInitialized (AppState w) = false ->
  script_result env = Fulfilled tt ->
  cameras_result env = Fulfilled (Some (device0 :: rest)) ->
  exists device,
    In device (device0 :: rest)
    /\ deviceId (AppState (worldOf (initializeCamera env w))) = Some (id device)
    /\ selectedValue (cameraDropdown (worldOf (initializeCamera env w)))
       = id device.
Proof.
  intros Hi Hscript Hcams.
  rewrite (initializeCamera_cases env w Hi), Hscript, Hcams.
  unfold worldOf. simpl fst. simpl snd.
  destruct (chosenValue_enumerated
              (getCookieIn (document_cookie w) "selectedCamera") device0 rest)
    as [Hres [device [Hin Hid]]].
  exists device. split; [exact Hin|].
  assert (Hshown :
    selectedValue
      (set_value (chosenValue (getCookieIn (document_cookie w) "selectedCamera")
                    device0 rest)
         (filledDropdown (device0 :: rest) (cameraDropdown w)))
    = id device).
  { unfold set_value, filledDropdown. cbn [selectedValue options].
    rewrite <- Hid, existsb_app, (existsb_optionsFor _ device 0 Hin), orb_true_r.
    reflexivity. }
  rewrite <- Hid in Hres.
  unfold afterCameras. split.
  - destruct (cameraId w); exact Hres.
  - destruct (cameraId w); exact Hshown.
Qed.

(** X20.  A first call that enumerates a non-empty list while
    [cameraId] is bound constructs the scanner on "qr-reader" once,
    adds one "change" listener to the dropdown, sets [cameraInitialized]
    and calls [startScan()] once, as the last thing it does. *)
Theorem initializeCamera_success (env : InitEnv) (w : World)
    (device0 : Device) (rest : list Device) (c : string) :
  cameraInitialized (AppState w) = false ->
  script_result env = Fulfilled tt ->
  cameras_result env = Fulfilled (Some (device0 :: rest)) ->
  cameraId w = Some c ->
  let r := initializeCamera env w in
  eventsOf r
  = [EvAppendScript "https://unpkg.com/html5-qrcode";
     EvSettled (ScriptLoad "https://unpkg.com/html5-qrcode") true;
     EvStart GetCameras; EvSettled GetCameras true;
     EvNewHtml5Qrcode "qr-reader"; EvStartScan]
  /\ cameraInitialized (AppState (worldOf r)) = true
  /\ html5QrcodeScanner (AppState (worldOf r))
     = Some {| elementId := "qr-reader" |}
  /\ changeListeners (cameraDropdown (worldOf r))
     = S (changeListeners (cameraDropdown w)).
Proof.
  intros Hi Hscript Hcams Hc r. subst r.
  rewrite (initializeCamera_cases env w Hi), Hscript, Hcams.
  unfold eventsOf, worldOf, afterCameras. rewrite Hc. simpl.
  repeat split.
Qed.

End MoreInitializeCamera.

Lemma initializeCamera_success_witness :
  cameraInitialized
    (AppState (worldOf (initializeCamera (envCameras [cam1; cam2]) worldStale)))
  = true.
Proof.
  apply (initializeCamera_success (envCameras [cam1; cam2]) worldStale
           cam1 [cam2] "stale" eq_refl eq_refl eq_refl eq_refl).
Defined.

Lemma initializeCamera_alerts_iff_witness :
  In (EvAlert "Camera initialization error: NotAllowedError")
     (eventsOf (initializeCamera
                  {| script_result := Fulfilled tt;
                     cameras_result := Rejected "NotAllowedError" |} world0)).
Proof.
  apply (initializeCamera_alerts_iff
           {| script_result := Fulfilled tt;
              cameras_result := Rejected "NotAllowedError" |}
           world0 "Camera initialization error: NotAllowedError" eq_refl).
  right. left. split; [reflexivity|].
  exists "NotAllowedError". split; reflexivity.
Defined.

Lemma initializeCamera_fills_dropdown_witness :
  length (options (cameraDropdown
            (worldOf (initializeCamera (envCameras [cam1; cam2]) world0))))
  = 0 + 2.
Proof.
  apply (initializeCamera_fills_dropdown (envCameras [cam1; cam2]) world0
           cam1 [cam2] eq_refl eq_refl eq_refl).
Defined.

Lemma active_device_is_enumerated_and_shown_witness :
  exists device,
    In device [cam1; cam2]
    /\ deviceId (AppState
         (worldOf (initializeCamera (envCameras [cam1; cam2]) world0)))
       = Some (id device)
    /\ selectedValue (cameraDropdown
         (worldOf (initializeCamera (envCameras [cam1; cam2]) world0)))
       = id device.
Proof.
  apply (active_device_is_enumerated_and_shown (envCameras [cam1; cam2]) world0
           cam1 [cam2] eq_refl eq_refl eq_refl).
Defined.

(* ================================================================== *)
(** * Sequences of operations on the scan workflow *)

Section ScanOps.

Lemma task_handleScan_run (env : ScanEnv) (decodedText : string) (w : World) :
  task (handleScan env decodedText) w
  = match html5QrcodeScanner (AppState w) with
    | Some _ => (Normal tt, w, scanTrace env decodedText)
    | None =>
        (Normal tt, w,
         [EvConsoleLog "Scanned QR Code:" decodedText;
          EvUncaught "TypeError: AppState.html5QrcodeScanner is null"])
    end.
Proof.
  unfold task, tryCatch.
  destruct (html5QrcodeScanner (AppState w)) as [scanner|] eqn:Hs.
  - rewrite (handleScan_run env decodedText w scanner Hs). reflexivity.
  - rewrite (handleScan_without_scanner env decodedText w Hs). reflexivity.
Qed.

Lemma task_onDropdownChange_run (targetValue : string) (w : World) :
  task (onDropdownChange targetValue) w
  = match cameraId w with
    | Some c =>
        (Normal tt,
         set_document_cookie (cookieString (Date_now w) "selectedCamera" c 30)
           (set_AppState (set_deviceId (Some targetValue) (AppState w)) w),
         [])
    | None =>
        (Normal tt,
         set_AppState (set_deviceId (Some targetValue) (AppState w)) w,
         [EvUncaught "ReferenceError: cameraId is not defined"])
    end.
Proof.
  destruct w as [st doc cid dropdown now].
  destruct cid as [c|]; cbv -[Jar.read Jar.assign cookieString]; reflexivity.
Qed.

Lemma neverReady_step (op : ScanOp) (w : World) :
  neverReady w ->
  exists w1 e1,
    runScanOp op w = (Normal tt, w1, e1)
    /\ neverReady w1
    /\ cookieJar w1 = cookieJar w
    /\ filter isStartScan e1 = []
    /\ filter isNewHtml5Qrcode e1 = [].
Proof.
  intros (Hc & Hi & Hs). unfold neverReady.
  destruct op as [env | env decodedText | targetValue | d]; simpl runScanOp.
  - rewrite (initializeCamera_cases env w Hi).
    destruct (script_result env) as [[]|[]|];
      [destruct (cameras_result env) as [[[|device0 rest]|]|err|] | | ];
      try (do 2 eexists; split; [reflexivity|]; repeat split; assumption).
    do 2 eexists. split; [reflexivity|].
    unfold afterCameras. rewrite Hc. simpl. repeat split; assumption.
  - rewrite task_handleScan_run, Hs.
    do 2 eexists. split; [reflexivity|]. repeat split; assumption.
  - rewrite task_onDropdownChange_run, Hc.
    do 2 eexists. split; [reflexivity|]. repeat split; assumption.
  - do 2 eexists. split; [reflexivity|]. repeat split; assumption.
Qed.

(** X13.  With [cameraId] unbound, as the two scripts leave it, and no
    scanner yet, no sequence of calls of [initializeCamera], decodes,
    dropdown changes and renderings of the view ever constructs the
    scanner, sets [cameraInitialized], calls [startScan()] or writes the
    cookie, however the environment answers. *)
Theorem scanning_never_starts_while_cameraId_unbound (ops : list ScanOp) :
  forall w,
    cameraId w = None ->
    cameraInitialized (AppState w) = false ->
    html5QrcodeScanner (AppState w) = None ->
    let r := runScanOps ops w in
    completionOf r = Normal tt
    /\ cameraInitialized (AppState (worldOf r)) = false
    /\ html5QrcodeScanner (AppState (worldOf r)) = None
    /\ cookieJar (worldOf r) = cookieJar w
    /\ filter isStartScan (eventsOf r) = []
    /\ filter isNewHtml5Qrcode (eventsOf r) = [].
Proof.
  induction ops as [|op ops IH]; intros w Hc Hi Hs r; subst r.
  - repeat split; assumption.
  - destruct (neverReady_step op w (conj Hc (conj Hi Hs)))
      as (w1 & e1 & Hrun & (Hc1 & Hi1 & Hs1) & Hdoc & Hstart & Hnew).
    specialize (IH w1 Hc1 Hi1 Hs1). cbv zeta in IH.
    simpl runScanOps. unfold bind. rewrite Hrun.
    destruct (runScanOps ops w1) as [[c2 w2] e2].
    unfold completionOf, worldOf, eventsOf in *. simpl in *.
    destruct IH as (Hc2 & Hi2 & Hs2 & Hdoc2 & Hstart2 & Hnew2).
    rewrite !filter_app, Hstart, Hnew, Hstart2, Hnew2.
    repeat split; try assumption. congruence.
Qed.

(** The listener itself: it assigns the device id first and throws
    where it evaluates [cameraId]. *)
Lemma onDropdownChange_run (targetValue : string) (w : World) :
  onDropdownChange targetValue w
  = match cameraId w with
    | Some c =>
        (Normal tt,
         set_document_cookie (cookieString (Date_now w) "selectedCamera" c 30)
           (set_AppState (set_deviceId (Some targetValue) (AppState w)) w),
         [])
    | None =>
        (Throw "ReferenceError: cameraId is not defined",
         set_AppState (set_deviceId (Some targetValue) (AppState w)) w,
         [])
    end.
Proof.
  destruct w as [st jar cid dropdown now].
  destruct cid as [c|]; cbv -[Jar.read Jar.assign cookieString]; reflexivity.
Qed.

Lemma sessionInvariant_initializeCamera (env : InitEnv) (w : World) :
  sessionInvariant w -> sessionInvariant (worldOf (initializeCamera env w)).
Proof.
  intros Hinv.
  destruct (cameraInitialized (AppState w)) eqn:Hi.
  { rewrite (initializeCamera_initialized_run env w Hi). exact Hinv. }
  rewrite (initializeCamera_cases env w Hi).
  destruct (script_result env) as [[]|[]|];
    [destruct (cameras_result env) as [[[|device0 rest]|]|err|] | | ];
    try exact Hinv.
  destruct Hinv as [Hscan Hdev].
  destruct (chosenValue_enumerated
              (getCookieIn (document_cookie w) "selectedCamera") device0 rest)
    as [Hres _].
  unfold sessionInvariant, scannerInvariant, afterCameras, worldOf in *.
  destruct (cameraId w); simpl.
  - rewrite Hres. repeat split; intros; try reflexivity; discriminate.
  - split; [exact Hscan|]. intros Habs. congruence.
Qed.

Lemma sessionInvariant_handleScan
    (env : ScanEnv) (decodedText : string) (w : World) :
  sessionInvariant w ->
  sessionInvariant (worldOf (handleScan env decodedText w)).
Proof.
  intros Hinv.
  destruct (html5QrcodeScanner (AppState w)) as [scanner|] eqn:Hs.
  - rewrite (handleScan_run env decodedText w scanner Hs). exact Hinv.
  - rewrite (handleScan_without_scanner env decodedText w Hs). exact Hinv.
Qed.

Lemma sessionInvariant_onDropdownChange (targetValue : string) (w : World) :
  sessionInvariant w ->
  sessionInvariant (worldOf (onDropdownChange targetValue w)).
Proof.
  intros [Hscan Hdev]. rewrite onDropdownChange_run.
  destruct (cameraId w);
    (split; [exact Hscan | intros _; discriminate]).
Qed.

(** A task leaves the state where its body left it, thrown or not. *)
Lemma worldOf_task (m : M unit) (w : World) :
  worldOf (task m w) = worldOf (m w).
Proof.
  unfold task, tryCatch, worldOf.
  destruct (m w) as [[[[]|x] w1] e1]; reflexivity.
Qed.

Lemma sessionInvariant_runScanOp (op : ScanOp) (w : World) :
  sessionInvariant w -> sessionInvariant (worldOf (runScanOp op w)).
Proof.
  intros Hinv.
  destruct op as [env | env decodedText | targetValue | d]; simpl runScanOp.
  - apply sessionInvariant_initializeCamera, Hinv.
  - rewrite worldOf_task. apply sessionInvariant_handleScan, Hinv.
  - rewrite worldOf_task. apply sessionInvariant_onDropdownChange, Hinv.
  - exact Hinv.
Qed.

Lemma sessionInvariant_runScanOps (ops : list ScanOp) :
  forall w, sessionInvariant w -> sessionInvariant (worldOf (runScanOps ops w)).
Proof.
  induction ops as [|op ops IH]; intros w Hinv; [exact Hinv|].
  pose proof (sessionInvariant_runScanOp op w Hinv) as H1.
  simpl runScanOps. unfold bind.
  destruct (runScanOp op w) as [[[[]|x] w1] e1]; [|exact H1].
  specialize (IH w1 H1).
  destruct (runScanOps ops w1) as [[c2 w2] e2]. exact IH.
Qed.

(** X14.  The flag, the scanner and the active device go together.
    From a state in which [cameraInitialized] is set exactly when a
    scanner exists, and only with an active device id, each of
    [initializeCamera], [handleScan] and the dropdown's listener leaves
    such a state again, also where it ends in an exception ([handleScan]
    without a scanner, the listener with [cameraId] unbound); and so
    does every sequence of them and of renderings of the view. *)
Theorem session_invariant_is_kept (ops : list ScanOp) (w : World) :
  sessionInvariant w ->
  (forall env, sessionInvariant (worldOf (initializeCamera env w)))
  /\ (forall env decodedText,
        sessionInvariant (worldOf (handleScan env decodedText w)))
  /\ (forall targetValue,
        sessionInvariant (worldOf (onDropdownChange targetValue w)))
  /\ sessionInvariant (worldOf (runScanOps ops w)).
Proof.
  intros Hinv. split; [|split; [|split]].
  - intros env. apply sessionInvariant_initializeCamera, Hinv.
  - intros env decodedText. apply sessionInvariant_handleScan, Hinv.
  - intros targetValue. apply sessionInvariant_onDropdownChange, Hinv.
  - apply sessionInvariant_runScanOps, Hinv.
Qed.

End ScanOps.

Lemma scanning_never_starts_while_cameraId_unbound_witness :
  filter isStartScan
    (eventsOf
       (runScanOps
          [OpInitializeCamera (envCameras [cam1; cam2]);
           OpDropdownChange "cam2";
           OpHandleScan envCheckIn "ABC123";
           OpRender emptyDropdown;
           OpInitializeCamera (envCameras [cam1; cam2])] world0))
  = [].
Proof.
  apply (scanning_never_starts_while_cameraId_unbound
           [OpInitializeCamera (envCameras [cam1; cam2]);
            OpDropdownChange "cam2";
            OpHandleScan envCheckIn "ABC123";
            OpRender emptyDropdown;
            OpInitializeCamera (envCameras [cam1; cam2])]
           world0 eq_refl eq_refl eq_refl).
Defined.

Lemma session_invariant_is_kept_witness :
  sessionInvariant worldStale
  /\ completionOf (onDropdownChange "cam2" world0)
     = Throw "ReferenceError: cameraId is not defined"
  /\ sessionInvariant (worldOf (onDropdownChange "cam2" worldStale))
  /\ sessionInvariant
       (worldOf
          (runScanOps
             [OpInitializeCamera (envCameras [cam1; cam2]);
              OpHandleScan envLookupFails "XYZ";
              OpDropdownChange "cam2"] worldStale)).
Proof.
  assert (H0 : sessionInvariant worldStale).
  { split; [split|]; simpl; intros H;
      [discriminate H | contradiction | discriminate H]. }
  destruct (session_invariant_is_kept
              [OpInitializeCamera (envCameras [cam1; cam2]);
               OpHandleScan envLookupFails "XYZ";
               OpDropdownChange "cam2"] worldStale H0)
    as (_ & _ & Hchange & Hops).
  split; [exact H0 | split; [reflexivity | split; [apply Hchange | exact Hops]]].
Defined.

(* ================================================================== *)
(** * The router *)

Section Router.

Lemma callInitializeCamera_page (env : InitEnv) (b : Browser) :
  location_hash (fst (callInitializeCamera env b)) = location_hash b
  /\ main_content (fst (callInitializeCamera env b)) = main_content b.
Proof.
  unfold callInitializeCamera.
  destruct (initializeCamera env (scanWorld b)) as [[[u|x] w] events];
    split; reflexivity.
Qed.

Lemma pageLogic_page (env : InitEnv) (page : string) (b : Browser) :
  location_hash (fst (pageLogic env page b)) = location_hash b
  /\ main_content (fst (pageLogic env page b)) = main_content b.
Proof.
  unfold pageLogic.
  destruct (String.eqb page "customers"); [split; reflexivity|].
  destruct (String.eqb page "programs"); [split; reflexivity|].
  destruct (String.eqb page "scan").
  - pose proof (callInitializeCamera_page env b) as H.
    destruct (callInitializeCamera env b) as [b2 events2]. exact H.
  - destruct (String.eqb page "new_customer"); [split; reflexivity|].
    destruct (String.eqb page "new_program"); split; reflexivity.
Qed.

Lemma navigateTo_hash (env : NavEnv) (page : string) (b : Browser) :
  location_hash (fst (navigateTo env page b)) = "#" ++ page.
Proof.
  unfold navigateTo.
  destruct (fetch_result env) as [[isOk body]|err|]; simpl; try reflexivity.
  destruct isOk; simpl; try reflexivity.
  destruct body as [html|err|]; simpl; try reflexivity.
  unfold onHtml.
  set (b1 := render _ _).
  assert (Hb1 : location_hash b1 = "#" ++ page)
    by (unfold b1, render; destruct (markup_dropdown env); reflexivity).
  pose proof (pageLogic_page (camera_env env) page b1) as [Hhash _].
  destruct (stopScanning_result env) as [[]|err|];
    [ destruct (pageLogic (camera_env env) page b1) as [b2 events]
    | destruct (pageLogic (camera_env env) page b1) as [b2 events]
    | ]; simpl in *; congruence.
Qed.

(** X15.  [navigateTo(page)] requests [/page] first and leaves
    [window.location.hash] at [#page] in every case: also when the page
    cannot be fetched and the 404 text is shown, and while the fetch is
    still pending. *)
Theorem navigateTo_always_sets_the_hash (env : NavEnv) (page : string)
    (b : Browser) :
  location_hash (fst (navigateTo env page b)) = "#" ++ page
  /\ exists events,
       snd (navigateTo env page b) = AppFetch ("/" ++ page) :: events.
Proof.
  split; [apply navigateTo_hash|].
  unfold navigateTo.
  match goal with
  | |- context [match ?x with pair _ _ => _ end] => destruct x as [b1 events]
  end.
  eexists. reflexivity.
Qed.

(** X16.  When the fetch is rejected, when the response is not [ok],
    and when reading its text is rejected, [navigateTo] logs the error
    and shows the 404 text, and that is all: [stopScanning()] is not
    called, no page logic runs, and the state of the scan workflow is
    untouched. *)
Theorem navigateTo_failure_shows_404 (env : NavEnv) (page err : string)
    (b : Browser) :
  fetch_result env = Rejected err
  \/ (exists body,
        fetch_result env = Fulfilled {| ok := false; text := body |}
        /\ err = "Error: Page not found")
  \/ fetch_result env = Fulfilled {| ok := true; text := Rejected err |} ->
  navigateTo env page b
  = ({| scanWorld := scanWorld b;
        location_hash := "#" ++ page;
        main_content := "<h1>404 - Page not found</h1>" |},
     [AppFetch ("/" ++ page); AppConsoleError "Navigation error:" err]).
Proof.
  unfold navigateTo.
  intros [-> | [[body [-> ->]] | ->]]; reflexivity.
Qed.

Lemma filter_isAppScan_map (events : list Event) :
  filter isAppScan (map AppScan events) = map AppScan events.
Proof. induction events as [|e es IH]; simpl; [reflexivity | now rewrite IH]. Qed.

Lemma not_in_map_AppScan (f : External) (events : list Event) :
  ~ In (AppCall f) (map AppScan events).
Proof.
  intros H. apply in_map_iff in H as [e [He _]]. discriminate He.
Qed.

(** The page logic of every view but the scan view. *)
Lemma pageLogic_off_scan (env : InitEnv) (page : string) (b : Browser) :
  page <> "scan" ->
  fst (pageLogic env page b) = b
  /\ filter isAppScan (snd (pageLogic env page b)) = [].
Proof.
  intros Hpage. apply String.eqb_neq in Hpage.
  unfold pageLogic. rewrite Hpage.
  destruct (String.eqb page "customers"); [split; reflexivity|].
  destruct (String.eqb page "programs"); [split; reflexivity|].
  destruct (String.eqb page "new_customer"); [split; reflexivity|].
  destruct (String.eqb page "new_program"); split; reflexivity.
Qed.

(** X17.  Only the scan view touches the camera: for every other page,
    whatever the environment does, [navigateTo] runs nothing of
    [initializeCamera] and leaves [AppState] and the cookie as they
    were. *)
Theorem navigateTo_off_scan_leaves_camera (env : NavEnv) (page : string)
    (b : Browser) :
  page <> "scan" ->
  AppState (scanWorld (fst (navigateTo env page b))) = AppState (scanWorld b)
  /\ cookieJar (scanWorld (fst (navigateTo env page b)))
     = cookieJar (scanWorld b)
  /\ filter isAppScan (snd (navigateTo env page b)) = [].
Proof.
  intros Hpage. unfold navigateTo.
  destruct (fetch_result env) as [[isOk body]|err|]; simpl;
    [| repeat split .. ].
  destruct isOk; simpl; [| repeat split].
  destruct body as [html|err|]; simpl; [| repeat split ..].
  unfold onHtml.
  set (b1 := render _ _).
  assert (Hb1 : AppState (scanWorld b1) = AppState (scanWorld b)
                /\ cookieJar (scanWorld b1) = cookieJar (scanWorld b))
    by (unfold b1, render; destruct (markup_dropdown env); split; reflexivity).
  destruct Hb1 as [Hst Hdoc].
  destruct (pageLogic_off_scan (camera_env env) page b1 Hpage) as [Hb Hev].
  destruct (stopScanning_result env) as [[]|err|];
    [ destruct (pageLogic (camera_env env) page b1) as [b2 events]
    | destruct (pageLogic (camera_env env) page b1) as [b2 events]
    | ]; simpl in *; subst;
    rewrite ?filter_app, ?Hev; repeat split; assumption.
Qed.

(** X18.  Entering the scan view again once [cameraInitialized] is set:
    the markup is replaced, [stopScanning()] is called, the timers of
    the other views are stopped, and [initializeCamera] only calls
    [startScan()].  No script is loaded, and a dropdown that the new
    markup created is left as created: scan.js adds neither the cameras
    nor its "change" listener to it. *)
Theorem navigateTo_scan_again (env : NavEnv) (html : string) (b : Browser) :
  cameraInitialized (AppState (scanWorld b)) = true ->
  fetch_result env = Fulfilled {| ok := true; text := Fulfilled html |} ->
  stopScanning_result env = Fulfilled tt ->
  snd (navigateTo env "scan" b)
  = [AppFetch "/scan"; AppCall stopScanning; AppCall stopMessagesTimer;
     AppCall stopRewardBannerTimer; AppCall stopMessagesTimerProgram;
     AppScan EvStartScan]
  /\ main_content (fst (navigateTo env "scan" b)) = html
  /\ AppState (scanWorld (fst (navigateTo env "scan" b))) = AppState (scanWorld b)
  /\ cameraDropdown (scanWorld (fst (navigateTo env "scan" b)))
     = match markup_dropdown env with
       | Some d => freshElement d
       | None => cameraDropdown (scanWorld b)
       end.
Proof.
  intros Hi Hfetch Hstop.
  unfold navigateTo. rewrite Hfetch. simpl.
  unfold onHtml. rewrite Hstop.
  set (b1 := render _ _).
  assert (Hi1 : cameraInitialized (AppState (scanWorld b1)) = true)
    by (unfold b1, render; destruct (markup_dropdown env); exact Hi).
  unfold pageLogic. simpl. unfold callInitializeCamera.
  rewrite (initializeCamera_initialized_run (camera_env env) (scanWorld b1) Hi1).
  simpl. unfold b1, render.
  destruct (markup_dropdown env); repeat split.
Qed.

Lemma pageLogic_timers (env : InitEnv) (page : string) (b : Browser) :
  let events := snd (pageLogic env page b) in
  (In (AppCall startMessagesTimer) events <-> page = "customers")
  /\ (In (AppCall stopMessagesTimer) events <-> page <> "customers")
  /\ (In (AppCall startMessagesTimerProgram) events <-> page = "programs")
  /\ (In (AppCall stopMessagesTimerProgram) events
      <-> page <> "customers" /\ page <> "programs").
Proof.
  unfold pageLogic.
  destruct (String.eqb page "customers") eqn:E1.
  { apply String.eqb_eq in E1. subst page. simpl.
    split; [|split; [|split]]; (split; intros H);
      try reflexivity; try tauto; try (intuition discriminate). }
  apply String.eqb_neq in E1.
  destruct (String.eqb page "programs") eqn:E2.
  { apply String.eqb_eq in E2. subst page. simpl.
    split; [|split; [|split]]; (split; intros H);
      try reflexivity; try tauto; try (intuition discriminate). }
  apply String.eqb_neq in E2.
  assert (Hscan : forall f,
            In (AppCall f) (snd (callInitializeCamera env b)) -> False).
  { intros f. unfold callInitializeCamera.
    destruct (initializeCamera env (scanWorld b)) as [[[u|x] w] events];
      simpl; intros H.
    - exact (not_in_map_AppScan f events H).
    - apply in_app_iff in H as [H | [H | []]];
        [exact (not_in_map_AppScan f events H) | discriminate H]. }
  assert (Hrest : forall f,
            In (AppCall f)
               (snd (if String.eqb page "scan" then callInitializeCamera env b
                     else if String.eqb page "new_customer"
                          then (b, [AppOnSubmit "#customerForm";
                                    AppCall initNewCustomer;
                                    AppCall populateProgramsForCustomer])
                          else if String.eqb page "new_program"
                               then (b, [AppOnSubmit "#programForm";
                                         AppCall initNewProgram])
                               else (b, []))) ->
            f = initNewCustomer \/ f = populateProgramsForCustomer
            \/ f = initNewProgram).
  { intros f. destruct (String.eqb page "scan").
    - intros H. destruct (Hscan f H).
    - destruct (String.eqb page "new_customer");
        [|destruct (String.eqb page "new_program")]; simpl; intros H;
        repeat (destruct H as [H|H]; [try discriminate H; injection H as <-; auto|]);
        destruct H. }
  destruct (if String.eqb page "scan" then callInitializeCamera env b
            else if String.eqb page "new_customer"
                 then (b, [AppOnSubmit "#customerForm";
                           AppCall initNewCustomer;
                           AppCall populateProgramsForCustomer])
                 else if String.eqb page "new_program"
                      then (b, [AppOnSubmit "#programForm";
                                AppCall initNewProgram])
                      else (b, [])) as [b2 events2].
  simpl in *.
  assert (Hno : forall f,
            f <> initNewCustomer -> f <> populateProgramsForCustomer ->
            f <> initNewProgram -> ~ In (AppCall f) events2).
  { intros f H1 H2 H3 H. destruct (Hrest f H) as [Hf | [Hf | Hf]]; contradiction. }
  split; [|split; [|split]]; (split; intros H).
  - exfalso. destruct H as [H|[H|[H|H]]]; try discriminate H.
    revert H. apply Hno; discriminate.
  - contradiction.
  - exact E1.
  - left. reflexivity.
  - exfalso. destruct H as [H|[H|[H|H]]]; try discriminate H.
    revert H. apply Hno; discriminate.
  - contradiction.
  - split; assumption.
  - right. right. left. reflexivity.
Qed.

Lemma shown_calls (f : External) (url : string) (events tail : list AppEvent)
    (P S : Prop) :
  f <> stopScanning -> S ->
  (In (AppCall f) events <-> P) ->
  ~ In (AppCall f) tail ->
  (In (AppCall f) (AppFetch url :: AppCall stopScanning :: events ++ tail)
   <-> P /\ S).
Proof.
  intros Hf HS HP Htail. split.
  - intros [H | [H | H]]; [discriminate H | congruence |].
    apply in_app_iff in H as [H | H]; [|contradiction].
    split; [apply HP, H | exact HS].
  - intros [HP' _]. right. right. apply in_app_iff. left. apply HP, HP'.
Qed.

(** The four equivalences of [timers_follow_the_views] where nothing is
    shown. *)
Ltac not_shown :=
  split; [|split; [|split]];
  (split; intros H;
   [ exfalso; repeat (destruct H as [H|H]; [discriminate H|]); exact H
   | exfalso; destruct H as [_ [[? H] H']];
     first [discriminate H | apply H'; reflexivity] ]).

(** X19.  The timers follow the views.  Call a navigation shown when
    the page was fetched, was [ok], its text was read and the promise
    of [stopScanning()] settled, either way.  Then [startMessagesTimer]
    is called exactly by a shown navigation to "customers",
    [stopMessagesTimer] exactly by a shown navigation elsewhere,
    [startMessagesTimerProgram] exactly by a shown navigation to
    "programs", and [stopMessagesTimerProgram] exactly by a shown
    navigation to a page other than "programs" and "customers": going
    to the customers view does not stop the timer of the programs
    view. *)
Theorem timers_follow_the_views (env : NavEnv) (page : string) (b : Browser) :
  let events := snd (navigateTo env page b) in
  let shown :=
    (exists html,
        fetch_result env = Fulfilled {| ok := true; text := Fulfilled html |})
    /\ stopScanning_result env <> Pending in
  (In (AppCall startMessagesTimer) events <-> page = "customers" /\ shown)
  /\ (In (AppCall stopMessagesTimer) events <-> page <> "customers" /\ shown)
  /\ (In (AppCall startMessagesTimerProgram) events
      <-> page = "programs" /\ shown)
  /\ (In (AppCall stopMessagesTimerProgram) events
      <-> (page <> "customers" /\ page <> "programs") /\ shown).
Proof.
  intros events shown. subst events shown. unfold navigateTo.
  destruct (fetch_result env) as [[isOk body]|err|]; simpl;
    [| not_shown .. ].
  destruct isOk; simpl; [| not_shown].
  destruct body as [html|err|]; simpl; [| not_shown .. ].
  unfold onHtml.
  set (b1 := render _ _).
  pose proof (pageLogic_timers (camera_env env) page b1) as Ht.
  cbv zeta in Ht. destruct Ht as (H1 & H2 & H3 & H4).
  destruct (stopScanning_result env) as [[]|err|];
    [ destruct (pageLogic (camera_env env) page b1) as [b2 events]
    | destruct (pageLogic (camera_env env) page b1) as [b2 events]
    | not_shown ]; simpl in *.
  - rewrite <- (app_nil_r events).
    split; [|split; [|split]];
      (apply shown_calls;
       [ discriminate
       | split; [eexists; reflexivity | discriminate]
       | assumption
       | intros [] ]).
  - split; [|split; [|split]];
      (apply shown_calls;
       [ discriminate
       | split; [eexists; reflexivity | discriminate]
       | assumption
       | intros [H | []]; discriminate H ]).
Qed.

(** X21.  [initializeApp] goes to the page that the hash names and to
    "customers" when there is no hash; in both cases the hash then
    names the page that was requested, so that a hash of the form
    [#page] is left as it is. *)
Theorem initializeApp_follows_the_hash (env : NavEnv) (b : Browser) :
  (location_hash b = "" ->
   initializeApp env b = navigateTo env "customers" b
   /\ location_hash (fst (initializeApp env b)) = "#customers")
  /\ (forall page,
        location_hash b = "#" ++ page ->
        initializeApp env b = navigateTo env page b
        /\ location_hash (fst (initializeApp env b)) = location_hash b).
Proof.
  unfold initializeApp. split.
  - intros ->. split; [reflexivity | apply navigateTo_hash].
  - intros page Hhash. rewrite Hhash. simpl.
    split; [reflexivity | apply navigateTo_hash].
Qed.

End Router.

Lemma navigateTo_failure_shows_404_witness :
  navigateTo envMissingPage "nowhere" browserReady
  = ({| scanWorld := worldReady;
        location_hash := "#nowhere";
        main_content := "<h1>404 - Page not found</h1>" |},
     [AppFetch "/nowhere";
      AppConsoleError "Navigation error:" "Error: Page not found"]).
Proof.
  apply (navigateTo_failure_shows_404 envMissingPage "nowhere"
           "Error: Page not found" browserReady).
  right. left. exists Pending. split; reflexivity.
Defined.

Lemma navigateTo_off_scan_leaves_camera_witness :
  filter isAppScan (snd (navigateTo (envPage "<h1>Customers</h1>") "customers"
                           browserReady)) = [].
Proof.
  apply (navigateTo_off_scan_leaves_camera (envPage "<h1>Customers</h1>")
           "customers" browserReady).
  discriminate.
Defined.

Lemma navigateTo_scan_again_witness :
  cameraInitialized (AppState (scanWorld browserReady)) = true
  /\ snd (navigateTo (envPage "<select id=cameraDropdown>") "scan" browserReady)
     = [AppFetch "/scan"; AppCall stopScanning; AppCall stopMessagesTimer;
        AppCall stopRewardBannerTimer; AppCall stopMessagesTimerProgram;
        AppScan EvStartScan].
Proof.
  split; [reflexivity|].
  apply (navigateTo_scan_again (envPage "<select id=cameraDropdown>")
           "<select id=cameraDropdown>" browserReady eq_refl eq_refl eq_refl).
Defined.

Lemma timers_follow_the_views_witness :
  In (AppCall startMessagesTimer)
     (snd (navigateTo (envPage "<h1>Customers</h1>") "customers" browserReady))
  /\ ~ In (AppCall stopMessagesTimerProgram)
         (snd (navigateTo (envPage "<h1>Customers</h1>") "customers" browserReady)).
Proof.
  destruct (timers_follow_the_views (envPage "<h1>Customers</h1>") "customers"
              browserReady) as (Hstart & _ & _ & HstopProgram).
  split.
  - apply Hstart. split; [reflexivity|].
    split; [eexists; reflexivity | discriminate].
  - intros H. apply HstopProgram in H. destruct H as [[Hp _] _].
    apply Hp. reflexivity.
Defined.

Lemma initializeApp_follows_the_hash_witness :
  location_hash (fst (initializeApp (envPage "<h1>Customers</h1>") browser0))
  = "#customers"
  /\ location_hash (fst (initializeApp (envPage "<h1>Programs</h1>")
                           (set_location_hash "#programs" browser0)))
     = "#programs".
Proof.
  split.
  - apply (initializeApp_follows_the_hash (envPage "<h1>Customers</h1>") browser0).
    reflexivity.
  - apply (proj2 (initializeApp_follows_the_hash (envPage "<h1>Programs</h1>")
                    (set_location_hash "#programs" browser0)) "programs").
    reflexivity.
Defined.
